(** * job_finder: the filter, the retrying fetcher, the career-page locator,
      the extraction cascade, the pagination loop and the aggregator.

    A shallow embedding of [src/filters.py], [src/aggregator.py],
    [src/scrapers/site_scraper.py] and [src/scrapers/langchain_agent.py].

    Python dictionaries are finite maps with string keys; an exception is a
    value of [pyexn] carried by [result]; network and browser calls are
    oracles on an explicit world, and every call is recorded in a trace. *)

From Stdlib Require Import ZArith Ascii String List Bool Lia.
From stdpp Require Import base gmap strings list.

Local Open Scope string_scope.
Local Open Scope Z_scope.
Local Open Scope list_scope.

(** ** Python values, exceptions and results *)

(** The values a job dictionary holds: text, a number of years, or [None]. *)
Inductive pyval : Type :=
| PStr (s : string)
| PInt (n : Z)
| PNone.

(** The exceptions the modelled code can raise. [OtherError] stands for an
    exception raised by a collaborator (a scraper task, a browser call). *)
Inductive pyexn : Type :=
| KeyError (key : string)
| AttributeError
| TypeError
| OtherError (msg : string).

Inductive result (A : Type) : Type :=
| Ok (a : A)
| Raise (e : pyexn).
Arguments Ok {A} a.
Arguments Raise {A} e.

Definition rbind {A B : Type} (r : result A) (k : A -> result B) : result B :=
  match r with
  | Ok a => k a
  | Raise e => Raise e
  end.

Notation "x <- e ;; k" := (rbind e (fun x => k))
  (at level 90, e at next level, right associativity).

(** Apply a function that can raise to every element in turn; the first
    exception ends the walk. *)
Fixpoint mapM {A B : Type} (f : A -> result B) (l : list A) : result (list B) :=
  match l with
  | [] => Ok []
  | a :: rest =>
      b <- f a ;;
      bs <- mapM f rest ;;
      Ok (b :: bs)
  end.

(** An attribute of an instance: read before any assignment, it raises
    [AttributeError]. *)
Inductive attribute (A : Type) : Type :=
| Unset
| Assigned (value : A).
Arguments Unset {A}.
Arguments Assigned {A} value.

(** ** Strings: [str.lower] and the [in] operator, on ASCII text *)

Definition lower_ascii (c : ascii) : ascii :=
  let n := nat_of_ascii c in
  if (Nat.leb 65 n && Nat.leb n 90)%bool then ascii_of_nat (n + 32) else c.

Fixpoint lower (s : string) : string :=
  match s with
  | EmptyString => EmptyString
  | String c r => String (lower_ascii c) (lower r)
  end.

(** [contains needle hay] is Python's [needle in hay] on strings. *)
Fixpoint contains (needle hay : string) : bool :=
  (String.prefix needle hay ||
   match hay with
   | EmptyString => false
   | String _ r => contains needle r
   end)%bool.

(** ** src/filters.py *)

Module Filters.

(** The "filters" mapping of config.yaml, by its five known keys; a key is
    present ([Some]) or absent ([None]). *)
Record FilterConfig : Type := {
  job_titles : option (list string);
  min_experience_years : option Z;
  max_experience_years : option Z;
  locations : option (list string);
  job_type : option (list string)
}.

(** [dict.get(key, default)]. *)
Definition get {A : Type} (field : option A) (default : A) : A :=
  match field with
  | Some v => v
  | None => default
  end.

(** Truth value of the mapping: [{}] is falsy, a mapping with a key is truthy. *)
Definition dict_truthy (c : FilterConfig) : bool :=
  match job_titles c, min_experience_years c, max_experience_years c,
        locations c, job_type c with
  | None, None, None, None, None => false
  | _, _, _, _, _ => true
  end.

(** [job[key]]. *)
Definition getitem (job : gmap string pyval) (key : string) : result pyval :=
  match job !! key with
  | Some v => Ok v
  | None => Raise (KeyError key)
  end.

(** [v.lower()]: only text has the method. *)
Definition str_lower (v : pyval) : result string :=
  match v with
  | PStr s => Ok (lower s)
  | _ => Raise AttributeError
  end.

(** [any(t.lower() in job[key].lower() for t in needles)]: the generator is
    consumed up to the first match, and [job[key]] is evaluated once per
    element consumed (never for an empty list). *)
Fixpoint any_in (needles : list string) (job : gmap string pyval)
         (key : string) : result bool :=
  match needles with
  | [] => Ok false
  | t :: ts =>
      v <- getitem job key ;;
      h <- str_lower v ;;
      if contains (lower t) h then Ok true else any_in ts job key
  end.

(** Lines 28-31: the experience test. *)
Definition experience_check (min_experience max_experience : Z)
           (job : gmap string pyval) : result bool :=
  match job !! "experience" with
  | None => Ok true
  | Some PNone => Ok true
  | Some (PInt e) =>
      if negb ((min_experience <=? e) && (e <=? max_experience))%bool
      then Ok false else Ok true
  | Some (PStr _) => Raise TypeError
  end.

(** Lines 33-39: a list filter is skipped when the list is empty. *)
Definition guarded_any (needles : list string) (job : gmap string pyval)
           (key : string) : result bool :=
  match needles with
  | [] => Ok true
  | _ :: _ => any_in needles job key
  end.

(** One iteration of the loop of lines 25-42: does the job pass? *)
Definition job_passes (titles : list string) (min_experience max_experience : Z)
           (locs types : list string) (job : gmap string pyval) : result bool :=
  title_ok <- any_in titles job "title" ;;
  experience_ok <- experience_check min_experience max_experience job ;;
  location_ok <- guarded_any locs job "location" ;;
  job_type_ok <- guarded_any types job "job_type" ;;
  Ok (title_ok && experience_ok && location_ok && job_type_ok)%bool.

Fixpoint filter_loop (titles : list string) (min_experience max_experience : Z)
         (locs types : list string) (jobs : list (gmap string pyval))
         (filtered : list (gmap string pyval)) : result (list (gmap string pyval)) :=
  match jobs with
  | [] => Ok filtered
  | job :: rest =>
      keep <- job_passes titles min_experience max_experience locs types job ;;
      filter_loop titles min_experience max_experience locs types rest
                  (if keep then filtered ++ [job] else filtered)
  end.

(** [filter_jobs(jobs, filter_config)]; [None] is Python's [None]. *)
Definition filter_jobs (jobs : list (gmap string pyval))
           (filter_config : option FilterConfig) : result (list (gmap string pyval)) :=
  match filter_config with
  | None => Ok jobs
  | Some c =>
      if negb (dict_truthy c) then Ok jobs
      else
        filter_loop (get (job_titles c) []) (get (min_experience_years c) 0)
                    (get (max_experience_years c) 100) (get (locations c) [])
                    (get (job_type c) []) jobs []
  end.

End Filters.

(** ** The world: network, HTML parser and browser as collaborators *)

(** A [requests.Response], by the attributes the code reads. *)
Module Response.
Record t : Type := {
  status_code : Z;
  history : list string;
  url : string;
  text : string
}.

(** [bool(response)] is [response.ok]: false for a 4xx or 5xx status. *)
Definition ok (r : t) : bool :=
  negb ((400 <=? status_code r) && (status_code r <? 600))%bool.
End Response.

(** [requests.get] returns a response or raises a [RequestException]. *)
Inductive get_outcome : Type :=
| Returns (r : Response.t)
| RequestException.

(** A BeautifulSoup element, by [elem.get_text(strip=True)]. *)
Record Tag : Type := { get_text : string }.

Inductive strategy : Type := NAIVE | RENDERED | LLM.

Inductive browser_call : Type :=
| Launch
| NewPage
| Goto (url : string)
| WaitForSelector (selector : string)
| Content (frame : string)
| QuerySelector (selector : string)
| Click
| Close.

(** What the instrumented code did, in order. *)
Inductive event : Type :=
| EGet (url : string)
| ESleep (seconds : Z)
| EStrategy (s : strategy) (target : string)
            (outcome : result (list (gmap string pyval)))
| EBrowser (call : browser_call).

Class Network (W : Type) : Type := {
  requests_get : string -> W -> get_outcome * W
}.

Class HtmlParser : Type := {
  (** [href] of every [a] element that has one, in document order. *)
  find_all_a_href : string -> list string;
  (** [soup.select(selector)] *)
  select : string -> string -> list Tag;
  (** [urllib.parse.urljoin], which raises [ValueError] on a target it
      cannot split, such as ["//["]. *)
  urljoin : string -> string -> result string
}.

Class Browser (W : Type) : Type := {
  launch : W -> result unit * W;
  new_page : W -> result unit * W;
  goto : string -> W -> result unit * W;
  wait_for_selector : string -> W -> result unit * W;
  frames : W -> list string;
  main_frame : W -> string;
  frame_content : string -> W -> result string * W;
  query_selector : string -> W -> result bool * W;
  click : W -> result unit * W;
  close : W -> result unit * W
}.

(** The members [SiteScraper._scrape_jobs_with_fallback] uses and
    site_scraper.py does not define: the cascade is modelled on an instance
    that was given them. *)
Class Strategies (W : Type) : Type := {
  _naive_parse_job_page : string -> string -> W -> result (list (gmap string pyval)) * W;
  _playwright_scrape_jobs : string -> string -> W -> result (list (gmap string pyval)) * W;
  use_llm : bool;
  llm_service : option (string -> W -> result (list (gmap string pyval)) * W)
}.

(** [langchain_agent.find_jobs], the agent-driven scrape of one company. *)
Class JobAgent (W : Type) : Type := {
  find_jobs : string -> W -> result (list (gmap string pyval)) * W
}.

(** What [agent.invoke] hands back: a list of dictionaries, or anything
    else. *)
Inductive agent_response : Type :=
| Structured (jobs : list (gmap string pyval))
| Unstructured.

(** The LangChain agent of langchain_agent.py, asked about one URL. *)
Class Agent (W : Type) : Type := {
  agent_invoke : string -> W -> result agent_response * W
}.

(** ** A state and exception monad over the world and the trace *)

Section Effects.
Context {W : Type}.

Record State : Type := { world : W; trace : list event }.

Definition M (A : Type) : Type := State -> result A * State.

Definition ret {A : Type} (a : A) : M A := fun s => (Ok a, s).

Definition bind {A B : Type} (m : M A) (k : A -> M B) : M B :=
  fun s =>
    match m s with
    | (Ok a, s') => k a s'
    | (Raise e, s') => (Raise e, s')
    end.

(** Run an oracle on the world and record the call. *)
Definition call {A : Type} (ev : event) (f : W -> A * W) : M A :=
  fun s =>
    let (a, w) := f (world s) in
    (Ok a, {| world := w; trace := trace s ++ [ev] |}).

(** The same for an oracle that can raise. *)
Definition call_raising {A : Type} (ev : event) (f : W -> result A * W) : M A :=
  fun s =>
    let (r, w) := f (world s) in
    (r, {| world := w; trace := trace s ++ [ev] |}).

(** A computation that asks nothing of the world and can raise. *)
Definition lift {A : Type} (r : result A) : M A := fun s => (r, s).

(** [time.sleep] / [asyncio.sleep] *)
Definition sleep (seconds : Z) : M unit :=
  fun s => (Ok tt, {| world := world s; trace := trace s ++ [ESleep seconds] |}).

(** [try: body finally: cleanup] *)
Definition finally {A : Type} (body : M A) (cleanup : M unit) : M A :=
  fun s =>
    match body s with
    | (r, s') =>
        match cleanup s' with
        | (Ok _, s'') => (r, s'')
        | (Raise e, s'') => (Raise e, s'')
        end
    end.

End Effects.
Arguments State W : clear implicits.
Arguments M W A : clear implicits.

Notation "x <~ e ;; k" := (bind e (fun x => k))
  (at level 90, e at next level, right associativity).

(** [re.search(r"a|b|...", s, re.IGNORECASE)] for literal alternatives. *)
Definition re_search_ignorecase (alternatives : list string) (s : string) : bool :=
  existsb (fun kw => contains (lower kw) (lower s)) alternatives.
Arguments re_search_ignorecase : simpl never.

(** [x in l] for a list of strings. *)
Definition str_in (x : string) (l : list string) : bool :=
  existsb (String.eqb x) l.

(** [range(start, stop)] *)
Definition range (start stop : Z) : list Z :=
  map (fun i => start + Z.of_nat i) (seq 0 (Z.to_nat (stop - start))).

(** ** src/scrapers/site_scraper.py *)

Module SiteScraper.

Definition MAX_RETRIES : Z := 3.

Section Methods.
Context {W : Type} `{Network W} `{HtmlParser} `{Browser W} `{Strategies W}
        `{JobAgent W}.

(** [scrape_company_jobs]: the agent's jobs, logged and returned as they are. *)
Definition scrape_company_jobs (company_url : string)
  : W -> result (list (gmap string pyval)) * W :=
  find_jobs company_url.

(** The loop of [_get_with_retries] over [range(MAX_RETRIES)]. The second
    [requests.get] is evaluated inside the [try], so a [RequestException]
    it raises is handled like one of the first. *)
Fixpoint retry_loop (attempts : list Z) (url : string) : M W (option Response.t) :=
  match attempts with
  | [] => ret None
  | attempt :: rest =>
      o <~ call (EGet url) (requests_get url) ;;
      match o with
      | Returns response =>
          if Response.status_code response =? 200 then
            match Response.history response with
            | _ :: _ =>
                o2 <~ call (EGet (Response.url response))
                           (requests_get (Response.url response)) ;;
                match o2 with
                | Returns final => ret (Some final)
                | RequestException =>
                    _ <~ sleep (2 ^ attempt) ;; retry_loop rest url
                end
            | [] => ret (Some response)
            end
          else _ <~ sleep (2 ^ attempt) ;; retry_loop rest url
      | RequestException => _ <~ sleep (2 ^ attempt) ;; retry_loop rest url
      end
  end.

Definition _get_with_retries (url : string) : M W (option Response.t) :=
  retry_loop (range 0 MAX_RETRIES) url.

Definition _build_absolute_url (base_url relative_path : string) : result string :=
  if String.prefix "http" relative_path then Ok relative_path
  else urljoin base_url relative_path.

(** [if not response]: [None], or a response that is not [ok]. *)
Definition falsy (response : option Response.t) : bool :=
  match response with
  | None => true
  | Some r => negb (Response.ok r)
  end.

Definition careers_keywords : list string :=
  ["careers"; "jobs"; "join-our-team"; "join-us"].

(** Lines 55-58: an [href] that starts with [http] is kept as it is. *)
Definition full_url_of (company_url href : string) : result string :=
  if (String.prefix "https" href || String.prefix "http" href)%bool
  then Ok href
  else _build_absolute_url company_url href.

(** The loop of [find_careers_pages], lines 51-62; nothing in it catches
    the exception of [urljoin]. *)
Fixpoint careers_loop (company_url : string) (links : list string)
         (careers_pages : list string) : result (list string) :=
  match links with
  | [] => Ok careers_pages
  | href :: rest =>
      full_url <- full_url_of company_url href ;;
      careers_loop company_url rest
        (if re_search_ignorecase careers_keywords full_url
         then if negb (str_in full_url careers_pages)
              then careers_pages ++ [full_url]
              else careers_pages
         else careers_pages)
  end.

Definition find_careers_pages (company_url : string) : M W (list string) :=
  response <~ _get_with_retries company_url ;;
  match response with
  | Some r =>
      if falsy response then ret [company_url]
      else
        careers_pages <~
          lift (careers_loop company_url (find_all_a_href (Response.text r)) []) ;;
        ret (match careers_pages with
             | [] => [company_url]
             | _ :: _ => careers_pages
             end)
  | None => ret [company_url]
  end.

Definition deep_keywords : list string := ["jobs"; "positions"; "careers-home"].

(** The loop of [_find_deep_career_pages], lines 81-86: only an [href]
    that matches is resolved, and the exception of [urljoin] is not caught. *)
Fixpoint deep_loop (career_page_url : string) (links : list string)
         (deep_links : list string) : result (list string) :=
  match links with
  | [] => Ok deep_links
  | href :: rest =>
      if re_search_ignorecase deep_keywords href
      then
        full_url <- _build_absolute_url career_page_url href ;;
        deep_loop career_page_url rest
          (if negb (str_in full_url deep_links)
           then deep_links ++ [full_url]
           else deep_links)
      else deep_loop career_page_url rest deep_links
  end.

Definition _find_deep_career_pages (career_page_url : string) : M W (list string) :=
  response <~ _get_with_retries career_page_url ;;
  match response with
  | Some r =>
      if falsy response then ret []
      else lift (deep_loop career_page_url (find_all_a_href (Response.text r)) [])
  | None => ret []
  end.

(** Invoke one strategy on a target and record the call with what it gave. *)
Definition invoke (s : strategy) (target : string)
           (f : W -> result (list (gmap string pyval)) * W)
  : M W (list (gmap string pyval)) :=
  fun st =>
    let (r, w) := f (world st) in
    (r, {| world := w; trace := trace st ++ [EStrategy s target r] |}).

(** The loop of [_scrape_jobs_with_fallback], lines 111-126. *)
Fixpoint job_pages_loop (job_page_urls : list string) (company_url : string)
         (all_jobs : list (gmap string pyval)) : M W (list (gmap string pyval)) :=
  match job_page_urls with
  | [] => ret all_jobs
  | job_page_url :: rest =>
      jobs <~ invoke NAIVE job_page_url
                     (_naive_parse_job_page job_page_url company_url) ;;
      match jobs with
      | _ :: _ => job_pages_loop rest company_url (all_jobs ++ jobs)
      | [] =>
          playwright_jobs <~ invoke RENDERED job_page_url
                                    (_playwright_scrape_jobs job_page_url company_url) ;;
          match playwright_jobs with
          | _ :: _ => job_pages_loop rest company_url (all_jobs ++ playwright_jobs)
          | [] => job_pages_loop rest company_url all_jobs
          end
      end
  end.

Definition _scrape_jobs_with_fallback (url company_url : string)
  : M W (list (gmap string pyval)) :=
  deep <~ _find_deep_career_pages url ;;
  let job_page_urls := match deep with [] => [url] | _ :: _ => deep end in
  all_jobs <~ job_pages_loop job_page_urls company_url [] ;;
  match all_jobs, use_llm, llm_service with
  | [], true, Some parse_jobs_with_llm =>
      llm_jobs <~ invoke LLM company_url (parse_jobs_with_llm company_url) ;;
      ret (all_jobs ++ llm_jobs)
  | _, _, _ => ret all_jobs
  end.

(** [_extract_job_data]: the title is the element's stripped text cut to 50
    characters; an element with no text gives [None]. *)
Definition _extract_job_data (elem : option Tag) (company_url source_url : string)
  : option (gmap string pyval) :=
  let title :=
    match elem with
    | Some e => Some (String.substring 0 50 (get_text e))
    | None => None
    end in
  match title with
  | Some (String c r) =>
      Some (<["company" := PStr company_url]>
              (<["title" := PStr (String c r)]>
                 (<["url" := PStr source_url]> ∅)))
  | _ => None
  end.

(** [for elem in job_elems: ... jobs.append(job_data)] *)
Fixpoint extract_all (job_elems : list Tag) (company_url url : string)
         (jobs : list (gmap string pyval)) : list (gmap string pyval) :=
  match job_elems with
  | [] => jobs
  | elem :: rest =>
      extract_all rest company_url url
        (match _extract_job_data (Some elem) company_url url with
         | Some job_data => jobs ++ [job_data]
         | None => jobs
         end)
  end.

Definition naive_scrape (url company_url : string)
  : M W (list (gmap string pyval)) :=
  response <~ _get_with_retries url ;;
  match response with
  | Some r =>
      if falsy response then ret []
      else ret (extract_all (select "[class*=job], [class*=position]" (Response.text r))
                            company_url url [])
  | None => ret []
  end.

Definition next_selector : string := "a[aria-label='Next'], a.next, button.next".
Definition listing_selector : string :=
  "[class*=job], [class*=position], [class*=listing]".

(** Lines 183-186: the second frame when the page has more than one. *)
Definition listing_frame (w : W) : string :=
  match frames w with
  | _ :: second :: _ => second
  | _ => main_frame w
  end.

(** The [for page_num in range(1, max_pages + 1)] loop of [playwright_scrape].
    The local [jobs] outlives an exception (the [except] clause only logs),
    so the loop hands it back next to the outcome. *)
Fixpoint pagination_loop (page_nums : list Z) (url company_url : string)
         (jobs : list (gmap string pyval)) (s : State W)
  : result unit * list (gmap string pyval) * State W :=
  match page_nums with
  | [] => (Ok tt, jobs, s)
  | page_num :: rest =>
      match call_raising (EBrowser (WaitForSelector "body"))
                         (wait_for_selector "body") s with
      | (Raise e, s1) => (Raise e, jobs, s1)
      | (Ok _, s1) =>
          let frame := listing_frame (world s1) in
          match call_raising (EBrowser (Content frame)) (frame_content frame) s1 with
          | (Raise e, s2) => (Raise e, jobs, s2)
          | (Ok content, s2) =>
              match select listing_selector content with
              | [] => (Ok tt, jobs, s2)
              | job_elems =>
                  let jobs' := extract_all job_elems company_url url jobs in
                  match call_raising (EBrowser (QuerySelector next_selector))
                                     (query_selector next_selector) s2 with
                  | (Raise e, s3) => (Raise e, jobs', s3)
                  | (Ok false, s3) => (Ok tt, jobs', s3)
                  | (Ok true, s3) =>
                      match call_raising (EBrowser Click) click s3 with
                      | (Raise e, s4) => (Raise e, jobs', s4)
                      | (Ok _, s4) =>
                          match sleep 3 s4 with
                          | (_, s5) => pagination_loop rest url company_url jobs' s5
                          end
                      end
                  end
              end
          end
      end
  end.

(** Lines 172-173: [launch] and [new_page] come before the [try], so what
    they raise leaves the function at once, without the [browser.close()]
    of the [finally] clause. *)
Definition playwright_scrape (url company_url : string) (max_pages : Z)
  : M W (list (gmap string pyval)) :=
  _ <~ call_raising (EBrowser Launch) launch ;;
  _ <~ call_raising (EBrowser NewPage) new_page ;;
  finally
    (fun s =>
       match call_raising (EBrowser (Goto url)) (goto url) s with
       | (Raise e, s1) => (Ok [], s1)
       | (Ok _, s1) =>
           match pagination_loop (range 1 (max_pages + 1)) url company_url [] s1 with
           | (_, jobs, s2) => (Ok jobs, s2)
           end
       end)
    (call_raising (EBrowser Close) close).

(** The call of job_main.py, [scraper.playwright_scrape(url, url)], which
    leaves [max_pages] at its default. *)
Definition playwright_tool (url : string) : M W (list (gmap string pyval)) :=
  playwright_scrape url url 3.

(** [llm_extract]: the postings of the LLM service, each cut down to its
    title ([job.get("title", "Unknown")]) next to the two URLs. *)
Definition llm_record (url company_url : string) (job : gmap string pyval)
  : gmap string pyval :=
  <["title" := default (PStr "Unknown") (job !! "title")]>
    (<["company" := PStr company_url]> (<["url" := PStr url]> ∅)).

(** [llm_extract] reads [self.llm_service], which [__init__] (lines 26-27)
    does not set: on an instance as the class builds it the read raises
    [AttributeError]; [None] or a service is what a caller assigned. *)
Definition llm_extract
           (self_llm_service :
              attribute (option (string -> W -> result (list (gmap string pyval)) * W)))
           (url company_url : string) : M W (list (gmap string pyval)) :=
  match self_llm_service with
  | Unset => lift (Raise AttributeError)
  | Assigned None => ret []
  | Assigned (Some parse_jobs_with_llm) =>
      response <~ invoke LLM url (parse_jobs_with_llm url) ;;
      ret (map (llm_record url company_url) response)
  end.

(** The call of job_main.py, [scraper.llm_extract(url, url)] on
    [SiteScraper()]. *)
Definition llm_tool (url : string) : M W (list (gmap string pyval)) :=
  llm_extract Unset url url.

End Methods.
End SiteScraper.

(** ** src/scrapers/langchain_agent.py *)

Module LangchainAgent.

Definition MAX_RETRIES : Z := 3.

Section Methods.
Context {W : Type} `{Network W} `{HtmlParser}.

(** The loop of [_get_with_retries] over [range(MAX_RETRIES)]. *)
Fixpoint retry_loop (attempts : list Z) (url : string) : M W (option Response.t) :=
  match attempts with
  | [] => ret None
  | attempt :: rest =>
      o <~ call (EGet url) (requests_get url) ;;
      match o with
      | Returns response =>
          if Response.status_code response =? 200 then ret (Some response)
          else _ <~ sleep (2 ^ attempt) ;; retry_loop rest url
      | RequestException => _ <~ sleep (2 ^ attempt) ;; retry_loop rest url
      end
  end.

Definition _get_with_retries (url : string) : M W (option Response.t) :=
  retry_loop (range 0 MAX_RETRIES) url.

Definition careers_keywords : list string := ["careers"; "jobs"; "join-us"].

(** Line 88. *)
Definition full_url_of (company_url href : string) : result string :=
  if String.prefix "http" href then Ok href else urljoin company_url href.

(** The loop of [find_careers_pages], lines 86-90; nothing in it catches
    the exception of [urljoin]. *)
Fixpoint careers_loop (company_url : string) (links : list string)
         (careers_pages : list string) : result (list string) :=
  match links with
  | [] => Ok careers_pages
  | href :: rest =>
      full_url <- full_url_of company_url href ;;
      careers_loop company_url rest
        (if re_search_ignorecase careers_keywords full_url
         then careers_pages ++ [full_url]
         else careers_pages)
  end.

Definition find_careers_pages (company_url : string) : M W (list string) :=
  response <~ _get_with_retries company_url ;;
  match response with
  | Some r =>
      if negb (Response.ok r) then ret [company_url]
      else
        careers_pages <~
          lift (careers_loop company_url (find_all_a_href (Response.text r)) []) ;;
        ret (match careers_pages with
             | [] => [company_url]
             | _ :: _ => careers_pages
             end)
  | None => ret [company_url]
  end.

(** [llm_extract], lines 126-134; [__init__] sets [self.llm_service] to a
    service or to [None]. *)
Definition llm_extract
           (llm_service : option (string -> W -> result (list (gmap string pyval)) * W))
           (url : string) : M W (list (gmap string pyval)) :=
  match llm_service with
  | Some parse_jobs_with_llm =>
      response <~ SiteScraper.invoke LLM url (parse_jobs_with_llm url) ;;
      ret (map (SiteScraper.llm_record url url) response)
  | None => ret []
  end.

(** The loop of [scrape_company_jobs], lines 62-75: a structured response
    extends [all_jobs]; an unstructured one, or an exception of the agent, is
    logged and the loop goes on. *)
Fixpoint agent_loop `{Agent W} (careers_urls : list string)
         (all_jobs : list (gmap string pyval)) (w : W)
  : list (gmap string pyval) * W :=
  match careers_urls with
  | [] => (all_jobs, w)
  | url :: rest =>
      match agent_invoke url w with
      | (Ok (Structured response), w1) => agent_loop rest (all_jobs ++ response) w1
      | (Ok Unstructured, w1) => agent_loop rest all_jobs w1
      | (Raise e, w1) => agent_loop rest all_jobs w1
      end
  end.

Definition scrape_company_jobs `{Agent W} (company_url : string)
  : M W (list (gmap string pyval)) :=
  careers_urls <~ find_careers_pages company_url ;;
  fun s =>
    let (all_jobs, w) := agent_loop careers_urls [] (world s) in
    (Ok all_jobs, {| world := w; trace := trace s |}).

(** The agent's answers to the URLs, asked one after the other. *)
Fixpoint agent_answers `{Agent W} (careers_urls : list string) (w : W)
  : list (result agent_response) :=
  match careers_urls with
  | [] => []
  | url :: rest =>
      let (answer, w1) := agent_invoke url w in
      answer :: agent_answers rest w1
  end.

End Methods.
End LangchainAgent.

(** ** src/aggregator.py *)

Module Aggregator.

Section Run.
Context {W : Type} `{JobAgent W}.

(** Run the tasks of [asyncio.gather] one after the other; each leaves its
    outcome. *)
Fixpoint run_tasks (company_list : list string) (w : W)
  : list (result (list (gmap string pyval))) * W :=
  match company_list with
  | [] => ([], w)
  | company_url :: rest =>
      let (r, w1) := SiteScraper.scrape_company_jobs company_url w in
      let (rs, w2) := run_tasks rest w1 in
      (r :: rs, w2)
  end.

(** What awaiting [gather] gives without [return_exceptions]: the list of
    results in input order, or an exception as soon as one task raised one
    (represented by the first in input order). *)
Fixpoint collect {A : Type} (outcomes : list (result A)) : result (list A) :=
  match outcomes with
  | [] => Ok []
  | Ok a :: rest => rs <- collect rest ;; Ok (a :: rs)
  | Raise e :: _ => Raise e
  end.

Definition gather (company_list : list string) (w : W)
  : result (list (list (gmap string pyval))) * W :=
  let (outcomes, w') := run_tasks company_list w in
  (collect outcomes, w').

(** The loop of lines 30-38 over [zip(job_results, company_list)]. Its
    [try] wraps only the test and the [extend], which cannot raise on a
    list. *)
Fixpoint extend_all (pairs : list (list (gmap string pyval) * string))
         (all_jobs : list (gmap string pyval)) : list (gmap string pyval) :=
  match pairs with
  | [] => all_jobs
  | (job_posts, company_url) :: rest =>
      extend_all rest
        (match job_posts with
         | _ :: _ => all_jobs ++ job_posts
         | [] => all_jobs
         end)
  end.

Definition run (company_list : list string) (w : W)
  : result (list (gmap string pyval)) * W :=
  match gather company_list w with
  | (Ok job_results, w') => (Ok (extend_all (combine job_results company_list) []), w')
  | (Raise e, w') => (Raise e, w')
  end.

End Run.
End Aggregator.

(** ** The filter as the specification words it *)

Module FilterSpec.
Import Filters.

(** The text under a key, empty when the key holds no text. *)
Definition text_of (job : gmap string pyval) (key : string) : string :=
  match job !! key with
  | Some (PStr s) => s
  | _ => ""
  end.

(** Some configured entry is a case-insensitive substring of [hay]. *)
Definition any_substring (needles : list string) (hay : string) : bool :=
  existsb (fun t => contains (lower t) (lower hay)) needles.

(** "The list is empty OR any configured entry is a case-insensitive
    substring of the job's field." *)
Definition list_dimension (needles : list string) (job : gmap string pyval)
           (key : string) : bool :=
  match needles with
  | [] => true
  | _ :: _ => any_substring needles (text_of job key)
  end.

Definition within (lo hi : option Z) (e : Z) : bool :=
  (match lo with Some l => l <=? e | None => true end &&
   match hi with Some h => e <=? h | None => true end)%bool.

(** "No experience field present on the job, OR the job's experience value
    lies within the bounds", an absent bound imposing no constraint. *)
Definition spec_experience_ok (c : FilterConfig) (job : gmap string pyval) : bool :=
  match job !! "experience" with
  | Some (PInt e) => within (min_experience_years c) (max_experience_years c) e
  | _ => true
  end.

Definition spec_passes (c : FilterConfig) (job : gmap string pyval) : bool :=
  (list_dimension (get (job_titles c) []) job "title" &&
   spec_experience_ok c job &&
   list_dimension (get (locations c) []) job "location" &&
   list_dimension (get (job_type c) []) job "job_type")%bool.

(** The experience dimension with the bounds the code falls back to: an
    absent minimum is 0 and an absent maximum is 100. *)
Definition default_experience_ok (c : FilterConfig) (job : gmap string pyval) : bool :=
  match job !! "experience" with
  | Some (PInt e) =>
      within (Some (get (min_experience_years c) 0))
             (Some (get (max_experience_years c) 100)) e
  | _ => true
  end.

Definition amended_passes (c : FilterConfig) (job : gmap string pyval) : bool :=
  (list_dimension (get (job_titles c) []) job "title" &&
   default_experience_ok c job &&
   list_dimension (get (locations c) []) job "location" &&
   list_dimension (get (job_type c) []) job "job_type")%bool.

Definition is_text (v : option pyval) : bool :=
  match v with
  | Some (PStr _) => true
  | _ => false
  end.

Definition needs_text (needles : list string) (job : gmap string pyval)
           (key : string) : bool :=
  match needles with
  | [] => true
  | _ :: _ => is_text (job !! key)
  end.

(** A job the filter can read: every field a configured list looks at holds
    text, and the experience, when present, is a number or [None]. *)
Definition readable (c : FilterConfig) (job : gmap string pyval) : bool :=
  (needs_text (get (job_titles c) []) job "title" &&
   match job !! "experience" with Some (PStr _) => false | _ => true end &&
   needs_text (get (locations c) []) job "location" &&
   needs_text (get (job_type c) []) job "job_type")%bool.

End FilterSpec.

(** ** Concrete jobs, configurations and worlds *)

Module Fixtures.
Import Filters.

Definition no_filter : FilterConfig :=
  {| job_titles := None; min_experience_years := None;
     max_experience_years := None; locations := None; job_type := None |}.

(** [{"job_titles": []}] *)
Definition empty_titles : FilterConfig :=
  {| job_titles := Some []; min_experience_years := None;
     max_experience_years := None; locations := None; job_type := None |}.

(** [{"job_titles": ["engineer"]}] *)
Definition engineer_only : FilterConfig :=
  {| job_titles := Some ["engineer"]; min_experience_years := None;
     max_experience_years := None; locations := None; job_type := None |}.

(** [{"job_titles": ["engineer"], "locations": ["remote"]}] *)
Definition remote_engineer : FilterConfig :=
  {| job_titles := Some ["engineer"]; min_experience_years := None;
     max_experience_years := None; locations := Some ["remote"]; job_type := None |}.

(** [{"job_titles": ["engineer"], "min_experience_years": 0,
      "max_experience_years": 2}] *)
Definition junior_engineer : FilterConfig :=
  {| job_titles := Some ["engineer"]; min_experience_years := Some 0;
     max_experience_years := Some 2; locations := None; job_type := None |}.

(** [{"job_titles": ["ENGINEER"], "locations": ["Remote"]}] *)
Definition remote_engineer_caps : FilterConfig :=
  {| job_titles := Some ["ENGINEER"]; min_experience_years := None;
     max_experience_years := None; locations := Some ["Remote"]; job_type := None |}.

(** [{"locations": ["remote"]}] *)
Definition remote_only : FilterConfig :=
  {| job_titles := None; min_experience_years := None;
     max_experience_years := None; locations := Some ["remote"]; job_type := None |}.

(** [{"job_type": ["full-time"]}] *)
Definition full_time : FilterConfig :=
  {| job_titles := None; min_experience_years := None;
     max_experience_years := None; locations := None;
     job_type := Some ["full-time"] |}.

(** [{"title": "Engineer", "company": "acme", "url": "u"}] *)
Definition scraped_job : gmap string pyval :=
  <["company" := PStr "acme"]> (<["title" := PStr "Engineer"]> (<["url" := PStr "u"]> ∅)).

(** [{"title": "Senior Engineer", "experience": 150}] *)
Definition veteran_job : gmap string pyval :=
  <["title" := PStr "Senior Engineer"]> (<["experience" := PInt 150]> ∅).

(** A posting as the LLM service returns it, its experience in words. *)
Definition llm_job : gmap string pyval :=
  <["title" := PStr "Product Manager"]>
    (<["location" := PStr "Remote"]>
       (<["job_type" := PStr "Full-time"]>
          (<["experience" := PStr "5+ years"]>
             (<["description" := PStr ""]> (<["url" := PStr ""]> ∅))))).

(** [{"title": "Engineer", "location": "Berlin"}] *)
Definition onsite_job : gmap string pyval :=
  <["title" := PStr "Engineer"]> (<["location" := PStr "Berlin"]> ∅).

(** [{"title": "Senior Engineer", "experience": 6, "location": "Remote"}] *)
Definition senior_job : gmap string pyval :=
  <["title" := PStr "Senior Engineer"]>
    (<["experience" := PInt 6]> (<["location" := PStr "Remote"]> ∅)).

End Fixtures.

(** ** Reading a trace *)

Definition gets_of (t : list event) : list string :=
  flat_map (fun e => match e with EGet u => [u] | _ => [] end) t.

Definition delays_of (t : list event) : list Z :=
  flat_map (fun e => match e with ESleep d => [d] | _ => [] end) t.

(** Later entries are never smaller than earlier ones. *)
Definition non_decreasing (l : list Z) : Prop :=
  forall (i j : nat) (d e : Z),
    (i <= j)%nat -> l !! i = Some d -> l !! j = Some e -> d <= e.

(** One [wait_for_selector("body")] opens each iteration of the pagination
    loop. *)
Definition is_page_wait (e : event) : bool :=
  match e with
  | EBrowser (WaitForSelector _) => true
  | _ => false
  end.

Definition page_iterations (t : list event) : nat :=
  length (List.filter is_page_wait t).

(** The jobs the strategy calls of a trace returned, in call order. *)
Definition jobs_found (t : list event) : list (gmap string pyval) :=
  flat_map (fun e => match e with EStrategy _ _ (Ok jobs) => jobs | _ => [] end) t.

Definition is_strategy_call (e : event) : bool :=
  match e with
  | EStrategy _ _ _ => true
  | _ => false
  end.


Module Worlds.

Definition response (status : Z) (hist : list string) (final body : string)
  : Response.t :=
  {| Response.status_code := status; Response.history := hist;
     Response.url := final; Response.text := body |}.

(** An endpoint that answers every request with status 500. *)
Definition always_500 : Network unit :=
  {| requests_get := fun u w => (Returns (response 500 [] u ""), w) |}.

(** A scripted network: the world is the list of outcomes still to come. *)
Definition scripted : Network (list get_outcome) :=
  {| requests_get := fun u w =>
       match w with
       | o :: rest => (o, rest)
       | [] => (RequestException, [])
       end |}.

(** A network that serves one fixed page, with status 200, for every URL. *)
Definition serving (body : string) : Network unit :=
  {| requests_get := fun u w => (Returns (response 200 [] u body), w) |}.

(** A parser for pages written as their [href]s separated by spaces;
    [urljoin] appends the path to the base. *)
Fixpoint words_from (s : string) (current : string) : list string :=
  match s with
  | EmptyString => match current with EmptyString => [] | _ => [current] end
  | String c r =>
      if Ascii.eqb c " "%char
      then match current with
           | EmptyString => words_from r EmptyString
           | _ => current :: words_from r EmptyString
           end
      else words_from r (current +:+ String c EmptyString)
  end.

Definition word_parser : HtmlParser :=
  {| find_all_a_href := fun page => words_from page EmptyString;
     select := fun selector page =>
                 map (fun w => {| get_text := w |}) (words_from page EmptyString);
     urljoin := fun base path => Ok (base +:+ path) |}.

(** The same parser with the [urljoin] of urllib on a target that opens a
    bracket in its host and never closes it: [ValueError("Invalid IPv6
    URL")]. *)
Definition strict_parser : HtmlParser :=
  {| find_all_a_href := fun page => words_from page EmptyString;
     select := fun selector page =>
                 map (fun w => {| get_text := w |}) (words_from page EmptyString);
     urljoin := fun base path =>
                  if (String.prefix "//[" path && negb (contains "]" path))%bool
                  then Raise (OtherError "ValueError: Invalid IPv6 URL")
                  else Ok (base +:+ path) |}.

End Worlds.

Module Browsers.

(** A browser whose every call succeeds and whose page is empty. *)
Definition blank_browser : Browser unit :=
  {| launch := fun w => (Ok tt, w);
     new_page := fun w => (Ok tt, w);
     goto := fun url w => (Ok tt, w);
     wait_for_selector := fun selector w => (Ok tt, w);
     frames := fun w => ["main"];
     main_frame := fun w => "main";
     frame_content := fun frame w => (Ok "", w);
     query_selector := fun selector w => (Ok false, w);
     click := fun w => (Ok tt, w);
     close := fun w => (Ok tt, w) |}.

(** A browser that launches and then fails to open a page. *)
Definition no_page_browser : Browser unit :=
  {| launch := fun w => (Ok tt, w);
     new_page := fun w => (Raise (OtherError "Target closed"), w);
     goto := fun url w => (Ok tt, w);
     wait_for_selector := fun selector w => (Ok tt, w);
     frames := fun w => ["main"];
     main_frame := fun w => "main";
     frame_content := fun frame w => (Ok "", w);
     query_selector := fun selector w => (Ok false, w);
     click := fun w => (Ok tt, w);
     close := fun w => (Ok tt, w) |}.

End Browsers.

Module Redirect.

(** The first answer: status 200, reached through one redirect. *)
Definition stub : Response.t :=
  Worlds.response 200 ["http://old.example"] "http://new.example" "moved".

(** The answer to the second GET, of the final URL: status 500. *)
Definition broken : Response.t :=
  Worlds.response 500 [] "http://new.example" "error".

Definition script : list get_outcome := [Returns stub; Returns broken].

End Redirect.

Module Malformed.

(** A homepage whose one link opens a bracket it never closes, and a career
    page with such a link that names [jobs]. *)
Definition homepage : string := "//[".
Definition career_page : string := "//[jobs".

End Malformed.

Module Homepage.

(** A homepage that links twice to its careers page and once to
    [/join-our-team]. *)
Definition page : string := "/careers /about /careers /join-our-team".

Definition start : State unit := {| world := tt; trace := [] |}.

End Homepage.

Module Companies.

(** The one job the agent finds at a company. *)
Definition job_at (company_url : string) : gmap string pyval :=
  <["company" := PStr company_url]>
    (<["title" := PStr "Engineer"]> (<["url" := PStr company_url]> ∅)).

(** An agent that raises for [http://b.example] and finds one job anywhere
    else. *)
Definition second_fails : JobAgent unit :=
  {| find_jobs := fun company_url w =>
       if String.eqb company_url "http://b.example"
       then (Raise (OtherError "agent failed"), w)
       else (Ok [job_at company_url], w) |}.

Definition three : list string :=
  ["http://a.example"; "http://b.example"; "http://c.example"].

(** An agent that finds one job at every company. *)
Definition all_succeed : JobAgent unit :=
  {| find_jobs := fun company_url w => (Ok [job_at company_url], w) |}.

End Companies.

Module TwoPages.

(** A career page that links to two deeper pages. *)
Definition page : string := "/jobs /positions".


(** Strategies that find nothing anywhere, with no LLM in use. *)
Definition barren : Strategies unit :=
  {| _naive_parse_job_page := fun job_page_url company_url w => (Ok [], w);
     _playwright_scrape_jobs := fun job_page_url company_url w => (Ok [], w);
     use_llm := false;
     llm_service := None |}.

(** An LLM service that returns one full posting. *)
Definition with_llm : Strategies unit :=
  {| _naive_parse_job_page := fun job_page_url company_url w => (Ok [], w);
     _playwright_scrape_jobs := fun job_page_url company_url w => (Ok [], w);
     use_llm := true;
     llm_service := Some (fun url w => (Ok [Fixtures.llm_job], w)) |}.

End TwoPages.

(** ** src/scrapers/company_lists_scraper.py *)

Module CompanyListsScraper.

(** An element a selector matched, by [get_text(strip=True)] and by its
    [href] attribute, when it has one. *)
Record Anchor : Type := { anchor_text : string; href : option string }.

(** One entry of [self.sites]. *)
Module Site.
Record t : Type := {
  url : string;
  selector : string;
  url_selector : string;
  wait_selector : string;
  popup_selectors : list string;
  use_custom_ua : bool
}.
End Site.

Definition latka : Site.t :=
  {| Site.url := "https://getlatka.com/companies/countries/canada/cities/waterloo";
     Site.selector := "div.company-row div.company-name a";
     Site.url_selector := "div.company-row div.company-name a";
     Site.wait_selector := "div.company-row";
     Site.popup_selectors :=
       ["div.popup-close"; "button[aria-label='Close']"; "button.close"];
     Site.use_custom_ua := true |}.

Definition apmlist : Site.t :=
  {| Site.url := "https://apmlist.com/";
     Site.selector := "table tbody tr td:nth-child(1) a";
     Site.url_selector := "table tbody tr td:nth-child(1) a";
     Site.wait_selector := "table tbody tr";
     Site.popup_selectors := [];
     Site.use_custom_ua := false |}.

Definition growthlist : Site.t :=
  {| Site.url := "https://growthlist.co/canada-startups/";
     Site.selector := "table.wp-block-table tbody tr td:first-child a";
     Site.url_selector := "table.wp-block-table tbody tr td:first-child a";
     Site.wait_selector := "table.wp-block-table tbody tr";
     Site.popup_selectors := ["div.popup-close"; "button.close"];
     Site.use_custom_ua := false |}.

(** [self.sites] *)
Definition sites : gmap string Site.t :=
  <["latka" := latka]> (<["apmlist" := apmlist]> (<["growthlist" := growthlist]> ∅)).

(** What the scraper asks of the network, the browser and the LLM. *)
Inductive call : Type :=
| Get (url : string) (custom_ua : bool) (proxy : option string)
| Launch (proxy : option string)
| Stealth
| SetUserAgent
| Goto (url : string)
| WaitForSelector (selector : string) (timeout : Z)
| IsVisible
| ClickPopup
| WaitForTimeout (ms : Z)
| Content
| Reload
| Wheel (dx dy : Z)
| Close
| ParseWithLlm (text : string).

Class Collaborators (W : Type) : Type := {
  (** [requests.get(url, headers=..., proxies=..., timeout=20)] *)
  get : string -> bool -> option string -> W -> get_outcome * W;
  (** [BeautifulSoup(text, "lxml").select(selector)] *)
  soup_select : string -> string -> list Anchor;
  (** [p.chromium.launch], [new_context], [new_page] *)
  launch : option string -> W -> result unit * W;
  stealth_sync : W -> result unit * W;
  set_extra_http_headers : W -> result unit * W;
  goto : string -> W -> result unit * W;
  (** [page.wait_for_selector]: was an element handle returned? *)
  wait_for_selector : string -> Z -> W -> result bool * W;
  is_visible : W -> result bool * W;
  popup_click : W -> result unit * W;
  wait_for_timeout : Z -> W -> result unit * W;
  content : W -> result string * W;
  reload : W -> result unit * W;
  wheel : Z -> Z -> W -> result unit * W;
  close : W -> result unit * W;
  (** [self.llm_service.parse_jobs_with_llm] *)
  parse_jobs_with_llm : string -> W -> result (list (gmap string pyval)) * W
}.

Record CState (W : Type) : Type := { cworld : W; calls : list call }.
Arguments cworld {W} _.
Arguments calls {W} _.

Definition C (W A : Type) : Type := CState W -> result A * CState W.

Definition cret {W A : Type} (a : A) : C W A := fun s => (Ok a, s).

Definition cbind {W A B : Type} (m : C W A) (k : A -> C W B) : C W B :=
  fun s =>
    match m s with
    | (Ok a, s') => k a s'
    | (Raise e, s') => (Raise e, s')
    end.

Notation "x <-- e ;; k" := (cbind e (fun x => k))
  (at level 90, e at next level, right associativity).

(** Ask a collaborator and record the call. *)
Definition ask {W A : Type} (c : call) (f : W -> result A * W) : C W A :=
  fun s =>
    let (r, w) := f (cworld s) in
    (r, {| cworld := w; calls := calls s ++ [c] |}).

(** [try: body except: pass] *)
Definition best_effort {W : Type} (body : C W unit) : C W unit :=
  fun s =>
    match body s with
    | (_, s') => (Ok tt, s')
    end.

(** Truth value of a dictionary entry. *)
Definition truthy (v : pyval) : bool :=
  match v with
  | PStr EmptyString => false
  | PStr _ => true
  | PInt n => negb (n =? 0)
  | PNone => false
  end.

Section Methods.
Context {W : Type} `{Collaborators W}.
(** [self.proxy_url], [None] when it is unset or empty, and whether
    [self.llm_service] is set. *)
Variables (proxy_url : option string) (llm_service : bool).

(** One turn of the loop of lines 180-187 (and 264-270). *)
Definition pair_at (name_elems url_elems : list Anchor) (i : nat)
  : option (pyval * pyval) :=
  let c_name :=
    match name_elems !! i with
    | Some e => anchor_text e
    | None => ""
    end in
  let c_url :=
    match url_elems !! i with
    | Some e => match href e with Some h => h | None => "N/A" end
    | None => "N/A"
    end in
  match c_name with
  | EmptyString => None
  | _ => Some (PStr c_name, PStr c_url)
  end.

Fixpoint pair_loop (name_elems url_elems : list Anchor) (indices : list nat)
         (items : list (pyval * pyval)) : list (pyval * pyval) :=
  match indices with
  | [] => items
  | i :: rest =>
      pair_loop name_elems url_elems rest
        (match pair_at name_elems url_elems i with
         | Some item => items ++ [item]
         | None => items
         end)
  end.

(** Lines 175-187: select, then pair names and URLs by position. *)
Definition parse_items (text selector_name selector_url : string)
  : list (pyval * pyval) :=
  let name_elems := soup_select selector_name text in
  let url_elems :=
    match selector_url with
    | EmptyString => []
    | _ => soup_select selector_url text
    end in
  pair_loop name_elems url_elems
            (seq 0 (Nat.max (length name_elems) (length url_elems))) [].

(** [_naive_scrape]: every exception is caught, so it returns a list. *)
Definition _naive_scrape (url selector_name selector_url : string)
           (use_custom_ua : bool) (s : CState W)
  : list (pyval * pyval) * CState W :=
  match ask (Get url use_custom_ua proxy_url)
            (fun w => let (o, w') := get url use_custom_ua proxy_url w in (Ok o, w')) s with
  | (Ok (Returns resp), s1) =>
      if negb (Response.status_code resp =? 200) then ([], s1)
      else (parse_items (Response.text resp) selector_name selector_url, s1)
  | (_, s1) => ([], s1)
  end.

(** Lines 227-235: close the popups that show up. *)
Fixpoint close_popups (popup_selectors : list string) : C W unit :=
  match popup_selectors with
  | [] => cret tt
  | sel :: rest =>
      _ <-- best_effort
              (popup <-- ask (WaitForSelector sel 5000) (wait_for_selector sel 5000) ;;
               if popup : bool then
                 visible <-- ask IsVisible is_visible ;;
                 if visible : bool then
                   _ <-- ask ClickPopup popup_click ;;
                   ask (WaitForTimeout 1000) (wait_for_timeout 1000)
                 else cret tt
               else cret tt) ;;
      close_popups rest
  end.

(** Lines 244-246: [for _ in range(5)]. *)
Fixpoint scroll (times : nat) : C W unit :=
  match times with
  | O => cret tt
  | S k =>
      _ <-- ask (Wheel 0 3000) (wheel 0 3000) ;;
      _ <-- ask (WaitForTimeout 2000) (wait_for_timeout 2000) ;;
      scroll k
  end.

(** Lines 201-256: the browser session, up to the page content. *)
Definition session (url wait_selector : string) (popup_selectors : list string)
           (use_custom_ua : bool) : C W string :=
  _ <-- ask (Launch proxy_url) (launch proxy_url) ;;
  _ <-- ask Stealth stealth_sync ;;
  _ <-- (if use_custom_ua then ask SetUserAgent set_extra_http_headers else cret tt) ;;
  _ <-- ask (Goto url) (goto url) ;;
  _ <-- close_popups popup_selectors ;;
  page <-- ask Content content ;;
  _ <-- (if contains "cloudflare" (lower page)
         then _ <-- ask (WaitForTimeout 10000) (wait_for_timeout 10000) ;;
              ask Reload reload
         else cret tt) ;;
  _ <-- scroll 5 ;;
  _ <-- (match wait_selector with
         | EmptyString => cret tt
         | _ => best_effort
                  (_ <-- ask (WaitForSelector wait_selector 30000)
                             (wait_for_selector wait_selector 30000) ;;
                   cret tt)
         end) ;;
  final <-- ask Content content ;;
  _ <-- ask Close close ;;
  cret final.

(** [_playwright_scrape]: every exception is caught, so it returns a list. *)
Definition _playwright_scrape (url selector_name selector_url wait_selector : string)
           (popup_selectors : list string) (use_custom_ua : bool) (s : CState W)
  : list (pyval * pyval) * CState W :=
  match session url wait_selector popup_selectors use_custom_ua s with
  | (Ok final, s1) => (parse_items final selector_name selector_url, s1)
  | (Raise _, s1) => ([], s1)
  end.

(** Lines 298-302 *)
Fixpoint llm_items (url : string) (parse_data : list (gmap string pyval))
  : list (pyval * pyval) :=
  match parse_data with
  | [] => []
  | d :: rest =>
      let c_name := default (PStr "") (d !! "title") in
      let c_url := default (PStr url) (d !! "url") in
      if truthy c_name then (c_name, c_url) :: llm_items url rest
      else llm_items url rest
  end.

Definition _llm_fallback (url : string) (s : CState W)
  : list (pyval * pyval) * CState W :=
  if negb llm_service then ([], s)
  else
    match ask (Get url false proxy_url)
              (fun w => let (o, w') := get url false proxy_url w in (Ok o, w')) s with
    | (Ok (Returns resp), s1) =>
        if Response.status_code resp =? 200 then
          match ask (ParseWithLlm (Response.text resp))
                    (parse_jobs_with_llm (Response.text resp)) s1 with
          | (Ok parse_data, s2) => (llm_items url parse_data, s2)
          | (Raise _, s2) => ([], s2)
          end
        else ([], s1)
    | (_, s1) => ([], s1)
    end.

(** [_scrape_one_site]: [self.sites[key]] raises for an unknown key. *)
Definition _scrape_one_site (key : string) (s : CState W)
  : result (list (pyval * pyval)) * CState W :=
  match sites !! key with
  | None => (Raise (KeyError key), s)
  | Some info =>
      let (naive_data, s1) :=
        _naive_scrape (Site.url info) (Site.selector info) (Site.url_selector info)
                      (Site.use_custom_ua info) s in
      match naive_data with
      | _ :: _ => (Ok naive_data, s1)
      | [] =>
          let (pw_data, s2) :=
            _playwright_scrape (Site.url info) (Site.selector info)
                               (Site.url_selector info) (Site.wait_selector info)
                               (Site.popup_selectors info) (Site.use_custom_ua info) s1 in
          match pw_data with
          | _ :: _ => (Ok pw_data, s2)
          | [] =>
              if llm_service then
                let (llm_data, s3) := _llm_fallback (Site.url info) s2 in
                match llm_data with
                | _ :: _ => (Ok llm_data, s3)
                | [] => (Ok [], s3)
                end
              else (Ok [], s2)
          end
      end
  end.

(** The loop of [scrape_all_sites] over the toggles. *)
Fixpoint toggles_loop (toggles : list (string * bool))
         (final_list : list (string * pyval * pyval)) : C W (list (string * pyval * pyval)) :=
  match toggles with
  | [] => cret final_list
  | (key, do_scrape) :: rest =>
      if (do_scrape && bool_decide (is_Some (sites !! key)))%bool then
        data <-- _scrape_one_site key ;;
        toggles_loop rest
          (final_list ++ map (fun item : pyval * pyval => (key, fst item, snd item)) data)
      else toggles_loop rest final_list
  end.

Definition scrape_all_sites (latka apmlist growthlist : bool)
  : C W (list (string * pyval * pyval)) :=
  toggles_loop [("latka", latka); ("apmlist", apmlist); ("growthlist", growthlist)] [].

End Methods.

(** How often a trace wheels the mouse, and how often it reloads. *)
Definition wheels (cs : list call) : nat :=
  length (List.filter (fun c => match c with Wheel _ _ => true | _ => false end) cs).

Definition reloads (cs : list call) : nat :=
  length (List.filter (fun c => match c with Reload => true | _ => false end) cs).

Definition closes (cs : list call) : nat :=
  length (List.filter (fun c => match c with Close => true | _ => false end) cs).

Definition llm_calls (cs : list call) : nat :=
  length (List.filter (fun c => match c with ParseWithLlm _ => true | _ => false end) cs).

Definition launches (cs : list call) : nat :=
  length (List.filter (fun c => match c with Launch _ => true | _ => false end) cs).

(** The item of one element when names and URLs come from the same
    selector. *)
Definition item_of (e : Anchor) : option (pyval * pyval) :=
  match anchor_text e with
  | EmptyString => None
  | name => Some (PStr name, PStr (default "N/A" (href e)))
  end.

(** Lines 99-100: the items of one site, tagged with its key. *)
Definition tagged (key : string) (data : list (pyval * pyval))
  : list (string * pyval * pyval) :=
  map (fun item : pyval * pyval => (key, fst item, snd item)) data.

End CompanyListsScraper.

(** A world for the company list scraper: every GET returns the same page, on
    which every selector matches one company link; no browser starts. *)
Module Listing.

Definition page : Response.t :=
  {| Response.status_code := 200; Response.history := [];
     Response.url := "https://apmlist.com/"; Response.text := "<table></table>" |}.

Definition acme : CompanyListsScraper.Anchor :=
  {| CompanyListsScraper.anchor_text := "Acme";
     CompanyListsScraper.href := Some "https://acme.example" |}.

#[export] Instance static_site : CompanyListsScraper.Collaborators unit := {|
  CompanyListsScraper.get := fun _ _ _ w => (Returns page, w);
  CompanyListsScraper.soup_select := fun _ _ => [acme];
  CompanyListsScraper.launch := fun _ w => (Raise (OtherError "no browser"), w);
  CompanyListsScraper.stealth_sync := fun w => (Raise (OtherError "no browser"), w);
  CompanyListsScraper.set_extra_http_headers := fun w => (Raise (OtherError "no browser"), w);
  CompanyListsScraper.goto := fun _ w => (Raise (OtherError "no browser"), w);
  CompanyListsScraper.wait_for_selector := fun _ _ w => (Raise (OtherError "no browser"), w);
  CompanyListsScraper.is_visible := fun w => (Raise (OtherError "no browser"), w);
  CompanyListsScraper.popup_click := fun w => (Raise (OtherError "no browser"), w);
  CompanyListsScraper.wait_for_timeout := fun _ w => (Raise (OtherError "no browser"), w);
  CompanyListsScraper.content := fun w => (Raise (OtherError "no browser"), w);
  CompanyListsScraper.reload := fun w => (Raise (OtherError "no browser"), w);
  CompanyListsScraper.wheel := fun _ _ w => (Raise (OtherError "no browser"), w);
  CompanyListsScraper.close := fun w => (Raise (OtherError "no browser"), w);
  CompanyListsScraper.parse_jobs_with_llm := fun _ w => (Raise (OtherError "no browser"), w)
|}.

Definition start : CompanyListsScraper.CState unit :=
  {| CompanyListsScraper.cworld := tt; CompanyListsScraper.calls := [] |}.

End Listing.

(** ** src/services/google_sheets_service.py *)

Module GoogleSheetsService.

(** What the service asks of the worksheet. *)
Inductive call : Type :=
| GetAllValues
| AppendRow (row : list pyval)
| InsertRow (row : list pyval) (index : Z).

(** The gspread worksheet [self.sheet]: each call returns or raises. *)
Class Worksheet (W : Type) : Type := {
  get_all_values : W -> result (list (list string)) * W;
  append_row : list pyval -> W -> result unit * W;
  insert_row : list pyval -> Z -> W -> result unit * W
}.

Record Sheet (W : Type) : Type := { backend : W; calls : list call }.
Arguments backend {W} _.
Arguments calls {W} _.

(** Line 73 *)
Definition required_columns : list string :=
  ["Company"; "Title"; "Location"; "Job Type"; "Experience"; "URL"; "Description"].

(** Line 78: [[job.get(col, "") for col in required_columns]] *)
Definition row_of (job : gmap string pyval) : list pyval :=
  map (fun col => default (PStr "") (job !! col)) required_columns.

Section Methods.
Context {W : Type} `{Worksheet W}.

(** [ensure_columns_exist]: every exception is caught and logged. *)
Definition ensure_columns_exist (required_columns : list string) (s : Sheet W)
  : Sheet W :=
  let (existing_values, w) := get_all_values (backend s) in
  let s1 := {| backend := w; calls := calls s ++ [GetAllValues] |} in
  match existing_values with
  | Raise _ => s1
  | Ok [] =>
      let (_, w') := append_row (map PStr required_columns) w in
      {| backend := w'; calls := calls s1 ++ [AppendRow (map PStr required_columns)] |}
  | Ok (existing_columns :: _) =>
      let missing_columns :=
        List.filter (fun col => negb (str_in col existing_columns)) required_columns in
      match missing_columns with
      | [] => s1
      | _ :: _ =>
          let updated_header := map PStr (existing_columns ++ missing_columns) in
          let (_, w') := insert_row updated_header 1 w in
          {| backend := w'; calls := calls s1 ++ [InsertRow updated_header 1] |}
      end
  end.

(** Lines 77-80: the loop stops at the first [append_row] that raises. *)
Fixpoint rows_loop (jobs : list (gmap string pyval)) (s : Sheet W)
  : result unit * Sheet W :=
  match jobs with
  | [] => (Ok tt, s)
  | job :: rest =>
      let row := row_of job in
      let (r, w) := append_row row (backend s) in
      let s1 := {| backend := w; calls := calls s ++ [AppendRow row] |} in
      match r with
      | Ok _ => rows_loop rest s1
      | Raise e => (Raise e, s1)
      end
  end.

(** [append_jobs]: the exception of the loop is caught and logged. *)
Definition append_jobs (jobs : list (gmap string pyval)) (s : Sheet W) : Sheet W :=
  match jobs with
  | [] => s
  | _ :: _ => snd (rows_loop jobs (ensure_columns_exist required_columns s))
  end.

End Methods.
End GoogleSheetsService.

(** ** src/services/airtable_service.py *)

Module AirtableService.

(** A record of the table, by its ["fields"] entry when it has one. *)
Record airtable_record : Type := { fields : option (gmap string pyval) }.

Inductive call : Type :=
| All (page_size : Z)
| Create (record : gmap string pyval).

(** The pyairtable table [self.table]. *)
Class Table (W : Type) : Type := {
  (** [self.table.all(page_size=...)]: the records of the table, however
      many, fetched [page_size] per request. *)
  table_all : Z -> W -> result (list airtable_record) * W;
  table_create : gmap string pyval -> W -> result unit * W
}.

Record Base (W : Type) : Type := { backend : W; calls : list call }.
Arguments backend {W} _.
Arguments calls {W} _.

(** Line 95 *)
Definition required_fields : list string :=
  ["Company"; "Title"; "Location"; "job_type"; "experience"; "url"; "description"].

(** Lines 100-108 *)
Definition record_of (job : gmap string pyval) : gmap string pyval :=
  <["Company" := default (PStr "") (job !! "Company")]>
  (<["Title" := default (PStr "") (job !! "Title")]>
  (<["Location" := default (PStr "") (job !! "Location")]>
  (<["job_type" := default (PStr "") (job !! "job_type")]>
  (<["experience" := default (PStr "") (job !! "experience")]>
  (<["url" := default (PStr "") (job !! "url")]>
  (<["description" := default (PStr "") (job !! "description")]> ∅)))))).

(** Lines 50-54 *)
Fixpoint field_names_of (records : list airtable_record) (field_names : gset string)
  : gset string :=
  match records with
  | [] => field_names
  | record :: rest =>
      field_names_of rest (field_names ∪ dom (default ∅ (fields record)))
  end.

Section Methods.
Context {W : Type} `{Table W}.

(** [get_existing_fields]: the empty set on no record and on an exception. *)
Definition get_existing_fields (s : Base W) : gset string * Base W :=
  let (records, w) := table_all 5 (backend s) in
  let s1 := {| backend := w; calls := calls s ++ [All 5] |} in
  match records with
  | Ok (record :: rest) => (field_names_of (record :: rest) ∅, s1)
  | Ok [] => (∅, s1)
  | Raise _ => (∅, s1)
  end.

(** [ensure_fields_exist]: the missing fields are logged, nothing else. *)
Definition ensure_fields_exist (required_fields : list string) (s : Base W)
  : list string * Base W :=
  let (existing_fields, s1) := get_existing_fields s in
  let missing_fields :=
    List.filter (fun field => bool_decide (field ∉ existing_fields)) required_fields in
  (missing_fields, s1).

(** Lines 99-109: the loop stops at the first [create] that raises. *)
Fixpoint records_loop (jobs : list (gmap string pyval)) (s : Base W)
  : result unit * Base W :=
  match jobs with
  | [] => (Ok tt, s)
  | job :: rest =>
      let record := record_of job in
      let (r, w) := table_create record (backend s) in
      let s1 := {| backend := w; calls := calls s ++ [Create record] |} in
      match r with
      | Ok _ => records_loop rest s1
      | Raise e => (Raise e, s1)
      end
  end.

(** [append_jobs]: the exception of the loop is caught and logged. *)
Definition append_jobs (jobs : list (gmap string pyval)) (s : Base W) : Base W :=
  match jobs with
  | [] => s
  | _ :: _ => snd (records_loop jobs (snd (ensure_fields_exist required_fields s)))
  end.

End Methods.
End AirtableService.

(** ** src/history_service.py and src/agentic.py *)

Module HistoryService.

(** [retrieve_history], lines 86-97: the history it returns. *)
Definition retrieve_history : gmap string (gmap string Z) :=
  <["https://somecompany.com" := <["relevant" := 10]> (<["irrelevant" := 3]> ∅)]>
    (<["https://anotherco.com" := <["relevant" := 2]> (<["irrelevant" := 5]> ∅)]> ∅).

End HistoryService.

Module AutonomousAgent.

(** The configuration, by its entries that are dictionaries of string
    lists, as [filters] is. *)
Definition Config : Type := gmap string (gmap string (list string)).

Section Methods.
(** [self.history] *)
Variable history : gmap string (gmap string Z).

(** [_adjust_keywords], lines 37-55. The titles go through a Python [set]:
    [elements] lists them once each, in an order the code does not choose
    either. The method returns nothing; [self.config] is the second
    component. *)
Definition _adjust_keywords (config : Config) : result unit * Config :=
  let job_titles : gset string :=
    list_to_set (default [] (default ∅ (config !! "filters") !! "job_titles")) in
  let job_titles :=
    if bool_decide ("Project Manager" ∉ job_titles) then
      if 5 <? default 0 (default ∅ (history !! "https://somecompany.com") !! "relevant")
      then job_titles ∪ {["Project Manager"]}
      else job_titles
    else job_titles in
  match config !! "filters" with
  | None => (Raise (KeyError "filters"), config)
  | Some filters =>
      (Ok tt, <["filters" := <["job_titles" := elements job_titles]> filters]> config)
  end.

(** Lines 74-78: the ratio [rel / (rel + irr + 1)] of every source; the
    division raises [ZeroDivisionError] on a zero denominator. *)
Fixpoint ratios_loop (items : list (string * gmap string Z)) : result unit :=
  match items with
  | [] => Ok tt
  | (source, metrics) :: rest =>
      let rel := default 0 (metrics !! "relevant") in
      let irr := default 0 (metrics !! "irrelevant") in
      if rel + irr + 1 =? 0 then Raise (OtherError "ZeroDivisionError")
      else ratios_loop rest
  end.

(** [_prioritize_sources]: it reorders nothing. *)
Definition _prioritize_sources (config : Config) : result unit * Config :=
  (ratios_loop (map_to_list history), config).

(** [update_config]: what it returns, and [self.config] afterwards. *)
Definition update_config (config : Config) : result Config * Config :=
  match _adjust_keywords config with
  | (Raise e, config1) => (Raise e, config1)
  | (Ok _, config1) =>
      match _prioritize_sources config1 with
      | (Raise e, config2) => (Raise e, config2)
      | (Ok _, config2) => (Ok config2, config2)
      end
  end.

End Methods.
End AutonomousAgent.

(** ** job_main.py *)

Module JobMain.






(** [company_websites[company] = website] on a dictionary in insertion
    order: a known key keeps its place. *)
Fixpoint dict_set (d : list (string * string)) (key value : string)
  : list (string * string) :=
  match d with
  | [] => [(key, value)]
  | (k, v) :: rest =>
      if String.eqb k key then (key, value) :: rest
      else (k, v) :: dict_set rest key value
  end.



(** What [agent.invoke] hands back: a dictionary, by its [jobs] entry when
    it has one, or something without a [get]. *)
Inductive response : Type :=
| Dict (jobs : option (list (gmap string pyval)))
| NotADict.

Inductive call : Type :=
| CreateAgent
| Invoke (url : string)
| Dump (jobs : list (gmap string pyval)).

Class Runtime (W : Type) : Type := {
  create_scraper_agent : W -> result unit * W;
  agent_invoke_messages : string -> W -> result response * W;
  (** [open(OUTPUT_FILE, "w")] and [json.dump] *)
  json_dump : list (gmap string pyval) -> W -> result unit * W
}.

Record Run (W : Type) : Type := { backend : W; calls : list call }.
Arguments backend {W} _.
Arguments calls {W} _.

(** The dictionary [{}] *)
Definition empty_dict : Filters.FilterConfig :=
  {| Filters.job_titles := None; Filters.min_experience_years := None;
     Filters.max_experience_years := None; Filters.locations := None;
     Filters.job_type := None |}.

Section Main.
Context {W : Type} `{Runtime W}.

(** Lines 100-117: an exception costs the company its jobs, no more. *)
Fixpoint main_loop (company_websites : list (string * string))
         (scraped_jobs : list (gmap string pyval)) (s : Run W)
  : list (gmap string pyval) * Run W :=
  match company_websites with
  | [] => (scraped_jobs, s)
  | (company, url) :: rest =>
      let (r, w) := agent_invoke_messages url (backend s) in
      let s1 := {| backend := w; calls := calls s ++ [Invoke url] |} in
      match r with
      | Ok (Dict (Some (job :: jobs))) => main_loop rest (scraped_jobs ++ job :: jobs) s1
      | _ => main_loop rest scraped_jobs s1
      end
  end.

(** [main], lines 84-126, from the loaded company list and configuration;
    [config] holds the entries that are [None] or a filter dictionary. *)
Definition main (company_websites : list (string * string))
           (config : gmap string (option Filters.FilterConfig)) (s : Run W)
  : result unit * Run W :=
  match company_websites with
  | [] => (Ok tt, s)
  | _ :: _ =>
      let (agent, w) := create_scraper_agent (backend s) in
      let s1 := {| backend := w; calls := calls s ++ [CreateAgent] |} in
      match agent with
      | Raise e => (Raise e, s1)
      | Ok _ =>
          let (scraped_jobs, s2) := main_loop company_websites [] s1 in
          let job_filters := default (Some empty_dict) (config !! "job_filters") in
          match Filters.filter_jobs scraped_jobs job_filters with
          | Raise e => (Raise e, s2)
          | Ok filtered_jobs =>
              let (r, w') := json_dump filtered_jobs (backend s2) in
              (r, {| backend := w'; calls := calls s2 ++ [Dump filtered_jobs] |})
          end
      end
  end.

End Main.
End JobMain.

(** * Properties *)

(** ** The filter *)

Section FilterFacts.
Import Filters FilterSpec.

Lemma any_in_text (needles : list string) (job : gmap string pyval)
      (key s : string) :
  job !! key = Some (PStr s) ->
  any_in needles job key = Ok (any_substring needles s).
Proof.
  intros Hk. induction needles as [|t ts IH]; simpl; [reflexivity|].
  unfold getitem. rewrite Hk. simpl.
  destruct (contains (lower t) (lower s)); [reflexivity | exact IH].
Qed.

Lemma guarded_any_readable (needles : list string) (job : gmap string pyval)
      (key : string) :
  needs_text needles job key = true ->
  guarded_any needles job key = Ok (list_dimension needles job key).
Proof.
  destruct needles as [|t ts]; [reflexivity|].
  unfold needs_text, is_text, guarded_any, list_dimension, text_of.
  destruct (job !! key) as [[s| |]|] eqn:Hk; try discriminate.
  intros _. now apply any_in_text.
Qed.

Lemma any_in_readable (needles : list string) (job : gmap string pyval)
      (key : string) :
  needles <> [] ->
  needs_text needles job key = true ->
  any_in needles job key = Ok (list_dimension needles job key).
Proof.
  intros Hne Hr. rewrite <- guarded_any_readable by exact Hr.
  destruct needles; [contradiction | reflexivity].
Qed.

Lemma experience_check_readable (c : FilterConfig) (job : gmap string pyval) :
  match job !! "experience" with Some (PStr _) => false | _ => true end = true ->
  experience_check (get (min_experience_years c) 0)
                   (get (max_experience_years c) 100) job
  = Ok (default_experience_ok c job).
Proof.
  unfold experience_check, default_experience_ok, within.
  destruct (job !! "experience") as [[s|e|]|]; try discriminate; try reflexivity.
  intros _.
  destruct (get (min_experience_years c) 0 <=? e),
           (e <=? get (max_experience_years c) 100); reflexivity.
Qed.

Lemma job_passes_readable (c : FilterConfig) (job : gmap string pyval) :
  get (job_titles c) [] <> [] ->
  readable c job = true ->
  job_passes (get (job_titles c) []) (get (min_experience_years c) 0)
             (get (max_experience_years c) 100) (get (locations c) [])
             (get (job_type c) []) job
  = Ok (amended_passes c job).
Proof.
  intros Hne Hr. unfold readable in Hr.
  apply andb_prop in Hr as [Hr Ht]. apply andb_prop in Hr as [Hr Hl].
  apply andb_prop in Hr as [Hti He].
  unfold job_passes, amended_passes.
  rewrite (any_in_readable _ _ _ Hne Hti). simpl.
  rewrite (experience_check_readable c job He). simpl.
  rewrite (guarded_any_readable _ _ _ Hl). simpl.
  rewrite (guarded_any_readable _ _ _ Ht). simpl.
  reflexivity.
Qed.

Lemma filter_loop_readable (c : FilterConfig) (jobs filtered : list (gmap string pyval)) :
  get (job_titles c) [] <> [] ->
  forallb (readable c) jobs = true ->
  filter_loop (get (job_titles c) []) (get (min_experience_years c) 0)
              (get (max_experience_years c) 100) (get (locations c) [])
              (get (job_type c) []) jobs filtered
  = Ok (filtered ++ List.filter (amended_passes c) jobs).
Proof.
  intros Hne. revert filtered.
  induction jobs as [|job rest IH]; intros filtered Hall; simpl.
  - now rewrite app_nil_r.
  - simpl in Hall. apply andb_prop in Hall as [Hj Hrest].
    rewrite (job_passes_readable c job Hne Hj). simpl.
    rewrite IH by exact Hrest.
    destruct (amended_passes c job); [|reflexivity].
    now rewrite <- app_assoc.
Qed.

(** With no title configured every job fails the title test, whatever else
    the configuration holds: the loop keeps nothing. *)
Lemma filter_loop_no_titles (mn mx : Z) (locs types : list string)
      (jobs filtered out : list (gmap string pyval)) :
  filter_loop [] mn mx locs types jobs filtered = Ok out -> out = filtered.
Proof.
  revert filtered. induction jobs as [|job rest IH]; intros filtered; simpl.
  - now intros [= <-].
  - unfold job_passes. simpl.
    destruct (experience_check mn mx job) as [eo|]; simpl; [|discriminate].
    destruct (guarded_any locs job "location") as [lo|]; simpl; [|discriminate].
    destruct (guarded_any types job "job_type") as [jo|]; simpl; [|discriminate].
    apply IH.
Qed.

(** A falsy configuration ([None] or [{}]) returns the input list itself. *)
Lemma filter_jobs_no_config (jobs : list (gmap string pyval)) :
  filter_jobs jobs None = Ok jobs /\
  filter_jobs jobs (Some Fixtures.no_filter) = Ok jobs.
Proof. split; reflexivity. Qed.

End FilterFacts.

(** C1 (as amended): with a non-empty configuration that names at least one
    title, and jobs whose inspected fields are readable, [filter_jobs] keeps,
    in input order, exactly the jobs that pass all four dimensions, where an
    empty or absent [locations] or [job_type] list imposes no constraint and
    an absent experience bound stands for 0 (minimum) or 100 (maximum). *)
Theorem filter_jobs_four_dimensions
        (c : Filters.FilterConfig) (jobs : list (gmap string pyval)) :
  Filters.get (Filters.job_titles c) [] <> [] ->
  forallb (FilterSpec.readable c) jobs = true ->
  Filters.filter_jobs jobs (Some c)
  = Ok (List.filter (FilterSpec.amended_passes c) jobs).
Proof.
  intros Hne Hall. unfold Filters.filter_jobs.
  assert (Ht : Filters.dict_truthy c = true).
  { unfold Filters.dict_truthy. destruct (Filters.job_titles c); [reflexivity|].
    now contradiction Hne. }
  rewrite Ht. simpl.
  now rewrite filter_loop_readable.
Qed.

Lemma filter_jobs_four_dimensions_witness :
  Filters.filter_jobs [Fixtures.senior_job; Fixtures.onsite_job]
                      (Some Fixtures.remote_engineer)
  = Ok (List.filter (FilterSpec.amended_passes Fixtures.remote_engineer)
                    [Fixtures.senior_job; Fixtures.onsite_job]).
Proof.
  apply (filter_jobs_four_dimensions Fixtures.remote_engineer
           [Fixtures.senior_job; Fixtures.onsite_job]).
  - discriminate.
  - vm_compute. reflexivity.
Defined.

(** C1 (as stated) fails on two inputs. With [{"job_titles": ["engineer"]}]
    and no experience bound, a matching job with 150 years of experience is
    dropped although every dimension of the specification holds; and with
    [{"job_titles": []}] a job is dropped although the empty title list should
    impose no constraint. *)
Lemma filter_jobs_spec_counterexample :
  (FilterSpec.spec_passes Fixtures.engineer_only Fixtures.veteran_job = true /\
   Filters.filter_jobs [Fixtures.veteran_job] (Some Fixtures.engineer_only) = Ok []) /\
  (FilterSpec.spec_passes Fixtures.empty_titles Fixtures.scraped_job = true /\
   Filters.filter_jobs [Fixtures.scraped_job] (Some Fixtures.empty_titles) = Ok []).
Proof. repeat split; vm_compute; reflexivity. Qed.

(** C4: on the configuration [{"job_titles": []}], whose every field is empty
    or absent, [filter_jobs] returns the empty list instead of its input. *)
Theorem filter_jobs_identity_fails :
  Filters.filter_jobs [Fixtures.scraped_job] (Some Fixtures.empty_titles) = Ok [] /\
  Filters.filter_jobs [Fixtures.scraped_job] (Some Fixtures.empty_titles)
  <> Ok [Fixtures.scraped_job].
Proof. split; [vm_compute; reflexivity | vm_compute; discriminate]. Qed.

(** [_extract_job_data] gives a dictionary with exactly the keys [company],
    [title] and [url], the title being non-empty text. *)
Lemma _extract_job_data_shape (elem : option Tag) (company_url source_url : string)
      (job : gmap string pyval) :
  SiteScraper._extract_job_data elem company_url source_url = Some job ->
  exists title,
    job = <["company" := PStr company_url]>
            (<["title" := PStr title]> (<["url" := PStr source_url]> ∅)).
Proof.
  unfold SiteScraper._extract_job_data.
  destruct elem as [e|]; [|discriminate].
  destruct (String.substring 0 50 (get_text e)) as [|ch r]; [discriminate|].
  intros [= <-]. now exists (String ch r).
Qed.

(** C10: [filter_jobs] is not total. For every configuration with a non-empty
    [locations] list, a job list that starts with a job as
    [_extract_job_data] builds it makes the filter raise [KeyError] on
    [location]; with no location configured and a non-empty [job_type] list
    it raises [KeyError] on [job_type]. *)
Theorem filter_jobs_key_error
        (c : Filters.FilterConfig) (elem : option Tag)
        (company_url source_url : string)
        (job : gmap string pyval) (rest : list (gmap string pyval)) :
  SiteScraper._extract_job_data elem company_url source_url = Some job ->
  (Filters.get (Filters.locations c) [] <> [] ->
   Filters.filter_jobs (job :: rest) (Some c) = Raise (KeyError "location")) /\
  (Filters.get (Filters.locations c) [] = [] ->
   Filters.get (Filters.job_type c) [] <> [] ->
   Filters.filter_jobs (job :: rest) (Some c) = Raise (KeyError "job_type")).
Proof.
  intros Hj. apply _extract_job_data_shape in Hj as [title ->].
  set (job := <["company" := PStr company_url]> _).
  assert (Htitle : job !! "title" = Some (PStr title)) by (subst job; by simplify_map_eq).
  assert (Hexp : job !! "experience" = None) by (subst job; by simplify_map_eq).
  assert (Hloc : job !! "location" = None) by (subst job; by simplify_map_eq).
  assert (Htyp : job !! "job_type" = None) by (subst job; by simplify_map_eq).
  clearbody job.
  split.
  - intros Hne. unfold Filters.filter_jobs, Filters.dict_truthy.
    destruct (Filters.locations c) as [locs|] eqn:Hl; simpl in Hne; [|contradiction].
    destruct locs as [|l ls]; [contradiction|].
    replace (negb _) with false
      by (destruct (Filters.job_titles c), (Filters.min_experience_years c),
                   (Filters.max_experience_years c); reflexivity).
    simpl. unfold Filters.job_passes.
    rewrite (any_in_text _ _ _ _ Htitle). simpl.
    unfold Filters.experience_check. rewrite Hexp. simpl.
    unfold Filters.getitem. rewrite Hloc. reflexivity.
  - intros Hnil Hne. unfold Filters.filter_jobs, Filters.dict_truthy.
    destruct (Filters.job_type c) as [types|] eqn:Ht; simpl in Hne; [|contradiction].
    destruct types as [|t ts]; [contradiction|].
    replace (negb _) with false
      by (destruct (Filters.job_titles c), (Filters.min_experience_years c),
                   (Filters.max_experience_years c), (Filters.locations c);
          reflexivity).
    rewrite Hnil. simpl. unfold Filters.job_passes.
    rewrite (any_in_text _ _ _ _ Htitle). simpl.
    unfold Filters.experience_check. rewrite Hexp. simpl.
    unfold Filters.getitem. rewrite Htyp. reflexivity.
Qed.

Lemma filter_jobs_key_error_witness :
  Filters.filter_jobs [Fixtures.scraped_job] (Some Fixtures.remote_engineer)
  = Raise (KeyError "location") /\
  Filters.filter_jobs [Fixtures.scraped_job] (Some Fixtures.full_time)
  = Raise (KeyError "job_type").
Proof.
  split.
  - apply (filter_jobs_key_error Fixtures.remote_engineer
             (Some {| get_text := "Engineer" |}) "acme" "u"
             Fixtures.scraped_job []); [reflexivity | discriminate].
  - apply (filter_jobs_key_error Fixtures.full_time
             (Some {| get_text := "Engineer" |}) "acme" "u"
             Fixtures.scraped_job []); [reflexivity | reflexivity | discriminate].
Defined.

(** ** The retrying fetcher *)

Section FetcherFacts.
Context {W : Type} `{Network W}.

(** One failed attempt: a GET followed by the back-off sleep. *)
Lemma site_retry_loop_exhausts (attempts : list Z) (url : string) :
  (forall w, exists r,
      fst (requests_get url w) = Returns r /\ Response.status_code r <> 200) ->
  forall s, exists s',
    SiteScraper.retry_loop attempts url s = (Ok None, s') /\
    trace s' = trace s ++ flat_map (fun a => [EGet url; ESleep (2 ^ a)]) attempts.
Proof.
  intros Hall. induction attempts as [|a rest IH]; intros s.
  - exists s. split; [reflexivity | now rewrite app_nil_r].
  - destruct (Hall (world s)) as (r & Hr & Hne).
    simpl. unfold bind at 1, call.
    destruct (requests_get url (world s)) as [o w1]. simpl in Hr. subst o.
    apply Z.eqb_neq in Hne. rewrite Hne.
    unfold bind at 1, sleep at 1.
    match goal with |- context [SiteScraper.retry_loop rest url ?st] =>
      destruct (IH st) as (s' & Hrun & Htr) end.
    exists s'. split; [exact Hrun|].
    rewrite Htr. simpl. now rewrite <- !app_assoc.
Qed.

Lemma agent_retry_loop_exhausts (attempts : list Z) (url : string) :
  (forall w, exists r,
      fst (requests_get url w) = Returns r /\ Response.status_code r <> 200) ->
  forall s, exists s',
    LangchainAgent.retry_loop attempts url s = (Ok None, s') /\
    trace s' = trace s ++ flat_map (fun a => [EGet url; ESleep (2 ^ a)]) attempts.
Proof.
  intros Hall. induction attempts as [|a rest IH]; intros s.
  - exists s. split; [reflexivity | now rewrite app_nil_r].
  - destruct (Hall (world s)) as (r & Hr & Hne).
    simpl. unfold bind at 1, call.
    destruct (requests_get url (world s)) as [o w1]. simpl in Hr. subst o.
    apply Z.eqb_neq in Hne. rewrite Hne.
    unfold bind at 1, sleep at 1.
    match goal with |- context [LangchainAgent.retry_loop rest url ?st] =>
      destruct (IH st) as (s' & Hrun & Htr) end.
    exists s'. split; [exact Hrun|].
    rewrite Htr. simpl. now rewrite <- !app_assoc.
Qed.

(** The back-off delays [2 ^ attempt] over [range(n)] never decrease. *)
Lemma backoff_non_decreasing (n : nat) :
  non_decreasing (map (fun a => 2 ^ a) (range 0 (Z.of_nat n))).
Proof.
  intros i j d e Hij Hi Hj. unfold range in Hi, Hj.
  rewrite Z.sub_0_r, Nat2Z.id, map_map in Hi, Hj.
  rewrite list_lookup_fmap in Hi, Hj.
  destruct (seq 0 n !! i) as [x|] eqn:Hx; [|discriminate].
  destruct (seq 0 n !! j) as [y|] eqn:Hy; [|discriminate].
  apply lookup_seq in Hx as [-> _]. apply lookup_seq in Hy as [-> _].
  simpl in Hi, Hj. injection Hi as <-. injection Hj as <-.
  apply Z.pow_le_mono_r; lia.
Qed.

End FetcherFacts.

(** C5: against a URL whose every GET returns a status other than 200, both
    [_get_with_retries] perform exactly [MAX_RETRIES] = 3 GETs, return [None]
    without raising, and sleep 2^0, 2^1, 2^2 after the attempts, a
    non-decreasing sequence. *)
Theorem get_with_retries_exhausts {W : Type} `{Network W} (url : string) :
  (forall w, exists r,
      fst (requests_get url w) = Returns r /\ Response.status_code r <> 200) ->
  forall s : State W,
    (exists s' new,
        SiteScraper._get_with_retries url s = (Ok None, s') /\
        trace s' = trace s ++ new /\
        gets_of new = [url; url; url] /\
        length (gets_of new) = Z.to_nat SiteScraper.MAX_RETRIES /\
        delays_of new = [2 ^ 0; 2 ^ 1; 2 ^ 2] /\
        non_decreasing (delays_of new)) /\
    (exists s' new,
        LangchainAgent._get_with_retries url s = (Ok None, s') /\
        trace s' = trace s ++ new /\
        gets_of new = [url; url; url] /\
        length (gets_of new) = Z.to_nat LangchainAgent.MAX_RETRIES /\
        delays_of new = [2 ^ 0; 2 ^ 1; 2 ^ 2] /\
        non_decreasing (delays_of new)).
Proof.
  intros Hall s. split.
  - destruct (site_retry_loop_exhausts (range 0 SiteScraper.MAX_RETRIES) url Hall s)
      as (s' & Hrun & Htr).
    exists s', (flat_map (fun a => [EGet url; ESleep (2 ^ a)]) (range 0 3)).
    split; [exact Hrun|]. split; [exact Htr|].
    repeat split; try reflexivity. exact (backoff_non_decreasing 3).
  - destruct (agent_retry_loop_exhausts (range 0 LangchainAgent.MAX_RETRIES) url Hall s)
      as (s' & Hrun & Htr).
    exists s', (flat_map (fun a => [EGet url; ESleep (2 ^ a)]) (range 0 3)).
    split; [exact Hrun|]. split; [exact Htr|].
    repeat split; try reflexivity. exact (backoff_non_decreasing 3).
Qed.

Lemma get_with_retries_exhausts_witness :
  fst (@SiteScraper._get_with_retries unit Worlds.always_500 "http://down.example"
         {| world := tt; trace := [] |}) = Ok None /\
  fst (@LangchainAgent._get_with_retries unit Worlds.always_500 "http://down.example"
         {| world := tt; trace := [] |}) = Ok None.
Proof.
  destruct (@get_with_retries_exhausts unit Worlds.always_500 "http://down.example")
    with (s := {| world := tt; trace := @nil event |})
    as [(s1 & n1 & H1 & _) (s2 & n2 & H2 & _)].
  - intros w. exists (Worlds.response 500 [] "http://down.example" "").
    split; [reflexivity | discriminate].
  - rewrite H1, H2. split; reflexivity.
Defined.

Section RedirectFacts.
Context {W : Type} `{Network W}.

(** What [site_scraper._get_with_retries] can hand back: the answer to a
    first GET with status 200 and no redirect history, or whatever the second
    GET, of the final URL of a redirected 200 answer, returned. *)
Lemma site_retry_loop_returns (attempts : list Z) (url : string) :
  forall s s' r,
    SiteScraper.retry_loop attempts url s = (Ok (Some r), s') ->
    (Response.status_code r = 200 /\ Response.history r = []) \/
    (exists first w,
        Response.status_code first = 200 /\
        Response.history first <> [] /\
        fst (requests_get (Response.url first) w) = Returns r).
Proof.
  induction attempts as [|a rest IH]; intros s s' r; simpl.
  - discriminate.
  - unfold bind at 1, call at 1.
    destruct (requests_get url (world s)) as [[first|] w1] eqn:E1.
    + destruct (Response.status_code first =? 200) eqn:Hst.
      * apply Z.eqb_eq in Hst.
        destruct (Response.history first) as [|h hs] eqn:Hh.
        -- intros [= <- _]. now left.
        -- unfold bind at 1, call at 1. simpl.
           destruct (requests_get (Response.url first) w1) as [[final|] w2] eqn:E2.
           ++ intros [= <- _]. right. exists first, w1.
              rewrite Hh, E2. repeat split; [assumption | discriminate].
           ++ unfold bind at 1, sleep at 1. apply IH.
      * unfold bind at 1, sleep at 1. apply IH.
    + unfold bind at 1, sleep at 1. apply IH.
Qed.

(** [langchain_agent._get_with_retries] only hands back a 200 answer. *)
Lemma agent_retry_loop_returns (attempts : list Z) (url : string) :
  forall s s' r,
    LangchainAgent.retry_loop attempts url s = (Ok (Some r), s') ->
    Response.status_code r = 200.
Proof.
  induction attempts as [|a rest IH]; intros s s' r; simpl.
  - discriminate.
  - unfold bind at 1, call at 1.
    destruct (requests_get url (world s)) as [[first|] w1] eqn:E1.
    + destruct (Response.status_code first =? 200) eqn:Hst.
      * apply Z.eqb_eq in Hst. now intros [= <- _].
      * unfold bind at 1, sleep at 1. apply IH.
    + unfold bind at 1, sleep at 1. apply IH.
Qed.

End RedirectFacts.

(** C6: when the first GET answers 200 through a redirect and the GET of the
    final URL answers 500, [site_scraper._get_with_retries] fetches the final
    URL once and returns that 500 answer as the document. *)
Theorem get_with_retries_returns_non_200 :
  @SiteScraper._get_with_retries _ Worlds.scripted "http://old.example"
     {| world := Redirect.script; trace := [] |}
  = (Ok (Some Redirect.broken),
     {| world := [];
        trace := [EGet "http://old.example"; EGet "http://new.example"] |}) /\
  Response.status_code Redirect.broken <> 200.
Proof. split; [reflexivity | discriminate]. Qed.

(** ** The career-page locator *)

Section LocatorFacts.
Context {W : Type} `{Network W} `{HtmlParser}.

Lemma site_retry_loop_total (attempts : list Z) (url : string) :
  forall s, exists o s', SiteScraper.retry_loop attempts url s = (Ok o, s').
Proof.
  induction attempts as [|a rest IH]; intros s; simpl.
  - now exists None, s.
  - unfold bind at 1, call at 1.
    destruct (requests_get url (world s)) as [[first|] w1].
    + destruct (Response.status_code first =? 200).
      * destruct (Response.history first) as [|h hs]; [now eexists _, _|].
        unfold bind at 1, call at 1. simpl.
        destruct (requests_get (Response.url first) w1) as [[final|] w2];
          [now eexists _, _|].
        unfold bind at 1, sleep at 1. apply IH.
      * unfold bind at 1, sleep at 1. apply IH.
    + unfold bind at 1, sleep at 1. apply IH.
Qed.

Lemma agent_retry_loop_total (attempts : list Z) (url : string) :
  forall s, exists o s', LangchainAgent.retry_loop attempts url s = (Ok o, s').
Proof.
  induction attempts as [|a rest IH]; intros s; simpl.
  - now exists None, s.
  - unfold bind at 1, call at 1.
    destruct (requests_get url (world s)) as [[first|] w1].
    + destruct (Response.status_code first =? 200); [now eexists _, _|].
      unfold bind at 1, sleep at 1. apply IH.
    + unfold bind at 1, sleep at 1. apply IH.
Qed.

Lemma str_in_elem_of (x : string) (l : list string) :
  str_in x l = true <-> x ∈ l.
Proof.
  unfold str_in. rewrite existsb_exists. split.
  - intros (y & Hy & Heq). apply String.eqb_eq in Heq. subst y.
    now apply list_elem_of_In.
  - intros Hx. exists x. split; [now apply list_elem_of_In | apply String.eqb_refl].
Qed.

(** An [href] that starts with [http] is its own resolved URL; resolving it
    never raises. *)
Lemma site_full_url_of_absolute (company_url href : string) :
  String.prefix "http" href = true ->
  SiteScraper.full_url_of company_url href = Ok href.
Proof.
  intros Hp. unfold SiteScraper.full_url_of. rewrite Hp.
  now rewrite orb_true_r.
Qed.

(** No URL matches when none passes the keyword test. *)
Lemma filter_none (keywords : list string) (urls : list string) :
  forallb (fun u => negb (re_search_ignorecase keywords u)) urls = true ->
  List.filter (re_search_ignorecase keywords) urls = [].
Proof.
  induction urls as [|u us IH]; cbn; [reflexivity|].
  intros Hall. apply andb_prop in Hall as [Hu Hus].
  apply negb_true_iff in Hu. rewrite Hu. now apply IH.
Qed.

(** The loop of site_scraper.py raises what resolving the first
    unresolvable link raises; when every link resolves it appends to the
    accumulator, in document order, the matching resolved URLs it does not
    hold yet. *)
Lemma site_careers_loop_acc (company_url : string) (links : list string) :
  forall acc,
    NoDup acc ->
    match mapM (SiteScraper.full_url_of company_url) links with
    | Raise e => SiteScraper.careers_loop company_url links acc = Raise e
    | Ok resolved =>
        exists ext,
          SiteScraper.careers_loop company_url links acc = Ok (acc ++ ext) /\
          NoDup (acc ++ ext) /\
          sublist ext (List.filter (re_search_ignorecase SiteScraper.careers_keywords)
                                   resolved) /\
          (forall u,
              u ∈ List.filter (re_search_ignorecase SiteScraper.careers_keywords)
                              resolved ->
              u ∈ acc ++ ext)
    end.
Proof.
  induction links as [|href rest IH]; intros acc Hnd;
    cbn [mapM SiteScraper.careers_loop].
  - exists []. rewrite app_nil_r. cbn. repeat split; try assumption.
    + constructor.
    + intros u Hu. inversion Hu.
  - destruct (SiteScraper.full_url_of company_url href) as [full|e]; cbn [rbind];
      [|reflexivity].
    destruct (re_search_ignorecase SiteScraper.careers_keywords full) eqn:Hm.
    + destruct (str_in full acc) eqn:Hin; cbn [negb].
      * apply str_in_elem_of in Hin. specialize (IH acc Hnd).
        destruct (mapM (SiteScraper.full_url_of company_url) rest) as [resolved|e];
          cbn [rbind]; [|exact IH].
        destruct IH as (ext & Hrun & Hnd' & Hsub & Hall).
        exists ext. cbn [List.filter]. rewrite Hm.
        repeat split; try assumption.
        -- now apply sublist_cons.
        -- intros u Hu. apply elem_of_cons in Hu as [->|Hu].
           ++ apply elem_of_app. now left.
           ++ now apply Hall.
      * assert (Hnotin : full ∉ acc).
        { intros Hc. apply str_in_elem_of in Hc. congruence. }
        assert (Hnd1 : NoDup (acc ++ [full])).
        { apply NoDup_app. repeat split; try assumption.
          - intros x Hx Hx'. apply list_elem_of_singleton in Hx'. now subst x.
          - apply NoDup_singleton. }
        specialize (IH _ Hnd1).
        destruct (mapM (SiteScraper.full_url_of company_url) rest) as [resolved|e];
          cbn [rbind]; [|exact IH].
        destruct IH as (ext & Hrun & Hnd' & Hsub & Hall).
        exists (full :: ext). cbn [List.filter]. rewrite Hm.
        rewrite <- app_assoc in Hrun, Hnd', Hall. cbn [app] in Hrun, Hnd', Hall.
        repeat split; try assumption.
        -- now apply sublist_skip.
        -- intros u Hu. apply elem_of_cons in Hu as [->|Hu].
           ++ apply elem_of_app. right. apply elem_of_cons. now left.
           ++ now apply Hall.
    + specialize (IH acc Hnd).
      destruct (mapM (SiteScraper.full_url_of company_url) rest) as [resolved|e];
        cbn [rbind]; [|exact IH].
      cbn [List.filter]. rewrite Hm. exact IH.
Qed.

(** When every link resolves, site_scraper.py keeps exactly the resolved
    URLs that match a keyword of [careers], [jobs], [join-our-team],
    [join-us], once each and in document order. *)
Lemma site_careers_loop_keeps_matches (company_url : string)
      (links resolved : list string) :
  mapM (SiteScraper.full_url_of company_url) links = Ok resolved ->
  exists kept,
    SiteScraper.careers_loop company_url links [] = Ok kept /\
    NoDup kept /\
    sublist kept (List.filter (re_search_ignorecase SiteScraper.careers_keywords)
                              resolved) /\
    (forall u,
        u ∈ kept <->
        u ∈ resolved /\ re_search_ignorecase SiteScraper.careers_keywords u = true).
Proof.
  intros Hres.
  pose proof (site_careers_loop_acc company_url links [] (NoDup_nil_2)) as Hacc.
  rewrite Hres in Hacc. destruct Hacc as (ext & Hrun & Hnd & Hsub & Hall).
  cbn [app] in Hrun, Hnd, Hall. exists ext.
  split; [exact Hrun|]. split; [exact Hnd|]. split; [exact Hsub|].
  intros u. split.
  - intros Hu. pose proof (elem_of_sublist _ _ _ Hu Hsub) as Hf.
    apply list_elem_of_In, filter_In in Hf as [Hin Hm].
    split; [now apply list_elem_of_In | exact Hm].
  - intros [Hin Hm]. apply Hall, list_elem_of_In, filter_In.
    split; [now apply list_elem_of_In | assumption].
Qed.

(** The loop of langchain_agent.py raises what resolving the first
    unresolvable link raises, and otherwise appends every matching resolved
    URL. *)
Lemma agent_careers_loop_filter (company_url : string) (links acc : list string) :
  LangchainAgent.careers_loop company_url links acc
  = (resolved <- mapM (LangchainAgent.full_url_of company_url) links ;;
     Ok (acc ++ List.filter (re_search_ignorecase LangchainAgent.careers_keywords)
                            resolved)).
Proof.
  revert acc. induction links as [|href rest IH]; intros acc;
    cbn [mapM LangchainAgent.careers_loop rbind].
  - cbn. now rewrite app_nil_r.
  - destruct (LangchainAgent.full_url_of company_url href) as [full|e]; cbn [rbind];
      [|reflexivity].
    rewrite IH.
    destruct (mapM (LangchainAgent.full_url_of company_url) rest) as [resolved|e];
      cbn [rbind]; [|reflexivity].
    cbn [List.filter].
    destruct (re_search_ignorecase LangchainAgent.careers_keywords full);
      [now rewrite <- app_assoc | reflexivity].
Qed.

(** What [find_careers_pages] of site_scraper.py does after the fetch. *)
Lemma site_find_careers_pages_run (company_url : string) (s : State W) :
  exists response s1,
    SiteScraper._get_with_retries company_url s = (Ok response, s1) /\
    (SiteScraper.falsy response = true ->
     SiteScraper.find_careers_pages company_url s = (Ok [company_url], s1)) /\
    (forall r, response = Some r -> SiteScraper.falsy response = false ->
       SiteScraper.find_careers_pages company_url s
       = (careers_pages <-
            SiteScraper.careers_loop company_url (find_all_a_href (Response.text r)) [] ;;
          Ok (match careers_pages with
              | [] => [company_url]
              | _ :: _ => careers_pages
              end), s1)).
Proof.
  destruct (site_retry_loop_total (range 0 SiteScraper.MAX_RETRIES) company_url s)
    as (response & s1 & Hget).
  exists response, s1. split; [exact Hget|].
  assert (Hrun : SiteScraper.find_careers_pages company_url s
                 = match response with
                   | Some r =>
                       if SiteScraper.falsy response then (Ok [company_url], s1)
                       else (careers_pages <-
                               SiteScraper.careers_loop company_url
                                 (find_all_a_href (Response.text r)) [] ;;
                             Ok (match careers_pages with
                                 | [] => [company_url]
                                 | _ :: _ => careers_pages
                                 end), s1)
                   | None => (Ok [company_url], s1)
                   end).
  { unfold SiteScraper.find_careers_pages, SiteScraper._get_with_retries.
    unfold bind at 1. rewrite Hget.
    destruct response as [r|]; [|reflexivity].
    destruct (SiteScraper.falsy (Some r)); [reflexivity|].
    unfold bind, lift, ret.
    destruct (SiteScraper.careers_loop company_url (find_all_a_href (Response.text r)) [])
      as [pages|e]; reflexivity. }
  rewrite Hrun. destruct response as [r|]; [|split; [reflexivity | discriminate]].
  destruct (SiteScraper.falsy (Some r)).
  - split; [reflexivity | discriminate].
  - split; [discriminate|]. now intros r' [= <-] _.
Qed.

(** The same for langchain_agent.py, whose fetcher only returns a response
    of status 200. *)
Lemma agent_find_careers_pages_run (company_url : string) (s : State W) :
  exists response s1,
    LangchainAgent._get_with_retries company_url s = (Ok response, s1) /\
    (response = None ->
     LangchainAgent.find_careers_pages company_url s = (Ok [company_url], s1)) /\
    (forall r, response = Some r ->
       LangchainAgent.find_careers_pages company_url s
       = (resolved <- mapM (LangchainAgent.full_url_of company_url)
                           (find_all_a_href (Response.text r)) ;;
          Ok (match List.filter (re_search_ignorecase LangchainAgent.careers_keywords)
                                resolved with
              | [] => [company_url]
              | matching => matching
              end), s1)).
Proof.
  destruct (agent_retry_loop_total (range 0 LangchainAgent.MAX_RETRIES) company_url s)
    as (response & s1 & Hget).
  exists response, s1. split; [exact Hget|].
  assert (Hrun : LangchainAgent.find_careers_pages company_url s
                 = match response with
                   | Some r =>
                       (resolved <- mapM (LangchainAgent.full_url_of company_url)
                                         (find_all_a_href (Response.text r)) ;;
                        Ok (match List.filter
                                    (re_search_ignorecase LangchainAgent.careers_keywords)
                                    resolved with
                            | [] => [company_url]
                            | matching => matching
                            end), s1)
                   | None => (Ok [company_url], s1)
                   end).
  { unfold LangchainAgent.find_careers_pages, LangchainAgent._get_with_retries.
    unfold bind at 1. rewrite Hget.
    destruct response as [r|]; [|reflexivity].
    assert (Hok : Response.ok r = true).
    { unfold Response.ok.
      rewrite (agent_retry_loop_returns _ _ _ _ _ Hget). reflexivity. }
    rewrite Hok. cbn [negb]. unfold bind, lift, ret.
    rewrite agent_careers_loop_filter.
    destruct (mapM (LangchainAgent.full_url_of company_url)
                   (find_all_a_href (Response.text r))) as [resolved|e]; cbn [rbind app];
      [|reflexivity].
    destruct (List.filter _ resolved); reflexivity. }
  rewrite Hrun. destruct response as [r|]; [|split; [reflexivity | discriminate]].
  split; [discriminate|]. now intros r' [= <-].
Qed.

End LocatorFacts.

(** C8, amended: a list that [find_careers_pages] returns is never empty,
    and when the homepage fetch gives no usable response it returns exactly
    [[company_url]]. From a fetched page it returns exactly when every
    hyperlink target resolves, and then [[company_url]] when no resolved
    URL matches a career keyword; when [urljoin] raises on a target the
    method raises that exception, whether or not any link matches. This
    holds in site_scraper.py and in langchain_agent.py. *)
Theorem find_careers_pages_never_empty
        {W : Type} `{Network W} `{HtmlParser} (company_url : string) (s : State W) :
  (exists response s1,
      SiteScraper._get_with_retries company_url s = (Ok response, s1) /\
      (forall pages s',
          SiteScraper.find_careers_pages company_url s = (Ok pages, s') ->
          pages <> []) /\
      (SiteScraper.falsy response = true ->
       SiteScraper.find_careers_pages company_url s = (Ok [company_url], s1)) /\
      (forall r, response = Some r -> SiteScraper.falsy response = false ->
         match mapM (SiteScraper.full_url_of company_url)
                    (find_all_a_href (Response.text r)) with
         | Ok resolved =>
             exists pages,
               SiteScraper.find_careers_pages company_url s = (Ok pages, s1) /\
               (forallb (fun u => negb (re_search_ignorecase
                                          SiteScraper.careers_keywords u))
                        resolved = true ->
                pages = [company_url])
         | Raise e => SiteScraper.find_careers_pages company_url s = (Raise e, s1)
         end)) /\
  (exists response s1,
      LangchainAgent._get_with_retries company_url s = (Ok response, s1) /\
      (forall pages s',
          LangchainAgent.find_careers_pages company_url s = (Ok pages, s') ->
          pages <> []) /\
      (response = None ->
       LangchainAgent.find_careers_pages company_url s = (Ok [company_url], s1)) /\
      (forall r, response = Some r ->
         match mapM (LangchainAgent.full_url_of company_url)
                    (find_all_a_href (Response.text r)) with
         | Ok resolved =>
             exists pages,
               LangchainAgent.find_careers_pages company_url s = (Ok pages, s1) /\
               (forallb (fun u => negb (re_search_ignorecase
                                          LangchainAgent.careers_keywords u))
                        resolved = true ->
                pages = [company_url])
         | Raise e => LangchainAgent.find_careers_pages company_url s = (Raise e, s1)
         end)).
Proof.
  split.
  - destruct (site_find_careers_pages_run company_url s)
      as (response & s1 & Hget & Hfalsy & Hpage).
    exists response, s1. split; [exact Hget|].
    split; [|split; [exact Hfalsy|]].
    + intros pages s' Hrun.
      destruct (SiteScraper.falsy response) eqn:Hf.
      * rewrite (Hfalsy eq_refl) in Hrun. injection Hrun as <- _. discriminate.
      * destruct response as [r|]; [|discriminate].
        rewrite (Hpage r eq_refl eq_refl) in Hrun.
        destruct (SiteScraper.careers_loop company_url
                    (find_all_a_href (Response.text r)) []) as [[|u us]|e];
          cbn [rbind] in Hrun; try discriminate;
          injection Hrun as <- _; discriminate.
    + intros r -> Hf. rewrite (Hpage r eq_refl Hf).
      pose proof (site_careers_loop_acc company_url
                    (find_all_a_href (Response.text r)) [] (NoDup_nil_2)) as Hacc.
      destruct (mapM (SiteScraper.full_url_of company_url)
                     (find_all_a_href (Response.text r))) as [resolved|e].
      * destruct Hacc as (ext & -> & _ & Hsub & _). cbn [rbind app].
        eexists. split; [reflexivity|].
        intros Hnone. rewrite (filter_none _ _ Hnone) in Hsub.
        apply sublist_nil_r in Hsub. now subst ext.
      * rewrite Hacc. reflexivity.
  - destruct (agent_find_careers_pages_run company_url s)
      as (response & s1 & Hget & Hnone & Hpage).
    exists response, s1. split; [exact Hget|].
    split; [|split; [exact Hnone|]].
    + intros pages s' Hrun.
      destruct response as [r|].
      * rewrite (Hpage r eq_refl) in Hrun.
        destruct (mapM (LangchainAgent.full_url_of company_url)
                       (find_all_a_href (Response.text r))) as [resolved|e];
          cbn [rbind] in Hrun; [|discriminate].
        destruct (List.filter _ resolved); injection Hrun as <- _; discriminate.
      * rewrite (Hnone eq_refl) in Hrun. injection Hrun as <- _. discriminate.
    + intros r ->. rewrite (Hpage r eq_refl).
      destruct (mapM (LangchainAgent.full_url_of company_url)
                     (find_all_a_href (Response.text r))) as [resolved|e];
        cbn [rbind]; [|reflexivity].
      eexists. split; [reflexivity|].
      intros Hno. now rewrite (filter_none _ _ Hno).
Qed.

(** The claim as worded fails on a homepage whose one link is ["//["]: no
    link matches a career keyword, the fetch succeeded, and both
    [find_careers_pages] raise the [ValueError] of [urljoin] instead of
    returning [[company_url]]. *)
Lemma find_careers_pages_unresolvable_link :
  forallb (fun href =>
             negb (re_search_ignorecase SiteScraper.careers_keywords href))
          (@find_all_a_href Worlds.strict_parser Malformed.homepage) = true /\
  fst (@SiteScraper.find_careers_pages unit (Worlds.serving Malformed.homepage)
         Worlds.strict_parser "http://acme.example" Homepage.start)
  = Raise (OtherError "ValueError: Invalid IPv6 URL") /\
  fst (@LangchainAgent.find_careers_pages unit (Worlds.serving Malformed.homepage)
         Worlds.strict_parser "http://acme.example" Homepage.start)
  = Raise (OtherError "ValueError: Invalid IPv6 URL").
Proof. repeat split; vm_compute; reflexivity. Qed.

(** C9: on a homepage that links twice to [/careers] and once to
    [/join-our-team], [find_careers_pages] of langchain_agent.py returns the
    careers URL twice and drops the [join-our-team] link, while the method of
    the same name in site_scraper.py returns each matching URL once. *)
Theorem agent_find_careers_pages_diverges :
  fst (@LangchainAgent.find_careers_pages unit (Worlds.serving Homepage.page)
         Worlds.word_parser "http://acme.example" Homepage.start)
  = Ok ["http://acme.example/careers"; "http://acme.example/careers"] /\
  fst (@SiteScraper.find_careers_pages unit (Worlds.serving Homepage.page)
         Worlds.word_parser "http://acme.example" Homepage.start)
  = Ok ["http://acme.example/careers"; "http://acme.example/join-our-team"].
Proof. split; vm_compute; reflexivity. Qed.

(** ** The extraction cascade *)

Section CascadeFacts.
Context {W : Type} `{Network W} `{HtmlParser} `{Strategies W}.

(** The fetcher always returns, and leaves only GETs and sleeps behind. *)
Lemma site_retry_loop_quiet (attempts : list Z) (url : string) :
  forall s, exists o s' new,
    SiteScraper.retry_loop attempts url s = (Ok o, s') /\
    trace s' = trace s ++ new /\
    Forall (fun e => is_strategy_call e = false) new.
Proof.
  induction attempts as [|a rest IH]; intros s; simpl.
  - exists None, s, []. rewrite app_nil_r. repeat split. constructor.
  - unfold bind at 1, call at 1.
    destruct (requests_get url (world s)) as [[first|] w1].
    + destruct (Response.status_code first =? 200).
      * destruct (Response.history first) as [|h hs].
        -- eexists _, _, [EGet url]. repeat split. repeat constructor.
        -- unfold bind at 1, call at 1. simpl.
           destruct (requests_get (Response.url first) w1) as [[final|] w2].
           ++ eexists _, _, [EGet url; EGet (Response.url first)]. simpl.
              rewrite <- app_assoc. repeat split. repeat constructor.
           ++ unfold bind at 1, sleep at 1.
              match goal with |- context [SiteScraper.retry_loop rest url ?st] =>
                destruct (IH st) as (o & s' & new & Hrun & Htr & Hq) end.
              exists o, s', (EGet url :: EGet (Response.url first) :: ESleep (2 ^ a) :: new).
              split; [exact Hrun|]. split; [|repeat constructor; exact Hq].
              rewrite Htr. simpl. now rewrite <- !app_assoc.
      * unfold bind at 1, sleep at 1.
        match goal with |- context [SiteScraper.retry_loop rest url ?st] =>
          destruct (IH st) as (o & s' & new & Hrun & Htr & Hq) end.
        exists o, s', (EGet url :: ESleep (2 ^ a) :: new).
        split; [exact Hrun|]. split; [|repeat constructor; exact Hq].
        rewrite Htr. simpl. now rewrite <- !app_assoc.
    + unfold bind at 1, sleep at 1.
      match goal with |- context [SiteScraper.retry_loop rest url ?st] =>
        destruct (IH st) as (o & s' & new & Hrun & Htr & Hq) end.
      exists o, s', (EGet url :: ESleep (2 ^ a) :: new).
      split; [exact Hrun|]. split; [|repeat constructor; exact Hq].
      rewrite Htr. simpl. now rewrite <- !app_assoc.
Qed.

(** The loop of [_find_deep_career_pages] resolves the links that match, in
    document order, and raises what the first unresolvable one raises; when
    all resolve, [deep_links] holds each resolved URL once. *)
Lemma deep_loop_spec (career_page_url : string) (links : list string) :
  forall acc,
    NoDup acc ->
    match mapM (SiteScraper._build_absolute_url career_page_url)
               (List.filter (re_search_ignorecase SiteScraper.deep_keywords) links) with
    | Raise e => SiteScraper.deep_loop career_page_url links acc = Raise e
    | Ok resolved =>
        exists deep,
          SiteScraper.deep_loop career_page_url links acc = Ok deep /\
          NoDup deep /\
          (forall u, u ∈ deep <-> u ∈ acc \/ u ∈ resolved)
    end.
Proof.
  induction links as [|href rest IH]; intros acc Hnd;
    cbn [List.filter mapM SiteScraper.deep_loop].
  - exists acc. split; [reflexivity|]. split; [exact Hnd|].
    intros u. split; [now left|]. intros [Hu|Hu]; [exact Hu | inversion Hu].
  - destruct (re_search_ignorecase SiteScraper.deep_keywords href);
      [|exact (IH acc Hnd)].
    cbn [mapM].
    destruct (SiteScraper._build_absolute_url career_page_url href) as [full|e];
      cbn [rbind]; [|reflexivity].
    destruct (str_in full acc) eqn:Hin; cbn [negb].
    + apply str_in_elem_of in Hin. specialize (IH acc Hnd).
      destruct (mapM (SiteScraper._build_absolute_url career_page_url)
                     (List.filter (re_search_ignorecase SiteScraper.deep_keywords) rest))
        as [resolved|e]; cbn [rbind]; [|exact IH].
      destruct IH as (deep & Hrun & Hnd' & Hiff).
      exists deep. split; [exact Hrun|]. split; [exact Hnd'|].
      intros u. rewrite Hiff, elem_of_cons. split.
      * intros [Hu|Hu]; [now left | right; now right].
      * intros [Hu|[->|Hu]]; [now left | now left | now right].
    + assert (Hnd1 : NoDup (acc ++ [full])).
      { apply NoDup_app. repeat split; try assumption.
        - intros x Hx Hx'. apply list_elem_of_singleton in Hx'. subst x.
          apply str_in_elem_of in Hx. congruence.
        - apply NoDup_singleton. }
      specialize (IH _ Hnd1).
      destruct (mapM (SiteScraper._build_absolute_url career_page_url)
                     (List.filter (re_search_ignorecase SiteScraper.deep_keywords) rest))
        as [resolved|e]; cbn [rbind]; [|exact IH].
      destruct IH as (deep & Hrun & Hnd' & Hiff).
      exists deep. split; [exact Hrun|]. split; [exact Hnd'|].
      intros u. rewrite Hiff, elem_of_app, list_elem_of_singleton, elem_of_cons. tauto.
Qed.

(** What [_find_deep_career_pages] does after the fetch. *)
Lemma _find_deep_career_pages_run (career_page_url : string) (s : State W) :
  exists response s1 new,
    SiteScraper._get_with_retries career_page_url s = (Ok response, s1) /\
    trace s1 = trace s ++ new /\
    Forall (fun e => is_strategy_call e = false) new /\
    SiteScraper._find_deep_career_pages career_page_url s
    = (match response with
       | Some r =>
           if SiteScraper.falsy response then Ok []
           else SiteScraper.deep_loop career_page_url
                  (find_all_a_href (Response.text r)) []
       | None => Ok []
       end, s1).
Proof.
  destruct (site_retry_loop_quiet (range 0 SiteScraper.MAX_RETRIES) career_page_url s)
    as (response & s1 & new & Hrun & Htr & Hq).
  exists response, s1, new. split; [exact Hrun|]. split; [exact Htr|].
  split; [exact Hq|].
  unfold SiteScraper._find_deep_career_pages, SiteScraper._get_with_retries, bind.
  rewrite Hrun.
  destruct response as [r|]; [|reflexivity].
  destruct (SiteScraper.falsy (Some r)); reflexivity.
Qed.

(** The deeper-page step leaves only GETs and sleeps behind, and a list it
    returns holds no URL twice. *)
Lemma _find_deep_career_pages_quiet (career_page_url : string) (s : State W) :
  exists found s' new,
    SiteScraper._find_deep_career_pages career_page_url s = (found, s') /\
    trace s' = trace s ++ new /\
    Forall (fun e => is_strategy_call e = false) new /\
    (forall deep, found = Ok deep -> NoDup deep).
Proof.
  destruct (_find_deep_career_pages_run career_page_url s)
    as (response & s1 & new & _ & Htr & Hq & Hrun).
  eexists _, s1, new. split; [exact Hrun|]. split; [exact Htr|]. split; [exact Hq|].
  intros deep Hdeep.
  destruct response as [r|]; [|injection Hdeep as <-; apply NoDup_nil_2].
  destruct (SiteScraper.falsy (Some r)); [injection Hdeep as <-; apply NoDup_nil_2|].
  pose proof (deep_loop_spec career_page_url (find_all_a_href (Response.text r)) []
                (NoDup_nil_2)) as Hspec.
  destruct (mapM _ _) as [resolved|e].
  - destruct Hspec as (deep' & Hloop & Hnd & _). rewrite Hloop in Hdeep.
    now injection Hdeep as <-.
  - rewrite Hspec in Hdeep. discriminate.
Qed.


End CascadeFacts.






(** ** The pagination loop of the rendered strategy *)

Section PaginationFacts.
Context {W : Type} `{Browser W} `{HtmlParser}.

Lemma page_iterations_app (a b : list event) :
  page_iterations (a ++ b) = (page_iterations a + page_iterations b)%nat.
Proof. unfold page_iterations. now rewrite List.filter_app, length_app. Qed.

Lemma length_range (start stop : Z) :
  length (range start stop) = Z.to_nat (stop - start).
Proof. unfold range. now rewrite length_map, length_seq. Qed.

(** Each iteration opens with one wait; the loop never runs more iterations
    than it has page numbers. *)
Lemma pagination_loop_bound (page_nums : list Z) (url company_url : string) :
  forall jobs s r jobs' s',
    SiteScraper.pagination_loop page_nums url company_url jobs s = (r, jobs', s') ->
    exists new,
      trace s' = trace s ++ new /\
      (page_iterations new <= length page_nums)%nat.
Proof.
  induction page_nums as [|n rest IH]; intros jobs s r jobs' s'; simpl.
  - intros [= <- <- <-]. exists []. rewrite app_nil_r. split; [reflexivity | cbn; lia].
  - unfold call_raising at 1.
    destruct (wait_for_selector "body" (world s)) as [[[]|e] w1]; simpl.
    2:{ intros [= <- <- <-]. eexists [_]. split; [reflexivity | cbn; lia]. }
    unfold call_raising at 1. simpl.
    destruct (frame_content (SiteScraper.listing_frame w1) w1) as [[content|e] w2]; simpl.
    2:{ intros [= <- <- <-]. eexists [_; _]. rewrite <- app_assoc.
        split; [reflexivity | cbn; lia]. }
    destruct (select SiteScraper.listing_selector content) as [|elem elems].
    { intros [= <- <- <-]. eexists [_; _]. rewrite <- app_assoc.
      split; [reflexivity | cbn; lia]. }
    unfold call_raising at 1. simpl.
    destruct (query_selector SiteScraper.next_selector w2) as [[[|]|e] w3]; simpl.
    2:{ intros [= <- <- <-]. eexists [_; _; _]. rewrite <- !app_assoc.
        split; [reflexivity | cbn; lia]. }
    2:{ intros [= <- <- <-]. eexists [_; _; _]. rewrite <- !app_assoc.
        split; [reflexivity | cbn; lia]. }
    unfold call_raising at 1. simpl.
    destruct (click w3) as [[[]|e] w4]; simpl.
    2:{ intros [= <- <- <-]. eexists [_; _; _; _]. rewrite <- !app_assoc.
        split; [reflexivity | cbn; lia]. }
    intros Hrun. destruct (IH _ _ _ _ _ Hrun) as (new & Htr & Hle).
    exists ([EBrowser (WaitForSelector "body");
             EBrowser (Content (SiteScraper.listing_frame w1));
             EBrowser (QuerySelector SiteScraper.next_selector);
             EBrowser Click; ESleep 3] ++ new).
    split.
    + rewrite Htr. simpl. now rewrite <- !app_assoc.
    + rewrite page_iterations_app. cbn. lia.
Qed.

End PaginationFacts.

Section PaginationStops.
Context {W : Type} `{Browser W} `{HtmlParser}.

(** A page with no matching element ends the loop in that iteration. *)
Lemma pagination_loop_stops_on_empty_page
      (page_num : Z) (rest : list Z) (url company_url : string)
      (jobs : list (gmap string pyval)) (s : State W)
      (w1 w2 : W) (html : string) :
  wait_for_selector "body" (world s) = (Ok tt, w1) ->
  frame_content (SiteScraper.listing_frame w1) w1 = (Ok html, w2) ->
  select SiteScraper.listing_selector html = [] ->
  SiteScraper.pagination_loop (page_num :: rest) url company_url jobs s
  = (Ok tt, jobs,
     {| world := w2;
        trace := trace s ++ [EBrowser (WaitForSelector "body");
                             EBrowser (Content (SiteScraper.listing_frame w1))] |}).
Proof.
  intros Hwait Hcontent Hselect. simpl.
  unfold call_raising at 1. rewrite Hwait. simpl.
  unfold call_raising at 1. simpl. rewrite Hcontent. rewrite Hselect.
  now rewrite <- app_assoc.
Qed.

(** A page with no next-page control ends the loop in that iteration, after
    its elements were collected. *)
Lemma pagination_loop_stops_without_next
      (page_num : Z) (rest : list Z) (url company_url : string)
      (jobs : list (gmap string pyval)) (s : State W)
      (w1 w2 w3 : W) (html : string) :
  wait_for_selector "body" (world s) = (Ok tt, w1) ->
  frame_content (SiteScraper.listing_frame w1) w1 = (Ok html, w2) ->
  select SiteScraper.listing_selector html <> [] ->
  query_selector SiteScraper.next_selector w2 = (Ok false, w3) ->
  SiteScraper.pagination_loop (page_num :: rest) url company_url jobs s
  = (Ok tt,
     SiteScraper.extract_all (select SiteScraper.listing_selector html)
                             company_url url jobs,
     {| world := w3;
        trace := trace s ++ [EBrowser (WaitForSelector "body");
                             EBrowser (Content (SiteScraper.listing_frame w1));
                             EBrowser (QuerySelector SiteScraper.next_selector)] |}).
Proof.
  intros Hwait Hcontent Hselect Hnext. simpl.
  unfold call_raising at 1. rewrite Hwait. simpl.
  unfold call_raising at 1. simpl. rewrite Hcontent.
  destruct (select SiteScraper.listing_selector html) as [|elem elems] eqn:Hs;
    [now contradiction Hselect|].
  unfold call_raising at 1. simpl. rewrite Hnext.
  now rewrite <- !app_assoc.
Qed.

(** When every page shows elements and a next-page control, and no browser
    call raises, the loop runs once per page number: the bound is reached. *)
Lemma pagination_loop_runs_every_page (page_nums : list Z) (url company_url : string) :
  (forall w, exists w', wait_for_selector "body" w = (Ok tt, w')) ->
  (forall f w, exists html w',
      frame_content f w = (Ok html, w') /\
      select SiteScraper.listing_selector html <> []) ->
  (forall w, exists w', query_selector SiteScraper.next_selector w = (Ok true, w')) ->
  (forall w, exists w', click w = (Ok tt, w')) ->
  forall jobs s, exists jobs' s' new,
    SiteScraper.pagination_loop page_nums url company_url jobs s = (Ok tt, jobs', s') /\
    trace s' = trace s ++ new /\
    page_iterations new = length page_nums.
Proof.
  intros Hwait Hcontent Hnext Hclick.
  induction page_nums as [|n rest IH]; intros jobs s; simpl.
  - exists jobs, s, []. rewrite app_nil_r. repeat split.
  - destruct (Hwait (world s)) as (w1 & Hw).
    unfold call_raising at 1. rewrite Hw. simpl.
    destruct (Hcontent (SiteScraper.listing_frame w1) w1) as (html & w2 & Hc & Hne).
    unfold call_raising at 1. simpl. rewrite Hc.
    destruct (select SiteScraper.listing_selector html) as [|elem elems] eqn:Hs;
      [now contradiction Hne|].
    destruct (Hnext w2) as (w3 & Hq).
    unfold call_raising at 1. simpl. rewrite Hq.
    destruct (Hclick w3) as (w4 & Hk).
    unfold call_raising at 1. simpl. rewrite Hk.
    match goal with |- context [SiteScraper.pagination_loop rest url company_url ?j ?st] =>
      destruct (IH j st) as (jobs' & s' & new & Hrun & Htr & Hn) end.
    exists jobs', s',
      ([EBrowser (WaitForSelector "body");
        EBrowser (Content (SiteScraper.listing_frame w1));
        EBrowser (QuerySelector SiteScraper.next_selector);
        EBrowser Click; ESleep 3] ++ new).
    split; [exact Hrun|]. split.
    + rewrite Htr. simpl. now rewrite <- !app_assoc.
    + rewrite page_iterations_app. cbn. now rewrite Hn.
Qed.

End PaginationStops.

(** C7: [playwright_scrape] runs at most [max_pages] iterations of its
    pagination loop whatever the browser shows, at most 3 when [max_pages]
    is left at its default; and an iteration whose page has no matching
    element, or no next-page control, is the last one. *)
Theorem pagination_bounded
        {W : Type} `{Browser W} `{HtmlParser}
        (url company_url : string) (max_pages : Z) (s : State W) :
  (exists new,
      trace (snd (SiteScraper.playwright_scrape url company_url max_pages s))
      = trace s ++ new /\
      (page_iterations new <= Z.to_nat max_pages)%nat) /\
  (exists new,
      trace (snd (SiteScraper.playwright_tool url s)) = trace s ++ new /\
      (page_iterations new <= 3)%nat) /\
  (forall page_num rest jobs w1 w2 html,
      wait_for_selector "body" (world s) = (Ok tt, w1) ->
      frame_content (SiteScraper.listing_frame w1) w1 = (Ok html, w2) ->
      select SiteScraper.listing_selector html = [] ->
      SiteScraper.pagination_loop (page_num :: rest) url company_url jobs s
      = (Ok tt, jobs,
         {| world := w2;
            trace := trace s ++ [EBrowser (WaitForSelector "body");
                                 EBrowser (Content (SiteScraper.listing_frame w1))] |})) /\
  (forall page_num rest jobs w1 w2 w3 html,
      wait_for_selector "body" (world s) = (Ok tt, w1) ->
      frame_content (SiteScraper.listing_frame w1) w1 = (Ok html, w2) ->
      select SiteScraper.listing_selector html <> [] ->
      query_selector SiteScraper.next_selector w2 = (Ok false, w3) ->
      SiteScraper.pagination_loop (page_num :: rest) url company_url jobs s
      = (Ok tt,
         SiteScraper.extract_all (select SiteScraper.listing_selector html)
                                 company_url url jobs,
         {| world := w3;
            trace := trace s ++ [EBrowser (WaitForSelector "body");
                                 EBrowser (Content (SiteScraper.listing_frame w1));
                                 EBrowser (QuerySelector SiteScraper.next_selector)] |})).
Proof.
  assert (Hbound : forall u c m,
             exists new,
               trace (snd (SiteScraper.playwright_scrape u c m s)) = trace s ++ new /\
               (page_iterations new <= Z.to_nat m)%nat).
  { intros u c m. unfold SiteScraper.playwright_scrape, bind, finally.
    unfold call_raising at 1.
    destruct (launch (world s)) as [[[]|e] w0]; simpl.
    2:{ eexists [_]. split; [reflexivity | cbn; lia]. }
    unfold call_raising at 1. simpl.
    destruct (new_page w0) as [[[]|e] wp]; simpl.
    2:{ eexists [_; _]. split; [now rewrite <- !app_assoc | cbn; lia]. }
    unfold call_raising at 1. simpl.
    destruct (goto u wp) as [[[]|e] w1]; simpl.
    - destruct (SiteScraper.pagination_loop (range 1 (m + 1)) u c []
                  {| world := w1;
                     trace := ((trace s ++ [EBrowser Launch]) ++ [EBrowser NewPage])
                              ++ [EBrowser (Goto u)] |})
        as [[r jobs] s2] eqn:Hloop.
      destruct (pagination_loop_bound _ _ _ _ _ _ _ _ Hloop) as (new & Htr & Hle).
      rewrite length_range in Hle. replace (m + 1 - 1) with m in Hle by lia.
      unfold call_raising. destruct (close (world s2)) as [[[]|e] w3]; simpl;
        (exists ([EBrowser Launch; EBrowser NewPage; EBrowser (Goto u)]
                 ++ new ++ [EBrowser Close]);
         split; [rewrite Htr; simpl; now rewrite <- !app_assoc
                | rewrite !page_iterations_app; cbn; lia]).
    - unfold call_raising. simpl. destruct (close w1) as [[[]|e'] w3]; simpl;
        (eexists [_; _; _; _]; split; [now rewrite <- !app_assoc | cbn; lia]). }
  split; [apply Hbound|]. split; [apply (Hbound url url 3)|]. split.
  - intros page_num rest jobs w1 w2 html Hwait Hcontent Hselect.
    exact (pagination_loop_stops_on_empty_page _ _ _ _ _ _ _ _ _ Hwait Hcontent Hselect).
  - intros page_num rest jobs w1 w2 w3 html Hwait Hcontent Hselect Hnext.
    exact (pagination_loop_stops_without_next _ _ _ _ _ _ _ _ _ _
             Hwait Hcontent Hselect Hnext).
Qed.

(** ** The aggregator *)

Section AggregatorFacts.
Context {W : Type} `{JobAgent W}.

Lemma collect_raises {A : Type} (outcomes : list (result A)) :
  (exists e, Raise e ∈ outcomes) -> exists e, Aggregator.collect outcomes = Raise e.
Proof.
  induction outcomes as [|o rest IH]; intros (e & Hin).
  - inversion Hin.
  - destruct o as [a|e0]; simpl; [|now exists e0].
    apply elem_of_cons in Hin as [Heq|Hin]; [discriminate|].
    destruct (IH (ex_intro _ e Hin)) as (e1 & ->). now exists e1.
Qed.

Lemma collect_all_ok {A : Type} (values : list A) :
  Aggregator.collect (map Ok values) = Ok values.
Proof.
  induction values as [|v rest IH]; simpl; [reflexivity|]. now rewrite IH.
Qed.

Lemma extend_all_flattens (job_results : list (list (gmap string pyval)))
      (company_list : list string) (all_jobs : list (gmap string pyval)) :
  length job_results = length company_list ->
  Aggregator.extend_all (combine job_results company_list) all_jobs
  = all_jobs ++ concat job_results.
Proof.
  revert company_list all_jobs.
  induction job_results as [|job_posts rest IH]; intros [|c cs] all_jobs Hlen;
    simpl in *; try discriminate.
  - now rewrite app_nil_r.
  - rewrite IH by lia. destruct job_posts; [reflexivity | now rewrite <- app_assoc].
Qed.

Lemma run_tasks_length (company_list : list string) (w : W) :
  length (fst (Aggregator.run_tasks company_list w)) = length company_list.
Proof.
  revert w. induction company_list as [|c cs IH]; intros w; simpl; [reflexivity|].
  destruct (SiteScraper.scrape_company_jobs c w) as [r w1].
  specialize (IH w1). destruct (Aggregator.run_tasks cs w1) as [rs w2].
  simpl in *. now rewrite IH.
Qed.

(** X18: as soon as one of the scrape tasks raised, whichever it is and
    however many there are, [Aggregator.run] raises: no job of any company
    is returned. *)
Lemma run_raises_with_a_task (company_list : list string) (w : W) :
  (exists e, Raise e ∈ fst (Aggregator.run_tasks company_list w)) ->
  exists e, fst (Aggregator.run company_list w) = Raise e.
Proof.
  intros Hraise. unfold Aggregator.run, Aggregator.gather.
  destruct (Aggregator.run_tasks company_list w) as [outcomes w'].
  destruct (collect_raises outcomes Hraise) as (e & He).
  rewrite He. now exists e.
Qed.

(** X19: when no scrape task raises, [Aggregator.run] returns the jobs of
    all companies, flattened in the order of the company list. *)
Lemma run_flattens (company_list : list string) (w : W)
      (job_results : list (list (gmap string pyval))) :
  fst (Aggregator.run_tasks company_list w) = map Ok job_results ->
  fst (Aggregator.run company_list w) = Ok (concat job_results).
Proof.
  intros Hok. unfold Aggregator.run, Aggregator.gather.
  pose proof (run_tasks_length company_list w) as Hlen.
  destruct (Aggregator.run_tasks company_list w) as [outcomes w'].
  simpl in Hok, Hlen. subst outcomes.
  rewrite collect_all_ok. simpl.
  rewrite length_map in Hlen. now rewrite extend_all_flattens.
Qed.

End AggregatorFacts.

(** C2: over three companies of which the second one's scrape raises,
    [Aggregator.run] raises that exception instead of returning the jobs of
    the first and the third company. *)
Theorem run_aborts_on_failure :
  @Aggregator.run unit Companies.second_fails Companies.three tt
  = (Raise (OtherError "agent failed"), tt) /\
  fst (@Aggregator.run unit Companies.second_fails Companies.three tt)
  <> Ok [Companies.job_at "http://a.example"; Companies.job_at "http://c.example"].
Proof. split; [vm_compute; reflexivity | vm_compute; discriminate]. Qed.

(** * Further properties of the filter *)

Section FilterLoopFacts.
Import Filters.
Variables (titles : list string) (mn mx : Z) (locs types : list string).

(** What the loop returns is the accumulator followed by jobs of the input,
    in input order, each of which passed without an exception. *)
Lemma filter_loop_kept (jobs filtered out : list (gmap string pyval)) :
  filter_loop titles mn mx locs types jobs filtered = Ok out ->
  exists kept,
    out = filtered ++ kept /\
    sublist kept jobs /\
    Forall (fun job => job_passes titles mn mx locs types job = Ok true) kept.
Proof.
  revert filtered. induction jobs as [|job rest IH]; intros filtered; simpl.
  - intros [= <-]. exists []. rewrite app_nil_r. repeat split; constructor.
  - destruct (job_passes titles mn mx locs types job) as [keep|e] eqn:Hp; simpl;
      [|discriminate].
    intros Hrun. destruct (IH _ Hrun) as (kept & -> & Hsub & Hall).
    destruct keep.
    + exists (job :: kept). rewrite <- app_assoc. simpl.
      repeat split; [now apply sublist_skip | now constructor].
    + exists kept. repeat split; [now apply sublist_cons | assumption].
Qed.

(** Jobs that all pass are all kept. *)
Lemma filter_loop_all_pass (jobs filtered : list (gmap string pyval)) :
  Forall (fun job => job_passes titles mn mx locs types job = Ok true) jobs ->
  filter_loop titles mn mx locs types jobs filtered = Ok (filtered ++ jobs).
Proof.
  revert filtered. induction jobs as [|job rest IH]; intros filtered Hall; simpl.
  - now rewrite app_nil_r.
  - apply Forall_cons in Hall as [Hj Hrest]. rewrite Hj. simpl.
    rewrite IH by exact Hrest. now rewrite <- app_assoc.
Qed.

End FilterLoopFacts.

(** X1: whenever [filter_jobs] returns, what it returns is a sublist of its
    input: the kept jobs are jobs of the input, unchanged and in input
    order. *)
Theorem filter_jobs_sublist
        (jobs out : list (gmap string pyval)) (c : option Filters.FilterConfig) :
  Filters.filter_jobs jobs c = Ok out -> sublist out jobs.
Proof.
  unfold Filters.filter_jobs. destruct c as [c|]; [|now intros [= <-]].
  destruct (negb (Filters.dict_truthy c)); [now intros [= <-]|].
  intros Hrun. destruct (filter_loop_kept _ _ _ _ _ _ _ _ Hrun) as (kept & -> & Hsub & _).
  exact Hsub.
Qed.

Lemma filter_jobs_sublist_witness :
  sublist [Fixtures.senior_job] [Fixtures.senior_job; Fixtures.onsite_job].
Proof.
  apply (filter_jobs_sublist [Fixtures.senior_job; Fixtures.onsite_job]
           [Fixtures.senior_job] (Some Fixtures.remote_engineer)).
  vm_compute. reflexivity.
Defined.

(** X2: filtering is idempotent: filtering again, with the same
    configuration, what [filter_jobs] returned gives the same list. *)
Theorem filter_jobs_idempotent
        (jobs out : list (gmap string pyval)) (c : option Filters.FilterConfig) :
  Filters.filter_jobs jobs c = Ok out ->
  Filters.filter_jobs out c = Ok out.
Proof.
  unfold Filters.filter_jobs. destruct c as [c|]; [|reflexivity].
  destruct (negb (Filters.dict_truthy c)); [reflexivity|].
  intros Hrun. destruct (filter_loop_kept _ _ _ _ _ _ _ _ Hrun) as (kept & -> & _ & Hall).
  simpl. now apply filter_loop_all_pass.
Qed.

Lemma filter_jobs_idempotent_witness :
  Filters.filter_jobs [Fixtures.senior_job] (Some Fixtures.remote_engineer)
  = Ok [Fixtures.senior_job].
Proof.
  apply (filter_jobs_idempotent [Fixtures.senior_job; Fixtures.onsite_job]
           [Fixtures.senior_job] (Some Fixtures.remote_engineer)).
  vm_compute. reflexivity.
Defined.

(** X3: a non-empty configuration that configures no job title lets no job
    through, whatever its other fields and whatever the jobs: the filter
    returns the empty list or raises. *)
Theorem filter_jobs_without_titles
        (jobs : list (gmap string pyval)) (c : Filters.FilterConfig) :
  Filters.dict_truthy c = true ->
  Filters.get (Filters.job_titles c) [] = [] ->
  Filters.filter_jobs jobs (Some c) = Ok [] \/
  exists e, Filters.filter_jobs jobs (Some c) = Raise e.
Proof.
  intros Ht Hnil. unfold Filters.filter_jobs. rewrite Ht, Hnil. simpl.
  destruct (Filters.filter_loop [] _ _ _ _ jobs []) as [out|e] eqn:Hrun.
  - left. now rewrite (filter_loop_no_titles _ _ _ _ _ _ _ Hrun).
  - right. now exists e.
Qed.

Lemma filter_jobs_without_titles_witness :
  Filters.filter_jobs [Fixtures.senior_job] (Some Fixtures.remote_only) = Ok [] \/
  exists e, Filters.filter_jobs [Fixtures.senior_job] (Some Fixtures.remote_only)
            = Raise e.
Proof.
  apply (filter_jobs_without_titles [Fixtures.senior_job] Fixtures.remote_only);
    reflexivity.
Defined.

(** X4: a job whose experience is text, as the LLM service words it
    ("5+ years", "Unknown"), makes the filter raise [TypeError] under every
    non-empty configuration: the number comparison is reached as soon as the
    title test went through. *)
Theorem filter_jobs_text_experience
        (c : Filters.FilterConfig) (job : gmap string pyval)
        (rest : list (gmap string pyval)) (title experience : string) :
  Filters.dict_truthy c = true ->
  job !! "title" = Some (PStr title) ->
  job !! "experience" = Some (PStr experience) ->
  Filters.filter_jobs (job :: rest) (Some c) = Raise TypeError.
Proof.
  intros Ht Htitle Hexp. unfold Filters.filter_jobs. rewrite Ht. simpl.
  unfold Filters.job_passes. rewrite (any_in_text _ _ _ _ Htitle). simpl.
  unfold Filters.experience_check. now rewrite Hexp.
Qed.

Lemma filter_jobs_text_experience_witness :
  Filters.filter_jobs [Fixtures.llm_job] (Some Fixtures.engineer_only)
  = Raise TypeError.
Proof.
  apply (filter_jobs_text_experience Fixtures.engineer_only Fixtures.llm_job []
           "Product Manager" "5+ years"); reflexivity.
Defined.

Section FilterInvariance.
Import Filters.

Lemma experience_check_without_number (mn mx mn' mx' : Z) (job : gmap string pyval) :
  match job !! "experience" with Some (PInt _) => false | _ => true end = true ->
  experience_check mn mx job = experience_check mn' mx' job.
Proof.
  unfold experience_check.
  destruct (job !! "experience") as [[s|e|]|]; try reflexivity. discriminate.
Qed.

Lemma filter_loop_without_number (titles : list string) (mn mx mn' mx' : Z)
      (locs types : list string) (jobs filtered : list (gmap string pyval)) :
  forallb (fun job =>
             match job !! "experience" with Some (PInt _) => false | _ => true end)
          jobs = true ->
  filter_loop titles mn mx locs types jobs filtered
  = filter_loop titles mn' mx' locs types jobs filtered.
Proof.
  revert filtered. induction jobs as [|job rest IH]; intros filtered Hall; simpl;
    [reflexivity|].
  simpl in Hall. apply andb_prop in Hall as [Hj Hrest].
  unfold job_passes.
  rewrite (experience_check_without_number mn mx mn' mx' job Hj).
  destruct (any_in titles job "title"); simpl; [|reflexivity].
  destruct (experience_check mn' mx' job); simpl; [|reflexivity].
  destruct (guarded_any locs job "location"); simpl; [|reflexivity].
  destruct (guarded_any types job "job_type"); simpl; [|reflexivity].
  now apply IH.
Qed.

(** Configured entries count up to case only. *)
Lemma any_in_up_to_case (n1 n2 : list string) (job : gmap string pyval) (key : string) :
  map lower n1 = map lower n2 ->
  any_in n1 job key = any_in n2 job key.
Proof.
  revert n2. induction n1 as [|t ts IH]; intros [|t' ts'] Heq; simpl in *;
    try discriminate; [reflexivity|].
  injection Heq as Ht Hts. rewrite Ht.
  destruct (getitem job key); simpl; [|reflexivity].
  destruct (str_lower a); simpl; [|reflexivity].
  destruct (contains (lower t') a0); [reflexivity | now apply IH].
Qed.

Lemma guarded_any_up_to_case (n1 n2 : list string) (job : gmap string pyval)
      (key : string) :
  map lower n1 = map lower n2 ->
  guarded_any n1 job key = guarded_any n2 job key.
Proof.
  intros Heq. unfold guarded_any.
  destruct n1 as [|t ts], n2 as [|t' ts']; try discriminate; [reflexivity|].
  now apply any_in_up_to_case.
Qed.

Lemma filter_loop_up_to_case (t1 t2 : list string) (mn mx : Z)
      (l1 l2 y1 y2 : list string) (jobs filtered : list (gmap string pyval)) :
  map lower t1 = map lower t2 ->
  map lower l1 = map lower l2 ->
  map lower y1 = map lower y2 ->
  filter_loop t1 mn mx l1 y1 jobs filtered = filter_loop t2 mn mx l2 y2 jobs filtered.
Proof.
  intros Ht Hl Hy. revert filtered.
  induction jobs as [|job rest IH]; intros filtered; simpl; [reflexivity|].
  unfold job_passes.
  rewrite (any_in_up_to_case t1 t2 job "title" Ht).
  rewrite (guarded_any_up_to_case l1 l2 job "location" Hl).
  rewrite (guarded_any_up_to_case y1 y2 job "job_type" Hy).
  destruct (any_in t2 job "title"); simpl; [|reflexivity].
  destruct (experience_check mn mx job); simpl; [|reflexivity].
  destruct (guarded_any l2 job "location"); simpl; [|reflexivity].
  destruct (guarded_any y2 job "job_type"); simpl; [|reflexivity].
  apply IH.
Qed.

End FilterInvariance.

(** X5: the experience bounds only bear on jobs that carry a number: on jobs
    whose experience is absent or [None], two non-empty configurations that
    differ in their bounds only give the same result. *)
Theorem filter_jobs_bounds_need_a_number
        (c1 c2 : Filters.FilterConfig) (jobs : list (gmap string pyval)) :
  Filters.dict_truthy c1 = true ->
  Filters.dict_truthy c2 = true ->
  Filters.job_titles c1 = Filters.job_titles c2 ->
  Filters.locations c1 = Filters.locations c2 ->
  Filters.job_type c1 = Filters.job_type c2 ->
  forallb (fun job =>
             match job !! "experience" with Some (PInt _) => false | _ => true end)
          jobs = true ->
  Filters.filter_jobs jobs (Some c1) = Filters.filter_jobs jobs (Some c2).
Proof.
  intros H1 H2 Ht Hl Hy Hall. unfold Filters.filter_jobs.
  rewrite H1, H2, Ht, Hl, Hy. simpl.
  now apply filter_loop_without_number.
Qed.

Lemma filter_jobs_bounds_need_a_number_witness :
  Filters.filter_jobs [Fixtures.onsite_job; Fixtures.scraped_job]
                      (Some Fixtures.engineer_only)
  = Filters.filter_jobs [Fixtures.onsite_job; Fixtures.scraped_job]
                        (Some Fixtures.junior_engineer).
Proof.
  apply (filter_jobs_bounds_need_a_number Fixtures.engineer_only
           Fixtures.junior_engineer [Fixtures.onsite_job; Fixtures.scraped_job]);
    reflexivity.
Defined.

(** X6: the configured titles, locations and job types count up to letter
    case only: two configurations with the same keys and bounds whose lists
    agree once lowered give the same result on every job list. *)
Theorem filter_jobs_case_insensitive
        (c1 c2 : Filters.FilterConfig) (jobs : list (gmap string pyval)) :
  option_map (map lower) (Filters.job_titles c1)
  = option_map (map lower) (Filters.job_titles c2) ->
  option_map (map lower) (Filters.locations c1)
  = option_map (map lower) (Filters.locations c2) ->
  option_map (map lower) (Filters.job_type c1)
  = option_map (map lower) (Filters.job_type c2) ->
  Filters.min_experience_years c1 = Filters.min_experience_years c2 ->
  Filters.max_experience_years c1 = Filters.max_experience_years c2 ->
  Filters.filter_jobs jobs (Some c1) = Filters.filter_jobs jobs (Some c2).
Proof.
  intros Ht Hl Hy Hmn Hmx. unfold Filters.filter_jobs.
  assert (Htruthy : Filters.dict_truthy c1 = Filters.dict_truthy c2).
  { unfold Filters.dict_truthy. rewrite Hmn, Hmx.
    destruct (Filters.job_titles c1), (Filters.job_titles c2); try discriminate;
      destruct (Filters.locations c1), (Filters.locations c2); try discriminate;
      destruct (Filters.job_type c1), (Filters.job_type c2); try discriminate;
      reflexivity. }
  rewrite Htruthy, Hmn, Hmx.
  destruct (negb (Filters.dict_truthy c2)); [reflexivity|].
  apply filter_loop_up_to_case.
  - destruct (Filters.job_titles c1), (Filters.job_titles c2); try discriminate;
      simpl in *; congruence.
  - destruct (Filters.locations c1), (Filters.locations c2); try discriminate;
      simpl in *; congruence.
  - destruct (Filters.job_type c1), (Filters.job_type c2); try discriminate;
      simpl in *; congruence.
Qed.

Lemma filter_jobs_case_insensitive_witness :
  Filters.filter_jobs [Fixtures.senior_job; Fixtures.onsite_job]
                      (Some Fixtures.remote_engineer)
  = Filters.filter_jobs [Fixtures.senior_job; Fixtures.onsite_job]
                        (Some Fixtures.remote_engineer_caps).
Proof.
  apply (filter_jobs_case_insensitive Fixtures.remote_engineer
           Fixtures.remote_engineer_caps [Fixtures.senior_job; Fixtures.onsite_job]);
    reflexivity.
Defined.

(** * Further properties of the retrying fetcher *)



Section FetcherBounds.
Context {W : Type} `{Network W}.



End FetcherBounds.



(** * Further properties of the career-page locator *)

Lemma prefix_https_http (href : string) :
  String.prefix "https" href = true -> String.prefix "http" href = true.
Proof.
  intros Hp. apply String.prefix_correct in Hp. apply String.prefix_correct.
  destruct href as [|c1 [|c2 [|c3 [|c4 [|c5 rest]]]]]; simpl in *; try discriminate.
  injection Hp as -> -> -> -> _. reflexivity.
Qed.

(** The three ways the scrapers resolve an [href] agree on every input:
    the extra [startswith("https")] test of site_scraper.py changes nothing,
    and both [find_careers_pages] resolve a link as [_build_absolute_url]
    does. *)
Theorem full_url_of_agree `{HtmlParser} (company_url href : string) :
  SiteScraper.full_url_of company_url href
  = SiteScraper._build_absolute_url company_url href /\
  LangchainAgent.full_url_of company_url href
  = SiteScraper._build_absolute_url company_url href.
Proof.
  unfold SiteScraper.full_url_of, LangchainAgent.full_url_of,
    SiteScraper._build_absolute_url.
  split; [|reflexivity].
  destruct (String.prefix "http" href) eqn:Hhttp.
  - now rewrite orb_true_r.
  - destruct (String.prefix "https" href) eqn:Hhttps; [|reflexivity].
    apply prefix_https_http in Hhttps. congruence.
Qed.

(** X9: [find_careers_pages] of langchain_agent.py returns [[company_url]]
    when the fetch gave nothing. From a fetched page it resolves every link
    in document order: when all resolve it returns exactly the resolved
    links that match [careers], [jobs] or [join-us], in document order and
    as often as the page links to them, and [[company_url]] when there is
    none; when [urljoin] raises on a link it raises that exception. *)
Theorem agent_find_careers_pages_keeps_matches
        {W : Type} `{Network W} `{HtmlParser} (company_url : string) (s : State W) :
  exists response s1,
    LangchainAgent._get_with_retries company_url s = (Ok response, s1) /\
    match response with
    | None =>
        LangchainAgent.find_careers_pages company_url s = (Ok [company_url], s1)
    | Some r =>
        match mapM (LangchainAgent.full_url_of company_url)
                   (find_all_a_href (Response.text r)) with
        | Ok resolved =>
            LangchainAgent.find_careers_pages company_url s
            = (Ok (match List.filter
                           (re_search_ignorecase LangchainAgent.careers_keywords)
                           resolved with
                   | [] => [company_url]
                   | matching => matching
                   end), s1)
        | Raise e =>
            LangchainAgent.find_careers_pages company_url s = (Raise e, s1)
        end
    end.
Proof.
  destruct (agent_find_careers_pages_run company_url s)
    as (response & s1 & Hget & Hnone & Hpage).
  exists response, s1. split; [exact Hget|].
  destruct response as [r|]; [|now apply Hnone].
  rewrite (Hpage r eq_refl).
  destruct (mapM (LangchainAgent.full_url_of company_url)
                 (find_all_a_href (Response.text r))); reflexivity.
Qed.

(** X10: [_find_deep_career_pages] returns the empty list when the fetch
    gave no usable response. From a fetched page it resolves, in document
    order, the [href]s that match [jobs], [positions] or [careers-home],
    the keyword being looked for in the [href] as written: when all of them
    resolve it returns the resolved URLs, each once; when [urljoin] raises
    on one of them it raises that exception. *)
Theorem _find_deep_career_pages_spec
        {W : Type} `{Network W} `{HtmlParser} (career_page_url : string) (s : State W) :
  exists response s1,
    SiteScraper._get_with_retries career_page_url s = (Ok response, s1) /\
    (SiteScraper.falsy response = true ->
     SiteScraper._find_deep_career_pages career_page_url s = (Ok [], s1)) /\
    (forall r, response = Some r -> Response.ok r = true ->
       match mapM (SiteScraper._build_absolute_url career_page_url)
                  (List.filter (re_search_ignorecase SiteScraper.deep_keywords)
                               (find_all_a_href (Response.text r))) with
       | Ok resolved =>
           exists deep,
             SiteScraper._find_deep_career_pages career_page_url s = (Ok deep, s1) /\
             NoDup deep /\
             (forall u, u ∈ deep <-> u ∈ resolved)
       | Raise e =>
           SiteScraper._find_deep_career_pages career_page_url s = (Raise e, s1)
       end).
Proof.
  destruct (site_retry_loop_total (range 0 SiteScraper.MAX_RETRIES) career_page_url s)
    as (response & s1 & Hget).
  exists response, s1. split; [exact Hget|].
  assert (Hrun : SiteScraper._find_deep_career_pages career_page_url s
                 = (match response with
                    | Some r =>
                        if SiteScraper.falsy response then Ok []
                        else SiteScraper.deep_loop career_page_url
                               (find_all_a_href (Response.text r)) []
                    | None => Ok []
                    end, s1)).
  { unfold SiteScraper._find_deep_career_pages, SiteScraper._get_with_retries, bind.
    rewrite Hget. destruct response as [r|]; [|reflexivity].
    destruct (SiteScraper.falsy (Some r)); reflexivity. }
  rewrite Hrun. split.
  - intros Hf. destruct response as [r|]; [|reflexivity]. now rewrite Hf.
  - intros r -> Hok. cbn [SiteScraper.falsy]. rewrite Hok. cbn [negb].
    pose proof (deep_loop_spec career_page_url (find_all_a_href (Response.text r)) []
                  (NoDup_nil_2)) as Hspec.
    destruct (mapM _ _) as [resolved|e].
    + destruct Hspec as (deep & -> & Hnd & Hiff). exists deep.
      split; [reflexivity|]. split; [exact Hnd|].
      intros u. rewrite Hiff. split; [intros [Hu|Hu]; [inversion Hu | exact Hu]|].
      intros Hu. now right.
    + now rewrite Hspec.
Qed.

(** X11: a list that [find_careers_pages] of site_scraper.py returns never
    holds a URL twice, and it is the lone [company_url] or URLs that all
    match a career keyword; from a fetched page the method returns exactly
    when every link resolves, and raises the exception of [urljoin]
    otherwise. *)
Theorem site_find_careers_pages_distinct
        {W : Type} `{Network W} `{HtmlParser} (company_url : string) (s : State W) :
  exists response s1,
    SiteScraper._get_with_retries company_url s = (Ok response, s1) /\
    (forall pages s',
        SiteScraper.find_careers_pages company_url s = (Ok pages, s') ->
        NoDup pages /\
        (pages = [company_url] \/
         Forall (fun u => re_search_ignorecase SiteScraper.careers_keywords u = true)
                pages)) /\
    (forall r, response = Some r -> SiteScraper.falsy response = false ->
       match mapM (SiteScraper.full_url_of company_url)
                  (find_all_a_href (Response.text r)) with
       | Ok resolved =>
           exists pages,
             SiteScraper.find_careers_pages company_url s = (Ok pages, s1)
       | Raise e => SiteScraper.find_careers_pages company_url s = (Raise e, s1)
       end).
Proof.
  destruct (site_find_careers_pages_run company_url s)
    as (response & s1 & Hget & Hfalsy & Hpage).
  exists response, s1. split; [exact Hget|]. split.
  - intros pages s' Hrun.
    destruct (SiteScraper.falsy response) eqn:Hf.
    + rewrite (Hfalsy eq_refl) in Hrun. injection Hrun as <- _.
      split; [apply NoDup_singleton | now left].
    + destruct response as [r|]; [|discriminate].
      rewrite (Hpage r eq_refl eq_refl) in Hrun.
      pose proof (site_careers_loop_acc company_url
                    (find_all_a_href (Response.text r)) [] (NoDup_nil_2)) as Hacc.
      destruct (mapM (SiteScraper.full_url_of company_url)
                     (find_all_a_href (Response.text r))) as [resolved|e].
      * destruct Hacc as (ext & Hloop & Hnd & Hsub & _).
        rewrite Hloop in Hrun. cbn [rbind app] in Hrun, Hnd.
        destruct ext as [|u us]; injection Hrun as <- _.
        -- split; [apply NoDup_singleton | now left].
        -- split; [exact Hnd|]. right. apply Forall_forall. intros x Hx.
           pose proof (elem_of_sublist _ _ _ Hx Hsub) as Hfx.
           now apply list_elem_of_In, filter_In in Hfx as [_ Hm].
      * rewrite Hacc in Hrun. discriminate.
  - intros r -> Hf. rewrite (Hpage r eq_refl Hf).
    pose proof (site_careers_loop_acc company_url
                  (find_all_a_href (Response.text r)) [] (NoDup_nil_2)) as Hacc.
    destruct (mapM (SiteScraper.full_url_of company_url)
                   (find_all_a_href (Response.text r))) as [resolved|e].
    + destruct Hacc as (ext & -> & _). cbn [rbind]. now eexists.
    + now rewrite Hacc.
Qed.

(** * Further properties of the scrapers *)

Lemma substring_0_length (n : nat) (s : string) :
  (String.length (String.substring 0 n s) <= n)%nat.
Proof.
  revert s. induction n as [|n IH]; intros [|c r]; simpl; try lia.
  specialize (IH r). lia.
Qed.

Lemma substring_0_prefix (n : nat) (s : string) :
  String.prefix (String.substring 0 n s) s = true.
Proof.
  revert s. induction n as [|n IH]; intros [|c r]; simpl; try reflexivity.
  destruct (ascii_dec c c) as [_|Hne]; [apply IH | now contradiction Hne].
Qed.

(** [_extract_job_data] returns a job exactly for an element with some
    text; its title is then the first 50 characters of that text, never
    empty, and the job holds the keys [company], [title] and [url] and no
    other. *)
Theorem _extract_job_data_title
        (elem : option Tag) (company_url source_url : string) :
  match SiteScraper._extract_job_data elem company_url source_url with
  | Some job =>
      exists e title,
        elem = Some e /\
        title = String.substring 0 50 (get_text e) /\
        title <> "" /\
        (String.length title <= 50)%nat /\
        String.prefix title (get_text e) = true /\
        job !! "title" = Some (PStr title) /\
        job !! "company" = Some (PStr company_url) /\
        job !! "url" = Some (PStr source_url) /\
        dom job = ({["company"; "title"; "url"]} : gset string)
  | None => elem = None \/ exists e, elem = Some e /\ get_text e = ""
  end.
Proof.
  unfold SiteScraper._extract_job_data. destruct elem as [e|]; [|now left].
  destruct (String.substring 0 50 (get_text e)) as [|ch r] eqn:Hsub.
  - right. exists e. split; [reflexivity|].
    destruct (get_text e); [reflexivity | discriminate].
  - exists e, (String ch r). rewrite <- Hsub.
    split; [reflexivity|]. split; [reflexivity|].
    split; [rewrite Hsub; discriminate|].
    split; [apply substring_0_length|].
    split; [apply substring_0_prefix|].
    split; [by simplify_map_eq|].
    split; [by simplify_map_eq|].
    split; [by simplify_map_eq|].
    rewrite !dom_insert_L, dom_empty_L. set_solver.
Qed.

Section StaticScrape.
Context {W : Type} `{Network W} `{HtmlParser}.

(** The extraction loop appends, in document order, one job per element
    that has some text. *)
Lemma extract_all_omap (job_elems : list Tag) (company_url url : string)
      (jobs : list (gmap string pyval)) :
  SiteScraper.extract_all job_elems company_url url jobs
  = jobs ++ omap (fun elem => SiteScraper._extract_job_data (Some elem) company_url url)
                 job_elems.
Proof.
  revert jobs. induction job_elems as [|elem rest IH]; intros jobs; simpl.
  - now rewrite app_nil_r.
  - rewrite IH.
    destruct (SiteScraper._extract_job_data (Some elem) company_url url);
      [now rewrite <- app_assoc | reflexivity].
Qed.

Lemma extracted_jobs_shape (job_elems : list Tag) (company_url url : string) :
  Forall (fun job => job !! "company" = Some (PStr company_url) /\
                     job !! "url" = Some (PStr url) /\
                     job !! "location" = None)
         (omap (fun elem => SiteScraper._extract_job_data (Some elem) company_url url)
               job_elems).
Proof.
  induction job_elems as [|elem rest IH]; simpl; [constructor|].
  destruct (SiteScraper._extract_job_data (Some elem) company_url url) as [job|] eqn:Hj;
    [|exact IH].
  constructor; [|exact IH].
  apply _extract_job_data_shape in Hj as [title ->].
  repeat split; by simplify_map_eq.
Qed.

Lemma omap_length_le {A B : Type} (f : A -> option B) (l : list A) :
  (length (omap f l) <= length l)%nat.
Proof.
  induction l as [|x l IH]; [reflexivity|].
  change (omap f (x :: l))
    with (match f x with Some y => y :: omap f l | None => omap f l end).
  destruct (f x); simpl length; lia.
Qed.

End StaticScrape.

(** X12: [naive_scrape] always returns and only fetches; it returns no job
    when the fetch gave no usable response, and otherwise one job per
    element selected by [[class*=job], [class*=position]] that has some
    text, in document order, each carrying the given company and page URL
    and no location. *)
Theorem naive_scrape_spec
        {W : Type} `{Network W} `{HtmlParser} (url company_url : string) (s : State W) :
  exists response jobs s',
    SiteScraper._get_with_retries url s = (Ok response, s') /\
    SiteScraper.naive_scrape url company_url s = (Ok jobs, s') /\
    (SiteScraper.falsy response = true -> jobs = []) /\
    (forall r, response = Some r -> Response.ok r = true ->
       jobs = omap (fun elem => SiteScraper._extract_job_data (Some elem) company_url url)
                   (select "[class*=job], [class*=position]" (Response.text r)) /\
       (length jobs
        <= length (select "[class*=job], [class*=position]" (Response.text r)))%nat) /\
    Forall (fun job => job !! "company" = Some (PStr company_url) /\
                       job !! "url" = Some (PStr url) /\
                       job !! "location" = None) jobs.
Proof.
  destruct (site_retry_loop_total (range 0 SiteScraper.MAX_RETRIES) url s)
    as (response & s1 & Hget).
  unfold SiteScraper.naive_scrape, SiteScraper._get_with_retries, bind.
  rewrite Hget. destruct response as [r|]; simpl.
  - destruct (Response.ok r) eqn:Hok; simpl.
    + eexists (Some r), _, s1. simpl. rewrite Hok.
      split; [reflexivity|]. split; [reflexivity|]. split; [discriminate|].
      rewrite extract_all_omap. simpl. split.
      * intros r' [= <-] _. split; [reflexivity | apply omap_length_le].
      * apply extracted_jobs_shape.
    + exists (Some r), [], s1. simpl. rewrite Hok.
      split; [reflexivity|]. split; [reflexivity|]. split; [intros _; reflexivity|].
      split; [intros r' [= <-] Hok'; congruence | constructor].
  - exists None, [], s1.
    split; [reflexivity|]. split; [reflexivity|]. split; [intros _; reflexivity|].
    split; [discriminate | constructor].
Qed.

Lemma jobs_found_app (a b : list event) :
  jobs_found (a ++ b) = jobs_found a ++ jobs_found b.
Proof. unfold jobs_found. apply flat_map_app. Qed.

Lemma jobs_found_quiet (evs : list event) :
  Forall (fun e => is_strategy_call e = false) evs -> jobs_found evs = [].
Proof.
  induction 1 as [|e evs He _ IH]; [reflexivity|].
  destruct e; try discriminate; exact IH.
Qed.

Section CascadeResult.
Context {W : Type} `{Network W} `{HtmlParser} `{Strategies W}.

(** The loop over the job pages hands back its accumulator followed by what
    the calls returned, in call order; it raises only what a strategy raised
    and never calls the LLM. *)
Lemma job_pages_loop_jobs (pages : list string) (company_url : string) :
  forall (all_jobs : list (gmap string pyval)) (s s' : State W)
         (r : result (list (gmap string pyval))),
    SiteScraper.job_pages_loop pages company_url all_jobs s = (r, s') ->
    exists evs,
      trace s' = trace s ++ evs /\
      (forall out, r = Ok out -> out = all_jobs ++ jobs_found evs) /\
      (forall e, r = Raise e -> exists st q, EStrategy st q (Raise e) ∈ evs) /\
      (forall target o, EStrategy LLM target o ∉ evs).
Proof.
  induction pages as [|p ps IH]; intros all_jobs s s' r; simpl.
  - intros [= <- <-]. exists []. rewrite app_nil_r.
    split; [reflexivity|]. split; [intros out [= <-]; now rewrite app_nil_r|].
    split; [discriminate|]. intros target o Hin. inversion Hin.
  - unfold bind at 1, SiteScraper.invoke at 1.
    destruct (_naive_parse_job_page p company_url (world s)) as [[[|j js]|e] w1].
    + unfold bind at 1, SiteScraper.invoke at 1. simpl.
      destruct (_playwright_scrape_jobs p company_url w1) as [[[|f fs]|e] w2].
      * intros Hrun. destruct (IH _ _ _ _ Hrun) as (evs & Htr & Hok & Hraise & Hllm).
        exists (EStrategy NAIVE p (Ok []) :: EStrategy RENDERED p (Ok []) :: evs).
        split; [rewrite Htr; simpl; now rewrite <- !app_assoc|].
        split; [exact Hok|]. split.
        -- intros e He. destruct (Hraise e He) as (st & q & Hin).
           exists st, q. now do 2 apply list_elem_of_further.
        -- intros target o Hin.
           apply elem_of_cons in Hin as [Hin|Hin]; [discriminate|].
           apply elem_of_cons in Hin as [Hin|Hin]; [discriminate|].
           now apply Hllm in Hin.
      * intros Hrun. destruct (IH _ _ _ _ Hrun) as (evs & Htr & Hok & Hraise & Hllm).
        exists (EStrategy NAIVE p (Ok []) :: EStrategy RENDERED p (Ok (f :: fs)) :: evs).
        split; [rewrite Htr; simpl; now rewrite <- !app_assoc|].
        split; [|split].
        -- intros out Hout. rewrite (Hok out Hout). simpl.
           now rewrite <- app_assoc.
        -- intros e He. destruct (Hraise e He) as (st & q & Hin).
           exists st, q. now do 2 apply list_elem_of_further.
        -- intros target o Hin.
           apply elem_of_cons in Hin as [Hin|Hin]; [discriminate|].
           apply elem_of_cons in Hin as [Hin|Hin]; [discriminate|].
           now apply Hllm in Hin.
      * intros [= <- <-].
        exists [EStrategy NAIVE p (Ok []); EStrategy RENDERED p (Raise e)].
        simpl. split; [now rewrite <- !app_assoc|].
        split; [discriminate|]. split.
        -- intros e' [= <-]. exists RENDERED, p.
           apply list_elem_of_further, list_elem_of_here.
        -- intros target o Hin.
           apply elem_of_cons in Hin as [Hin|Hin]; [discriminate|].
           apply list_elem_of_singleton in Hin. discriminate.
    + intros Hrun. destruct (IH _ _ _ _ Hrun) as (evs & Htr & Hok & Hraise & Hllm).
      exists (EStrategy NAIVE p (Ok (j :: js)) :: evs).
      split; [rewrite Htr; simpl; now rewrite <- !app_assoc|].
      split; [|split].
      * intros out Hout. rewrite (Hok out Hout). simpl. now rewrite <- app_assoc.
      * intros e He. destruct (Hraise e He) as (st & q & Hin).
        exists st, q. now apply list_elem_of_further.
      * intros target o Hin.
        apply elem_of_cons in Hin as [Hin|Hin]; [discriminate|].
        now apply Hllm in Hin.
    + intros [= <- <-]. exists [EStrategy NAIVE p (Raise e)]. simpl.
      split; [reflexivity|]. split; [discriminate|]. split.
      * intros e' [= <-]. exists NAIVE, p. apply list_elem_of_here.
      * intros target o Hin. apply list_elem_of_singleton in Hin. discriminate.
Qed.

(** Strategies that find nothing leave the accumulator as it is. *)
Lemma job_pages_loop_nothing (pages : list string) (company_url : string) :
  (forall p w, exists w', _naive_parse_job_page p company_url w = (Ok [], w')) ->
  (forall p w, exists w', _playwright_scrape_jobs p company_url w = (Ok [], w')) ->
  forall all_jobs s,
    fst (SiteScraper.job_pages_loop pages company_url all_jobs s) = Ok all_jobs.
Proof.
  intros Hnaive Hrendered.
  induction pages as [|p ps IH]; intros all_jobs s; simpl; [reflexivity|].
  unfold bind at 1, SiteScraper.invoke at 1.
  destruct (Hnaive p (world s)) as (w1 & ->).
  unfold bind at 1, SiteScraper.invoke at 1. simpl.
  destruct (Hrendered p w1) as (w2 & ->).
  apply IH.
Qed.

End CascadeResult.

(** X13: [_scrape_jobs_with_fallback] returns exactly the jobs its strategy
    calls returned, concatenated in call order, none dropped or merged; and
    it raises only an exception that one of its strategy calls raised, or
    the one the search for deeper pages raised before any strategy was
    called. *)
Theorem cascade_returns_what_was_found
        {W : Type} `{Network W} `{HtmlParser} `{Strategies W}
        (url company_url : string) (s : State W) :
  exists r s' new,
    SiteScraper._scrape_jobs_with_fallback url company_url s = (r, s') /\
    trace s' = trace s ++ new /\
    (forall jobs, r = Ok jobs -> jobs = jobs_found new) /\
    (forall e, r = Raise e ->
       (exists st q, EStrategy st q (Raise e) ∈ new) \/
       (fst (SiteScraper._find_deep_career_pages url s) = Raise e /\
        Forall (fun ev => is_strategy_call ev = false) new)).
Proof.
  destruct (_find_deep_career_pages_quiet url s)
    as (found & s1 & gets & Hdeep & Htr1 & Hq & _).
  unfold SiteScraper._scrape_jobs_with_fallback. unfold bind at 1.
  rewrite Hdeep. cbn [fst].
  destruct found as [deep|e0].
  2:{ exists (Raise e0), s1, gets. split; [reflexivity|]. split; [exact Htr1|].
      split; [discriminate|]. intros e [= <-]. right. now split. }
  set (pages := match deep with [] => [url] | _ :: _ => deep end). clearbody pages.
  unfold bind at 1.
  destruct (SiteScraper.job_pages_loop pages company_url [] s1) as [r s2] eqn:Hloop.
  destruct (job_pages_loop_jobs _ _ _ _ _ _ Hloop) as (evs & Htr2 & Hok & Hraise & _).
  pose proof (jobs_found_quiet gets Hq) as Hgets.
  assert (Hplain : exists r0 s' new,
             (r, s2) = (r0, s') /\
             trace s' = trace s ++ new /\
             (forall jobs, r0 = Ok jobs -> jobs = jobs_found new) /\
             (forall e, r0 = Raise e ->
                (exists st q, EStrategy st q (Raise e) ∈ new) \/
                (Ok deep = Raise e /\
                 Forall (fun ev => is_strategy_call ev = false) new))).
  { exists r, s2, (gets ++ evs).
    split; [reflexivity|]. split; [rewrite Htr2, Htr1; now rewrite <- app_assoc|].
    split.
    - intros jobs Hj. rewrite jobs_found_app, Hgets. exact (Hok jobs Hj).
    - intros e He. left. destruct (Hraise e He) as (st & q & Hin).
      exists st, q. apply elem_of_app. now right. }
  destruct r as [all_jobs|e]; simpl; [|exact Hplain].
  destruct all_jobs as [|j js]; [|exact Hplain].
  destruct use_llm; [|exact Hplain].
  destruct llm_service as [parse_jobs_with_llm|]; [|exact Hplain].
  specialize (Hok [] eq_refl). simpl in Hok.
  unfold bind, SiteScraper.invoke.
  destruct (parse_jobs_with_llm company_url (world s2)) as [[llm_jobs|e] w3]; simpl.
  - eexists _, _, (gets ++ evs ++ [EStrategy LLM company_url (Ok llm_jobs)]).
    split; [reflexivity|]. simpl.
    split; [rewrite Htr2, Htr1; now rewrite <- !app_assoc|].
    split; [|discriminate].
    intros jobs [= <-]. rewrite !jobs_found_app, Hgets, <- Hok. simpl.
    now rewrite app_nil_r.
  - eexists _, _, (gets ++ evs ++ [EStrategy LLM company_url (Raise e)]).
    split; [reflexivity|]. simpl.
    split; [rewrite Htr2, Htr1; now rewrite <- !app_assoc|].
    split; [discriminate|].
    intros e' [= <-]. left. exists LLM, company_url.
    apply elem_of_app. right. apply elem_of_app. right. apply list_elem_of_here.
Qed.

(** X14: when no LLM is in use ([use_llm] false or no [llm_service]), a run
    of [_scrape_jobs_with_fallback] never calls the LLM strategy; and when
    besides the static and the rendered strategy find nothing on any page,
    it returns the empty list, unless the search for deeper pages raised:
    then it raises that exception. *)
Theorem cascade_without_llm
        {W : Type} `{Network W} `{HtmlParser} `{Strategies W}
        (url company_url : string) (s : State W) :
  use_llm = false \/ llm_service = None ->
  exists r s' new,
    SiteScraper._scrape_jobs_with_fallback url company_url s = (r, s') /\
    trace s' = trace s ++ new /\
    (forall target o, EStrategy LLM target o ∉ new) /\
    ((forall p w, exists w', _naive_parse_job_page p company_url w = (Ok [], w')) ->
     (forall p w, exists w', _playwright_scrape_jobs p company_url w = (Ok [], w')) ->
     match fst (SiteScraper._find_deep_career_pages url s) with
     | Ok _ => r = Ok []
     | Raise e => r = Raise e
     end).
Proof.
  intros Hnollm.
  destruct (_find_deep_career_pages_quiet url s)
    as (found & s1 & gets & Hdeep & Htr1 & Hq & _).
  unfold SiteScraper._scrape_jobs_with_fallback. unfold bind at 1.
  rewrite Hdeep. cbn [fst].
  destruct found as [deep|e0].
  2:{ exists (Raise e0), s1, gets. split; [reflexivity|]. split; [exact Htr1|].
      split; [|reflexivity].
      intros target o Hin. rewrite Forall_forall in Hq. now specialize (Hq _ Hin). }
  set (pages := match deep with [] => [url] | _ :: _ => deep end). clearbody pages.
  unfold bind at 1.
  pose proof (job_pages_loop_nothing pages company_url) as Hnothing.
  destruct (SiteScraper.job_pages_loop pages company_url [] s1) as [r s2] eqn:Hloop.
  destruct (job_pages_loop_jobs _ _ _ _ _ _ Hloop) as (evs & Htr2 & _ & _ & Hllm).
  assert (Hdone : exists r0 s' new,
             (r, s2) = (r0, s') /\
             trace s' = trace s ++ new /\
             (forall target o, EStrategy LLM target o ∉ new) /\
             ((forall p w, exists w', _naive_parse_job_page p company_url w = (Ok [], w')) ->
              (forall p w, exists w', _playwright_scrape_jobs p company_url w = (Ok [], w')) ->
              r0 = Ok [])).
  { exists r, s2, (gets ++ evs).
    split; [reflexivity|]. split; [rewrite Htr2, Htr1; now rewrite <- app_assoc|].
    split.
    - intros target o Hin. apply elem_of_app in Hin as [Hin|Hin].
      + rewrite Forall_forall in Hq. now specialize (Hq _ Hin).
      + now apply Hllm in Hin.
    - intros Hn Hr. specialize (Hnothing Hn Hr [] s1). rewrite Hloop in Hnothing.
      exact Hnothing. }
  destruct r as [all_jobs|e]; simpl; [|exact Hdone].
  destruct all_jobs as [|j js]; [|exact Hdone].
  destruct Hnollm as [-> | ->]; [exact Hdone|].
  destruct use_llm; exact Hdone.
Qed.

Lemma cascade_without_llm_witness :
  exists r s' new,
    @SiteScraper._scrape_jobs_with_fallback unit (Worlds.serving TwoPages.page)
       Worlds.word_parser TwoPages.barren "http://acme.example" "acme" Homepage.start
    = (r, s') /\
    trace s' = trace Homepage.start ++ new /\
    (forall target o, EStrategy LLM target o ∉ new) /\
    ((forall p w, exists w',
         @_naive_parse_job_page unit TwoPages.barren p "acme" w = (Ok [], w')) ->
     (forall p w, exists w',
         @_playwright_scrape_jobs unit TwoPages.barren p "acme" w = (Ok [], w')) ->
     match fst (@SiteScraper._find_deep_career_pages unit (Worlds.serving TwoPages.page)
                  Worlds.word_parser "http://acme.example" Homepage.start) with
     | Ok _ => r = Ok []
     | Raise e => r = Raise e
     end).
Proof.
  apply (@cascade_without_llm unit (Worlds.serving TwoPages.page)
           Worlds.word_parser TwoPages.barren "http://acme.example" "acme"
           Homepage.start).
  left. reflexivity.
Defined.

Section RenderedScrape.
Context {W : Type} `{Browser W} `{HtmlParser}.

(** The pagination loop neither launches nor closes the browser, and the
    jobs it hands back, also after an exception, are the jobs it was given
    followed by those extracted from the pages it saw, in order. *)
Lemma pagination_loop_collects (page_nums : list Z) (url company_url : string) :
  forall jobs s r jobs' s',
    SiteScraper.pagination_loop page_nums url company_url jobs s = (r, jobs', s') ->
    exists new seen,
      trace s' = trace s ++ new /\
      (EBrowser Close ∉ new) /\
      (length seen <= length page_nums)%nat /\
      jobs' = jobs ++ concat (map (omap (fun elem =>
                                           SiteScraper._extract_job_data
                                             (Some elem) company_url url)) seen).
Proof.
  induction page_nums as [|n rest IH]; intros jobs s r jobs' s';
    cbn [SiteScraper.pagination_loop].
  - intros [= <- <- <-]. exists [], []. rewrite !app_nil_r.
    repeat split; [|simpl; lia]. intros Hin. inversion Hin.
  - unfold call_raising at 1.
    destruct (wait_for_selector "body" (world s)) as [[[]|e] w1]; cbn [world trace].
    2:{ intros [= <- <- <-]. eexists [_], []. rewrite !app_nil_r.
        split; [reflexivity|]. split; [|split; [simpl; lia | reflexivity]].
        intros Hin. apply list_elem_of_singleton in Hin. discriminate. }
    unfold call_raising at 1. cbn [world trace].
    destruct (frame_content (SiteScraper.listing_frame w1) w1) as [[content|e] w2];
      cbn [world trace].
    2:{ intros [= <- <- <-]. eexists [_; _], []. rewrite <- app_assoc, !app_nil_r.
        split; [reflexivity|]. split; [|split; [simpl; lia | reflexivity]].
        intros Hin. repeat (apply elem_of_cons in Hin as [Hin|Hin]; [discriminate|]).
        inversion Hin. }
    destruct (select SiteScraper.listing_selector content) as [|elem elems] eqn:Hsel.
    { intros [= <- <- <-]. eexists [_; _], []. rewrite <- app_assoc, !app_nil_r.
      split; [reflexivity|]. split; [|split; [simpl; lia | reflexivity]].
      intros Hin. repeat (apply elem_of_cons in Hin as [Hin|Hin]; [discriminate|]).
      inversion Hin. }
    cbn [world trace].
    pose proof (extract_all_omap (elem :: elems) company_url url jobs) as Hcol.
    set (collected := SiteScraper.extract_all (elem :: elems) company_url url jobs) in *.
    clearbody collected.
    unfold call_raising at 1. cbn [world trace fst snd].
    destruct (query_selector SiteScraper.next_selector w2) as [[[|]|e] w3];
      cbn [world trace].
    2:{ intros [= <- <- <-]. eexists [_; _; _], [elem :: elems].
        rewrite <- !app_assoc.
        split; [reflexivity|]. split; [|split; [simpl; lia|]].
        - intros Hin. repeat (apply elem_of_cons in Hin as [Hin|Hin]; [discriminate|]).
          inversion Hin.
        - rewrite Hcol. cbn [concat map]. now rewrite app_nil_r. }
    2:{ intros [= <- <- <-]. eexists [_; _; _], [elem :: elems].
        rewrite <- !app_assoc.
        split; [reflexivity|]. split; [|split; [simpl; lia|]].
        - intros Hin. repeat (apply elem_of_cons in Hin as [Hin|Hin]; [discriminate|]).
          inversion Hin.
        - rewrite Hcol. cbn [concat map]. now rewrite app_nil_r. }
    unfold call_raising at 1. cbn [world trace].
    destruct (click w3) as [[[]|e] w4]; cbn [world trace].
    2:{ intros [= <- <- <-]. eexists [_; _; _; _], [elem :: elems].
        rewrite <- !app_assoc.
        split; [reflexivity|]. split; [|split; [simpl; lia|]].
        - intros Hin. repeat (apply elem_of_cons in Hin as [Hin|Hin]; [discriminate|]).
          inversion Hin.
        - rewrite Hcol. cbn [concat map]. now rewrite app_nil_r. }
    unfold sleep at 1. cbn [world trace].
    intros Hrun. destruct (IH _ _ _ _ _ Hrun) as (new & seen & Htr & Hclose & Hlen & Hjobs).
    exists ([EBrowser (WaitForSelector "body");
             EBrowser (Content (SiteScraper.listing_frame w1));
             EBrowser (QuerySelector SiteScraper.next_selector);
             EBrowser Click; ESleep 3] ++ new), ((elem :: elems) :: seen).
    split; [rewrite Htr; cbn [trace]; now rewrite <- !app_assoc|].
    split; [|split; [simpl; lia|]].
    + intros Hin. apply elem_of_app in Hin as [Hin|Hin]; [|now apply Hclose].
      repeat (apply elem_of_cons in Hin as [Hin|Hin]; [discriminate|]).
      inversion Hin.
    + rewrite Hjobs, Hcol. cbn [concat map]. now rewrite <- app_assoc.
Qed.

End RenderedScrape.

(** X15: once the browser is launched, [playwright_scrape] opens a page
    before it enters its [try]. When [new_page] raises, the exception leaves
    the function and [browser.close()] is never called. When the page
    opens, [browser.close()] is called exactly once, as the last call, on
    every path, an exception of a page call included; and the function then
    raises only when that [close] raises. *)
Theorem playwright_scrape_closes_browser
        {W : Type} `{Browser W} `{HtmlParser}
        (url company_url : string) (max_pages : Z) (s : State W) (w0 : W) :
  launch (world s) = (Ok tt, w0) ->
  match new_page w0 with
  | (Raise e, wp) =>
      SiteScraper.playwright_scrape url company_url max_pages s
      = (Raise e,
         {| world := wp; trace := trace s ++ [EBrowser Launch; EBrowser NewPage] |})
  | (Ok _, wp) =>
      exists r s' mid,
        SiteScraper.playwright_scrape url company_url max_pages s = (r, s') /\
        trace s' = trace s ++ EBrowser Launch :: EBrowser NewPage
                                 :: mid ++ [EBrowser Close] /\
        (EBrowser Close ∉ mid) /\
        ((forall w, exists w', close w = (Ok tt, w')) -> exists jobs, r = Ok jobs)
  end.
Proof.
  intros Hlaunch.
  destruct (new_page w0) as [[[]|e] wp] eqn:Hpage;
    unfold SiteScraper.playwright_scrape; unfold bind at 1;
    unfold call_raising at 1; rewrite Hlaunch; cbn [world trace];
    unfold bind at 1; unfold call_raising at 1; cbn [world trace]; rewrite Hpage.
  2:{ now rewrite <- app_assoc. }
  unfold finally.
  unfold call_raising at 1. cbn [world trace].
  destruct (goto url wp) as [[[]|e] w1]; cbn [world trace].
  - destruct (SiteScraper.pagination_loop (range 1 (max_pages + 1)) url company_url []
                {| world := w1;
                   trace := ((trace s ++ [EBrowser Launch]) ++ [EBrowser NewPage])
                            ++ [EBrowser (Goto url)] |})
      as [[r jobs] s2] eqn:Hloop.
    destruct (pagination_loop_collects _ _ _ _ _ _ _ _ Hloop)
      as (new & seen & Htr & Hclose & _ & _).
    cbn [trace] in Htr. unfold call_raising.
    destruct (close (world s2)) as [[[]|e] w3] eqn:Hc; cbn [world trace].
    + eexists _, _, (EBrowser (Goto url) :: new).
      split; [reflexivity|]. cbn [trace].
      split; [rewrite Htr; cbn [app]; now rewrite <- !app_assoc|].
      split; [|intros _; now eexists].
      intros Hin. apply elem_of_cons in Hin as [Hin|Hin]; [discriminate | now apply Hclose].
    + eexists _, _, (EBrowser (Goto url) :: new).
      split; [reflexivity|]. cbn [trace].
      split; [rewrite Htr; cbn [app]; now rewrite <- !app_assoc|].
      split.
      * intros Hin. apply elem_of_cons in Hin as [Hin|Hin];
          [discriminate | now apply Hclose].
      * intros Hall. destruct (Hall (world s2)) as (w' & Hw'). congruence.
  - unfold call_raising. cbn [world trace].
    destruct (close w1) as [[[]|e'] w3] eqn:Hc; cbn [world trace].
    + eexists _, _, [EBrowser (Goto url)].
      split; [reflexivity|]. cbn [trace].
      split; [cbn [app]; now rewrite <- !app_assoc|].
      split; [|intros _; now eexists].
      intros Hin. apply list_elem_of_singleton in Hin. discriminate.
    + eexists _, _, [EBrowser (Goto url)].
      split; [reflexivity|]. cbn [trace].
      split; [cbn [app]; now rewrite <- !app_assoc|].
      split.
      * intros Hin. apply list_elem_of_singleton in Hin. discriminate.
      * intros Hall. destruct (Hall w1) as (w' & Hw'). congruence.
Qed.

Lemma playwright_scrape_closes_browser_witness :
  (exists r s' mid,
      @SiteScraper.playwright_scrape unit Worlds.word_parser Browsers.blank_browser
         "http://acme.example/jobs" "acme" 3 Homepage.start = (r, s') /\
      trace s' = trace Homepage.start ++ EBrowser Launch :: EBrowser NewPage
                                           :: mid ++ [EBrowser Close] /\
      (EBrowser Close ∉ mid) /\
      ((forall w, exists w', @close unit Browsers.blank_browser w = (Ok tt, w')) ->
       exists jobs, r = Ok jobs)) /\
  @SiteScraper.playwright_scrape unit Worlds.word_parser Browsers.no_page_browser
     "http://acme.example/jobs" "acme" 3 Homepage.start
  = (Raise (OtherError "Target closed"),
     {| world := tt;
        trace := trace Homepage.start ++ [EBrowser Launch; EBrowser NewPage] |}).
Proof.
  split.
  - apply (@playwright_scrape_closes_browser unit Browsers.blank_browser
             Worlds.word_parser "http://acme.example/jobs" "acme" 3 Homepage.start tt).
    reflexivity.
  - apply (@playwright_scrape_closes_browser unit Browsers.no_page_browser
             Worlds.word_parser "http://acme.example/jobs" "acme" 3 Homepage.start tt).
    reflexivity.
Defined.

(** What [llm_extract] makes of the postings of the service. *)
Lemma llm_records_shape (url company_url : string)
      (response : list (gmap string pyval)) :
  length (map (SiteScraper.llm_record url company_url) response) = length response /\
  Forall (fun job => dom job = ({["company"; "title"; "url"]} : gset string) /\
                     job !! "company" = Some (PStr company_url) /\
                     job !! "url" = Some (PStr url))
         (map (SiteScraper.llm_record url company_url) response) /\
  (forall (i : nat) (posting : gmap string pyval),
      response !! i = Some posting ->
      exists job,
        map (SiteScraper.llm_record url company_url) response !! i = Some job /\
        job !! "title" = Some (default (PStr "Unknown") (posting !! "title"))).
Proof.
  split; [apply length_map|]. split.
  - apply Forall_forall. intros job Hin.
    apply list_elem_of_In, in_map_iff in Hin as (posting & <- & _).
    unfold SiteScraper.llm_record.
    split; [rewrite !dom_insert_L, dom_empty_L; set_solver|].
    split; by simplify_map_eq.
  - intros i posting Hi. exists (SiteScraper.llm_record url company_url posting).
    split; [|unfold SiteScraper.llm_record; by simplify_map_eq].
    change (map (SiteScraper.llm_record url company_url) response)
      with (SiteScraper.llm_record url company_url <$> response).
    now rewrite list_lookup_fmap, Hi.
Qed.

(** X17: [llm_extract] of site_scraper.py reads [self.llm_service], which the
    constructor never sets: on an instance as the class builds it, and so in
    the LLM tool of job_main.py, it raises [AttributeError] and calls
    nothing. Once the attribute is assigned, as the constructor of
    langchain_agent.py does for its own [llm_extract], [None] gives no job
    and no call; a service is called once, on the URL, its exception is not
    caught, and its postings give one job each, in order, that holds the
    keys [company], [title] and [url] and no other: the posting's title, or
    ["Unknown"] when it has none, and the given URLs. *)
Theorem llm_extract_keeps_title_only
        {W : Type}
        (self_llm_service :
           attribute (option (string -> W -> result (list (gmap string pyval)) * W)))
        (url company_url : string) (s : State W) :
  SiteScraper.llm_tool url s = (Raise AttributeError, s) /\
  match self_llm_service with
  | Unset =>
      SiteScraper.llm_extract self_llm_service url company_url s
      = (Raise AttributeError, s)
  | Assigned None =>
      SiteScraper.llm_extract self_llm_service url company_url s = (Ok [], s) /\
      LangchainAgent.llm_extract None url s = (Ok [], s)
  | Assigned (Some parse_jobs_with_llm) =>
      let answer := fst (parse_jobs_with_llm url (world s)) in
      let s' := {| world := snd (parse_jobs_with_llm url (world s));
                   trace := trace s ++ [EStrategy LLM url answer] |} in
      match answer with
      | Raise e =>
          SiteScraper.llm_extract self_llm_service url company_url s = (Raise e, s') /\
          LangchainAgent.llm_extract (Some parse_jobs_with_llm) url s = (Raise e, s')
      | Ok response =>
          exists jobs agent_jobs,
            SiteScraper.llm_extract self_llm_service url company_url s = (Ok jobs, s') /\
            LangchainAgent.llm_extract (Some parse_jobs_with_llm) url s
            = (Ok agent_jobs, s') /\
            length jobs = length response /\
            length agent_jobs = length response /\
            Forall (fun job => dom job = ({["company"; "title"; "url"]} : gset string) /\
                               job !! "company" = Some (PStr company_url) /\
                               job !! "url" = Some (PStr url)) jobs /\
            Forall (fun job => dom job = ({["company"; "title"; "url"]} : gset string) /\
                               job !! "company" = Some (PStr url) /\
                               job !! "url" = Some (PStr url)) agent_jobs /\
            (forall (i : nat) (posting : gmap string pyval),
                response !! i = Some posting ->
                exists job agent_job,
                  jobs !! i = Some job /\
                  agent_jobs !! i = Some agent_job /\
                  job !! "title" = Some (default (PStr "Unknown") (posting !! "title")) /\
                  agent_job !! "title"
                  = Some (default (PStr "Unknown") (posting !! "title")))
      end
  end.
Proof.
  split; [reflexivity|].
  destruct self_llm_service as [|[parse|]]; [reflexivity | | split; reflexivity].
  unfold SiteScraper.llm_extract, LangchainAgent.llm_extract, bind, SiteScraper.invoke.
  destruct (parse url (world s)) as [[response|e] w1]; cbn [fst snd];
    [|split; reflexivity].
  destruct (llm_records_shape url company_url response) as (Hlen & Hshape & Htitle).
  destruct (llm_records_shape url url response) as (Hlen' & Hshape' & Htitle').
  eexists _, _. split; [reflexivity|]. split; [reflexivity|].
  split; [exact Hlen|]. split; [exact Hlen'|].
  split; [exact Hshape|]. split; [exact Hshape'|].
  intros i posting Hi.
  destruct (Htitle i posting Hi) as (job & Hjob & Ht).
  destruct (Htitle' i posting Hi) as (agent_job & Hjob' & Ht').
  exists job, agent_job. repeat split; assumption.
Qed.

(** * Further properties of the aggregator and of the agent loop *)

Lemma run_raises_with_a_task_witness :
  exists e, fst (@Aggregator.run unit Companies.second_fails Companies.three tt)
            = Raise e.
Proof.
  apply (@run_raises_with_a_task unit Companies.second_fails Companies.three tt).
  exists (OtherError "agent failed").
  apply list_elem_of_further, list_elem_of_here.
Defined.

Lemma run_flattens_witness :
  fst (@Aggregator.run unit Companies.all_succeed Companies.three tt)
  = Ok (concat [[Companies.job_at "http://a.example"];
                [Companies.job_at "http://b.example"];
                [Companies.job_at "http://c.example"]]).
Proof.
  apply (@run_flattens unit Companies.all_succeed Companies.three tt
           [[Companies.job_at "http://a.example"];
            [Companies.job_at "http://b.example"];
            [Companies.job_at "http://c.example"]]).
  reflexivity.
Defined.

Section AgentLoop.
Context {W : Type} `{Network W} `{HtmlParser} `{Agent W}.

Lemma agent_loop_collects (careers_urls : list string)
      (all_jobs : list (gmap string pyval)) (w : W) :
  fst (LangchainAgent.agent_loop careers_urls all_jobs w)
  = all_jobs ++
    flat_map (fun answer => match answer with
                            | Ok (Structured jobs) => jobs
                            | _ => []
                            end)
             (LangchainAgent.agent_answers careers_urls w).
Proof.
  revert all_jobs w. induction careers_urls as [|url rest IH]; intros all_jobs w; simpl.
  - now rewrite app_nil_r.
  - destruct (agent_invoke url w) as [[[jobs|]|e] w1]; simpl; rewrite IH;
      [now rewrite <- app_assoc | reflexivity | reflexivity].
Qed.

End AgentLoop.

(** X20: [scrape_company_jobs] of langchain_agent.py raises only what
    [find_careers_pages] raises, an [href] that [urljoin] cannot resolve,
    before the agent is asked anything. Once the careers URLs are found it
    never raises, whatever the agent does: it asks the agent about every
    careers URL in turn and returns the structured answers concatenated in
    that order, an exception or an unstructured answer for one URL costing
    only that URL's jobs. *)
Theorem agent_scrape_company_jobs_isolates_failures
        {W : Type} `{Network W} `{HtmlParser} `{Agent W}
        (company_url : string) (s : State W) :
  exists found s1,
    LangchainAgent.find_careers_pages company_url s = (found, s1) /\
    match found with
    | Raise e => LangchainAgent.scrape_company_jobs company_url s = (Raise e, s1)
    | Ok careers_urls =>
        exists s',
          LangchainAgent.scrape_company_jobs company_url s
          = (Ok (flat_map (fun answer => match answer with
                                         | Ok (Structured jobs) => jobs
                                         | _ => []
                                         end)
                          (LangchainAgent.agent_answers careers_urls (world s1))), s') /\
          length (LangchainAgent.agent_answers careers_urls (world s1))
          = length careers_urls
    end.
Proof.
  destruct (LangchainAgent.find_careers_pages company_url s) as [found s1] eqn:Hfind.
  exists found, s1. split; [reflexivity|].
  unfold LangchainAgent.scrape_company_jobs, bind. rewrite Hfind.
  destruct found as [careers_urls|e]; [|reflexivity].
  pose proof (agent_loop_collects careers_urls [] (world s1)) as Hloop.
  destruct (LangchainAgent.agent_loop careers_urls [] (world s1)) as [all_jobs w2].
  simpl in Hloop. subst all_jobs.
  eexists. split; [reflexivity|].
  clear. generalize (world s1). induction careers_urls as [|url rest IH]; intros w;
    simpl; [reflexivity|].
  destruct (agent_invoke url w) as [answer w1]. simpl. now rewrite IH.
Qed.

(** * Properties of the company list scraper *)

Section PairingFacts.
Import CompanyListsScraper.
Context {W : Type} `{Collaborators W}.

Lemma pair_loop_omap (name_elems url_elems : list Anchor) (indices : list nat)
      (items : list (pyval * pyval)) :
  pair_loop name_elems url_elems indices items
  = items ++ omap (pair_at name_elems url_elems) indices.
Proof.
  revert items. induction indices as [|i rest IH]; intros items; simpl.
  - now rewrite app_nil_r.
  - rewrite IH. destruct (pair_at name_elems url_elems i);
      [now rewrite <- app_assoc | reflexivity].
Qed.

Lemma pair_at_item (name_elems url_elems : list Anchor) (i : nat) (item : pyval * pyval) :
  pair_at name_elems url_elems i = Some item ->
  exists e name url,
    name_elems !! i = Some e /\ name = anchor_text e /\ name <> "" /\
    item = (PStr name, PStr url) /\
    (url_elems !! i = None -> url = "N/A").
Proof.
  unfold pair_at. destruct (name_elems !! i) as [e|]; [|discriminate].
  destruct (anchor_text e) as [|c r] eqn:Hname; [discriminate|].
  intros [= <-]. eexists e, (String c r), _.
  split; [reflexivity|]. split; [now rewrite Hname|]. split; [discriminate|].
  split; [reflexivity|]. intros ->. reflexivity.
Qed.

Lemma pair_at_past_names (name_elems url_elems : list Anchor) (k n : nat) :
  (length name_elems <= k)%nat ->
  omap (pair_at name_elems url_elems) (seq k n) = [].
Proof.
  revert k. induction n as [|n IH]; intros k Hk; [reflexivity|].
  change (seq k (S n)) with (k :: seq (S k) n).
  change (omap (pair_at name_elems url_elems) (k :: seq (S k) n))
    with (match pair_at name_elems url_elems k with
          | Some y => y :: omap (pair_at name_elems url_elems) (seq (S k) n)
          | None => omap (pair_at name_elems url_elems) (seq (S k) n)
          end).
  unfold pair_at at 1. rewrite (lookup_ge_None_2 name_elems k) by lia.
  simpl. apply IH. lia.
Qed.

Lemma omap_seq_lookup {A B : Type} (g : option A -> option B) (l pre : list A) :
  omap (fun i => g ((pre ++ l) !! i)) (seq (length pre) (length l))
  = omap (fun x => g (Some x)) l.
Proof.
  revert pre. induction l as [|x l IH]; intros pre; [reflexivity|].
  change (seq (length pre) (length (x :: l)))
    with (length pre :: seq (S (length pre)) (length l)).
  change (omap (fun i => g ((pre ++ x :: l) !! i))
               (length pre :: seq (S (length pre)) (length l)))
    with (match g ((pre ++ x :: l) !! length pre) with
          | Some y => y :: omap (fun i => g ((pre ++ x :: l) !! i))
                                (seq (S (length pre)) (length l))
          | None => omap (fun i => g ((pre ++ x :: l) !! i))
                         (seq (S (length pre)) (length l))
          end).
  change (omap (fun x0 => g (Some x0)) (x :: l))
    with (match g (Some x) with
          | Some y => y :: omap (fun x0 => g (Some x0)) l
          | None => omap (fun x0 => g (Some x0)) l
          end).
  rewrite list_lookup_middle by reflexivity.
  specialize (IH (pre ++ [x])).
  rewrite <- app_assoc, length_app in IH. simpl in IH.
  replace (length pre + 1)%nat with (S (length pre)) in IH by lia.
  now rewrite IH.
Qed.

End PairingFacts.

(** X21: pairing names and URLs by position gives at most one item per name
    element, each with a non-empty name, in document order: elements of the
    URL selector beyond the last name give nothing. When both selectors are
    the same, as for the three configured sites, the items are exactly the
    elements with some text, each with its own [href], or ["N/A"] without
    one; with an empty URL selector every URL is ["N/A"]. *)
Theorem parse_items_pairs
        {W : Type} `{CompanyListsScraper.Collaborators W}
        (text selector_name selector_url : string) :
  let names := CompanyListsScraper.soup_select selector_name text in
  let items := CompanyListsScraper.parse_items text selector_name selector_url in
  (length items <= length names)%nat /\
  Forall (fun item => exists name url, item = (PStr name, PStr url) /\ name <> "") items /\
  (selector_url = selector_name -> selector_name <> "" ->
   items = omap CompanyListsScraper.item_of names) /\
  (selector_url = "" -> Forall (fun item => snd item = PStr "N/A") items).
Proof.
  intros names items. subst items. unfold CompanyListsScraper.parse_items.
  fold names. rewrite pair_loop_omap. simpl app.
  set (urls := match selector_url with
               | "" => []
               | _ => CompanyListsScraper.soup_select selector_url text
               end).
  split; [|split; [|split]].
  - replace (Nat.max (length names) (length urls))
      with (length names + (Nat.max (length names) (length urls) - length names))%nat
      by lia.
    rewrite seq_app, omap_app.
    rewrite (pair_at_past_names names urls (0 + length names)) by (simpl; lia).
    rewrite app_nil_r.
    etransitivity; [apply omap_length_le|]. now rewrite length_seq.
  - apply Forall_forall. intros item Hin.
    apply list_elem_of_omap in Hin as (i & _ & Hi).
    apply pair_at_item in Hi as (e & name & url & _ & _ & Hne & -> & _).
    now exists name, url.
  - intros Hsame Hne.
    assert (Hurls : urls = names).
    { subst urls names. rewrite Hsame. destruct selector_name; [now contradiction Hne|].
      reflexivity. }
    rewrite Hurls, Nat.max_id.
    set (g := fun o : option CompanyListsScraper.Anchor =>
                match o with
                | Some e => CompanyListsScraper.item_of e
                | None => None
                end).
    transitivity (omap (fun i => g (([] ++ names) !! i))
                       (seq (length (@nil CompanyListsScraper.Anchor)) (length names)));
      [|exact (omap_seq_lookup g names [])].
    apply list_omap_ext, Forall_Forall2_diag, Forall_forall. intros i _.
    subst g. unfold CompanyListsScraper.pair_at, CompanyListsScraper.item_of. simpl.
    destruct (names !! i) as [e|]; [|reflexivity].
    destruct (CompanyListsScraper.anchor_text e); [reflexivity|].
    now destruct (CompanyListsScraper.href e).
  - intros Hempty. assert (Hurls : urls = []) by (subst urls; now rewrite Hempty).
    rewrite Hurls. apply Forall_forall. intros item Hin.
    apply list_elem_of_omap in Hin as (i & _ & Hi).
    apply pair_at_item in Hi as (e & name & url & _ & _ & _ & -> & Hna).
    simpl. now rewrite Hna.
Qed.

Section SessionFacts.
Import CompanyListsScraper.
Context {W : Type} `{Collaborators W}.
Variables (proxy_url : option string) (llm_service : bool).

Ltac count_calls :=
  unfold wheels, reloads, closes, llm_calls, launches in *;
  rewrite ?List.filter_app, ?length_app in *; cbn in *; try lia.

(** Closing the popups never raises, and only waits, looks and clicks. *)
Lemma close_popups_quiet (popup_selectors : list string) :
  forall s, exists s' new,
    close_popups popup_selectors s = (Ok tt, s') /\
    calls s' = calls s ++ new /\
    wheels new = 0%nat /\ reloads new = 0%nat /\ closes new = 0%nat /\
    llm_calls new = 0%nat /\ launches new = 0%nat.
Proof.
  induction popup_selectors as [|sel rest IH]; intros s; simpl.
  - exists s, []. rewrite app_nil_r. repeat split.
  - unfold cbind at 1, best_effort at 1.
    assert (Hbody : exists r s1 n1,
               (popup <-- ask (WaitForSelector sel 5000) (wait_for_selector sel 5000) ;;
                if popup : bool then
                  visible <-- ask IsVisible is_visible ;;
                  if visible : bool then
                    _ <-- ask ClickPopup popup_click ;;
                    ask (WaitForTimeout 1000) (wait_for_timeout 1000)
                  else cret tt
                else cret tt) s = (r, s1) /\
               calls s1 = calls s ++ n1 /\
               wheels n1 = 0%nat /\ reloads n1 = 0%nat /\ closes n1 = 0%nat /\
               llm_calls n1 = 0%nat /\ launches n1 = 0%nat).
    { unfold cbind at 1, ask at 1.
      destruct (wait_for_selector sel 5000 (cworld s)) as [[[|]|e] w1]; cbn [cworld calls].
      - unfold cbind at 1, ask at 1. cbn [cworld calls].
        destruct (is_visible w1) as [[[|]|e] w2]; cbn [cworld calls].
        + unfold cbind at 1, ask at 1. cbn [cworld calls].
          destruct (popup_click w2) as [[[]|e] w3]; cbn [cworld calls].
          * unfold ask. cbn [cworld calls].
            destruct (wait_for_timeout 1000 w3) as [r4 w4].
            eexists _, _, [_; _; _; _]. split; [reflexivity|]. cbn [calls].
            rewrite <- !app_assoc. repeat split.
          * eexists _, _, [_; _; _]. split; [reflexivity|]. cbn [calls].
            rewrite <- !app_assoc. repeat split.
        + eexists _, _, [_; _]. split; [reflexivity|]. cbn [calls].
          rewrite <- !app_assoc. repeat split.
        + eexists _, _, [_; _]. split; [reflexivity|]. cbn [calls].
          rewrite <- !app_assoc. repeat split.
      - eexists _, _, [_]. split; [reflexivity|]. repeat split.
      - eexists _, _, [_]. split; [reflexivity|]. repeat split. }
    destruct Hbody as (r & s1 & n1 & -> & Hc1 & Hq1).
    destruct (IH s1) as (s' & new & Hrun & Hc & Hq).
    exists s', (n1 ++ new). split; [exact Hrun|].
    split; [rewrite Hc, Hc1; now rewrite <- app_assoc|].
    destruct Hq1 as (? & ? & ? & ? & ?), Hq as (? & ? & ? & ? & ?).
    repeat split; count_calls.
Qed.

(** Scrolling wheels at most the given number of times, and exactly that
    often when no call raises. *)
Lemma scroll_counts (times : nat) :
  forall s, exists r s' new,
    scroll times s = (r, s') /\
    calls s' = calls s ++ new /\
    (wheels new <= times)%nat /\ (r = Ok tt -> wheels new = times) /\
    reloads new = 0%nat /\ closes new = 0%nat /\
    llm_calls new = 0%nat /\ launches new = 0%nat.
Proof.
  induction times as [|k IH]; intros s; simpl.
  - exists (Ok tt), s, []. rewrite app_nil_r. repeat split; count_calls.
  - unfold cbind at 1, ask at 1.
    destruct (wheel 0 3000 (cworld s)) as [[[]|e] w1]; cbn [cworld calls].
    + unfold cbind at 1, ask at 1. cbn [cworld calls].
      destruct (wait_for_timeout 2000 w1) as [[[]|e] w2]; cbn [cworld calls].
      * match goal with |- context [scroll k ?st] =>
          destruct (IH st) as (r & s' & new & Hrun & Hc & Hle & Hok & Hq) end.
        exists r, s', ([Wheel 0 3000; WaitForTimeout 2000] ++ new).
        split; [exact Hrun|].
        split; [rewrite Hc; cbn [calls]; now rewrite <- !app_assoc|].
        destruct Hq as (? & ? & ? & ?).
        repeat split; count_calls. intros Hr. specialize (Hok Hr). count_calls.
      * eexists _, _, [_; _]. split; [reflexivity|]. cbn [calls].
        rewrite <- !app_assoc. repeat split; try discriminate. count_calls.
    + eexists _, _, [_]. split; [reflexivity|].
      repeat split; try discriminate. count_calls.
Qed.

End SessionFacts.

Section SessionRun.
Import CompanyListsScraper.
Context {W : Type} `{Collaborators W}.
Variables (proxy_url : option string) (llm_service : bool).

Ltac count_calls :=
  unfold wheels, reloads, closes, llm_calls, launches in *;
  rewrite ?List.filter_app, ?length_app in *; cbn in *; try lia.

Ltac leave_session :=
  eexists _, _, _; split; [reflexivity|]; cbn [calls];
  split; [repeat match goal with Hc : calls _ = _ |- _ => rewrite Hc; clear Hc end;
          cbn [calls]; rewrite <- ?app_assoc; reflexivity|];
  repeat split; try discriminate; count_calls.

Ltac ask_next w :=
  unfold cbind at 1, ask at 1; cbn [cworld calls];
  match goal with
  | |- context [let (_, _) := ?f ?x in _] => destruct (f x) as [[?|?] w]
  end; cbn [cworld calls]; [|leave_session].

(** The wait for the site's selector never raises and is at most one call. *)
Lemma wait_quiet (wait_selector : string) (s : CState W) :
  exists s' new,
    (match wait_selector with
     | EmptyString => cret tt
     | _ => best_effort
              (_ <-- ask (WaitForSelector wait_selector 30000)
                         (wait_for_selector wait_selector 30000) ;;
               cret tt)
     end) s = (Ok tt, s') /\
    calls s' = calls s ++ new /\
    wheels new = 0%nat /\ reloads new = 0%nat /\ closes new = 0%nat /\
    llm_calls new = 0%nat /\ launches new = 0%nat.
Proof.
  destruct wait_selector as [|c sel].
  - exists s, []. unfold cret. rewrite app_nil_r. repeat split.
  - unfold best_effort, cbind, ask, cret.
    destruct (wait_for_selector (String c sel) 30000 (cworld s)) as [[found|e] w];
      eexists _, _; (split; [reflexivity|]); cbn [calls];
      (split; [reflexivity|]); repeat split.
Qed.

(** Reading the final content and closing: one close when it succeeds. *)
Lemma finish_counts (s : CState W) :
  exists r s' new,
    (final <-- ask Content content ;; _ <-- ask Close close ;; cret final) s = (r, s') /\
    calls s' = calls s ++ new /\
    wheels new = 0%nat /\ reloads new = 0%nat /\ (closes new <= 1)%nat /\
    llm_calls new = 0%nat /\ launches new = 0%nat /\
    (forall final, r = Ok final -> closes new = 1%nat).
Proof.
  ask_next w1.
  unfold cbind at 1, ask at 1. cbn [cworld calls].
  destruct (close w1) as [[[]|e] w2]; cbn [cworld calls]; leave_session.
Qed.

(** The Cloudflare branch: a wait and at most one reload. *)
Lemma challenge_counts (page : string) (s : CState W) :
  exists r s' new,
    (if contains "cloudflare" (lower page)
     then _ <-- ask (WaitForTimeout 10000) (wait_for_timeout 10000) ;;
          ask Reload reload
     else cret tt) s = (r, s') /\
    calls s' = calls s ++ new /\
    wheels new = 0%nat /\ (reloads new <= 1)%nat /\ closes new = 0%nat /\
    llm_calls new = 0%nat /\ launches new = 0%nat.
Proof.
  destruct (contains "cloudflare" (lower page)).
  - ask_next w1.
    unfold ask at 1. cbn [cworld calls].
    destruct (reload w1) as [[[]|e] w2]; cbn [cworld calls]; leave_session.
  - exists (Ok tt), s, []. unfold cret. rewrite app_nil_r. repeat split. count_calls.
Qed.

(** The optional user-agent header: at most one call, none that is counted. *)
Lemma user_agent_quiet (use_custom_ua : bool) (s : CState W) :
  exists r s' new,
    (if use_custom_ua then ask SetUserAgent set_extra_http_headers else cret tt) s
      = (r, s') /\
    calls s' = calls s ++ new /\
    wheels new = 0%nat /\ reloads new = 0%nat /\ closes new = 0%nat /\
    llm_calls new = 0%nat /\ launches new = 0%nat.
Proof.
  destruct use_custom_ua.
  - unfold ask. destruct (set_extra_http_headers (cworld s)) as [[[]|e] w];
      eexists _, _, _; (split; [reflexivity|]); cbn [calls];
      (split; [reflexivity|]); repeat split.
  - exists (Ok tt), s, []. unfold cret. rewrite app_nil_r. repeat split.
Qed.

(** A browser session launches once, wheels at most five times, reloads at
    most once and closes at most once, after the five scrolls; it closes when
    it succeeds, and it never asks the LLM. *)
Lemma session_counts (url wait_selector : string) (popup_selectors : list string)
      (use_custom_ua : bool) (s : CState W) :
  exists r s' new,
    session proxy_url url wait_selector popup_selectors use_custom_ua s = (r, s') /\
    calls s' = calls s ++ new /\
    (wheels new <= 5)%nat /\ (reloads new <= 1)%nat /\ (closes new <= 1)%nat /\
    launches new = 1%nat /\ llm_calls new = 0%nat /\
    (closes new = 1%nat -> wheels new = 5%nat) /\
    (forall final, r = Ok final -> closes new = 1%nat).
Proof.
  unfold session.
  ask_next w1. ask_next w2.
  unfold cbind at 1.
  match goal with |- context [(if use_custom_ua then _ else _) ?st] =>
    destruct (user_agent_quiet use_custom_ua st)
      as (r3 & s3 & n3 & -> & Hc3 & Hw3 & Hr3 & Hx3 & Hl3 & Hn3)
  end.
  cbn [calls] in Hc3.
  destruct r3 as [[]|e]; [|leave_session].
  unfold cbind at 1, ask at 1.
  destruct (goto url (cworld s3)) as [[[]|e] w4]; cbn [cworld calls]; [|leave_session].
  unfold cbind at 1.
  match goal with |- context [close_popups ?l ?st] =>
    destruct (close_popups_quiet l st) as (s5 & n5 & -> & Hc5 & Hw5 & Hr5 & Hx5 & Hl5 & Hn5)
  end.
  cbn [calls] in Hc5.
  unfold cbind at 1, ask at 1.
  destruct (content (cworld s5)) as [[page|e] w6]; cbn [cworld calls]; [|leave_session].
  unfold cbind at 1.
  match goal with |- context [(if contains _ _ then _ else _) ?st] =>
    destruct (challenge_counts page st)
      as (r7 & s7 & n7 & -> & Hc7 & Hw7 & Hr7 & Hx7 & Hl7 & Hn7)
  end.
  cbn [calls] in Hc7.
  destruct r7 as [[]|e]; [|leave_session].
  unfold cbind at 1.
  destruct (scroll_counts 5 s7)
    as (r8 & s8 & n8 & -> & Hc8 & Hle8 & Hok8 & Hr8 & Hx8 & Hl8 & Hn8).
  destruct r8 as [[]|e]; [|leave_session].
  specialize (Hok8 eq_refl).
  unfold cbind at 1.
  destruct (wait_quiet wait_selector s8)
    as (s9 & n9 & -> & Hc9 & Hw9 & Hr9 & Hx9 & Hl9 & Hn9).
  destruct (finish_counts s9)
    as (r10 & s10 & n10 & -> & Hc10 & Hw10 & Hr10 & Hx10 & Hl10 & Hn10 & Hok10).
  exists r10, s10, (([Launch proxy_url] ++ [Stealth] ++ n3 ++ [Goto url] ++ n5 ++
                     [Content] ++ n7 ++ n8 ++ n9 ++ n10)).
  split; [reflexivity|].
  split.
  { rewrite Hc10, Hc9, Hc8, Hc7, Hc5, Hc3. rewrite <- ?app_assoc. reflexivity. }
  assert (Hclose : forall final, r10 = Ok final -> closes n10 = 1%nat) by exact Hok10.
  clear Hc10 Hc9 Hc8 Hc7 Hc5 Hc3 Hok10.
  repeat split; try (intros final Hfinal; specialize (Hclose final Hfinal));
    count_calls.
Qed.

End SessionRun.

Section SiteCascade.
Import CompanyListsScraper.
Context {W : Type} `{Collaborators W}.
Variables (proxy_url : option string) (llm_service : bool).

Ltac count_calls :=
  unfold wheels, reloads, closes, llm_calls, launches in *;
  rewrite ?List.filter_app, ?length_app in *; cbn in *; try lia.

(** The static attempt is one GET, whatever comes back. *)
Lemma naive_scrape_one_get (url selector_name selector_url : string)
      (use_custom_ua : bool) (s : CState W) :
  exists items s',
    _naive_scrape proxy_url url selector_name selector_url use_custom_ua s = (items, s') /\
    calls s' = calls s ++ [Get url use_custom_ua proxy_url].
Proof.
  unfold _naive_scrape, ask.
  destruct (get url use_custom_ua proxy_url (cworld s)) as [[resp|] w].
  - destruct (negb (Response.status_code resp =? 200));
      eexists _, _; split; reflexivity.
  - eexists _, _; split; reflexivity.
Qed.

(** The LLM attempt is one GET and at most one LLM call after it. *)
Lemma llm_fallback_calls (url : string) (s : CState W) :
  exists items s' new,
    _llm_fallback proxy_url llm_service url s = (items, s') /\
    calls s' = calls s ++ new /\
    (llm_service = false -> new = []) /\
    (llm_service = true ->
     new = [Get url false proxy_url] \/
     exists text, new = [Get url false proxy_url; ParseWithLlm text]).
Proof.
  unfold _llm_fallback. destruct llm_service; cbn [negb].
  - unfold ask at 1.
    destruct (get url false proxy_url (cworld s)) as [[resp|] w].
    + destruct (Response.status_code resp =? 200).
      * unfold ask. cbn [cworld calls].
        destruct (parse_jobs_with_llm (Response.text resp) w) as [[parse_data|e] w'];
          eexists _, _, _; (split; [reflexivity|]); cbn [calls];
          rewrite <- app_assoc;
          (split; [reflexivity|]); (split; [discriminate|]);
          intros _; right; eexists; reflexivity.
      * eexists _, _, _; split; [reflexivity|]; cbn [calls].
        split; [reflexivity|]. split; [discriminate|]. intros _; left; reflexivity.
    + eexists _, _, _; split; [reflexivity|]; cbn [calls].
      split; [reflexivity|]. split; [discriminate|]. intros _; left; reflexivity.
  - exists [], s, []. rewrite app_nil_r. repeat split. discriminate.
Qed.

(** X22 (src/src/scrapers/company_lists_scraper.py, _playwright_scrape): the
    rendered attempt always returns a list; it launches one browser, wheels
    the mouse at most five times, reloads at most once, closes at most once
    and never asks the LLM; and it returns items only from a session that
    made all five scrolls and closed the browser. *)
Theorem _playwright_scrape_counts
        (url selector_name selector_url wait_selector : string)
        (popup_selectors : list string) (use_custom_ua : bool) (s : CState W) :
  exists items s' new,
    _playwright_scrape proxy_url url selector_name selector_url wait_selector
                       popup_selectors use_custom_ua s = (items, s') /\
    calls s' = calls s ++ new /\
    (wheels new <= 5)%nat /\ (reloads new <= 1)%nat /\ (closes new <= 1)%nat /\
    launches new = 1%nat /\ llm_calls new = 0%nat /\
    (items <> [] -> wheels new = 5%nat /\ closes new = 1%nat).
Proof.
  unfold _playwright_scrape.
  destruct (session_counts proxy_url url wait_selector popup_selectors use_custom_ua s)
    as (r & s' & new & -> & Hc & Hw & Hr & Hx & Hn & Hl & Hscrolled & Hclosed).
  destruct r as [final|e].
  - eexists _, s', new. split; [reflexivity|].
    specialize (Hclosed final eq_refl).
    repeat split; auto.
  - exists [], s', new. split; [reflexivity|].
    repeat split; auto; congruence.
Qed.

(** What one site costs: it never raises for a configured key, starts with
    the GET of the static attempt, launches at most one browser and asks the
    LLM at most once, after the browser and only when an LLM is configured. *)
Lemma scrape_one_site_counts (key : string) (info : Site.t) (s : CState W) :
  sites !! key = Some info ->
  exists items s' rest,
    _scrape_one_site proxy_url llm_service key s = (Ok items, s') /\
    calls s' = calls s ++ Get (Site.url info) (Site.use_custom_ua info) proxy_url :: rest /\
    (launches rest <= 1)%nat /\ (llm_calls rest <= 1)%nat /\
    (llm_calls rest = 1%nat -> launches rest = 1%nat /\ llm_service = true) /\
    (launches rest = 0%nat -> rest = [] /\ items <> []).
Proof.
  intros Hkey. unfold _scrape_one_site. rewrite Hkey.
  destruct (naive_scrape_one_get (Site.url info) (Site.selector info)
              (Site.url_selector info) (Site.use_custom_ua info) s)
    as (naive_data & s1 & -> & Hc1).
  destruct naive_data as [|d ds].
  - destruct (session_counts proxy_url (Site.url info) (Site.wait_selector info)
                (Site.popup_selectors info) (Site.use_custom_ua info) s1)
      as (r & s2 & n2 & Hs & Hc2 & Hw & Hr & Hx & Hn & Hl & _ & _).
    unfold _playwright_scrape. rewrite Hs.
    assert (Hrest : forall (items : list (pyval * pyval)) (s3 : CState W) (n3 : list call),
               calls s3 = calls s2 ++ n3 ->
               (llm_calls n3 <= 1)%nat -> launches n3 = 0%nat ->
               (llm_calls n3 = 1%nat -> llm_service = true) ->
               exists items' s' rest,
                 (Ok items, s3) = (Ok items', s') /\
                 calls s' = calls s ++
                   Get (Site.url info) (Site.use_custom_ua info) proxy_url :: rest /\
                 (launches rest <= 1)%nat /\ (llm_calls rest <= 1)%nat /\
                 (llm_calls rest = 1%nat -> launches rest = 1%nat /\ llm_service = true) /\
                 (launches rest = 0%nat -> rest = [] /\ items' <> [])).
    { intros items s3 n3 Hc3 Hl3 Hn3 Hllm.
      exists items, s3, (n2 ++ n3). split; [reflexivity|].
      split; [rewrite Hc3, Hc2, Hc1, <- !app_assoc; reflexivity|].
      split; [count_calls|]. split; [count_calls|]. split.
      - intros Hone. split; [count_calls|].
        apply Hllm. revert Hone. count_calls.
      - intros Hnone. exfalso. revert Hnone. count_calls. }
    assert (Hstop : forall (items : list (pyval * pyval)),
               exists items' s' rest,
                 (Ok items, s2) = (Ok items', s') /\
                 calls s' = calls s ++
                   Get (Site.url info) (Site.use_custom_ua info) proxy_url :: rest /\
                 (launches rest <= 1)%nat /\ (llm_calls rest <= 1)%nat /\
                 (llm_calls rest = 1%nat -> launches rest = 1%nat /\ llm_service = true) /\
                 (launches rest = 0%nat -> rest = [] /\ items' <> [])).
    { intros items. apply (Hrest items s2 []).
      - rewrite app_nil_r; reflexivity.
      - cbn; lia.
      - reflexivity.
      - cbn; discriminate. }
    assert (Hllm : exists items' s' rest,
               (if llm_service
                then let (llm_data, s3) := _llm_fallback proxy_url llm_service
                                             (Site.url info) s2 in
                     match llm_data with
                     | _ :: _ => (Ok llm_data, s3)
                     | [] => (Ok [], s3)
                     end
                else (Ok [], s2)) = (Ok items', s') /\
               calls s' = calls s ++
                 Get (Site.url info) (Site.use_custom_ua info) proxy_url :: rest /\
               (launches rest <= 1)%nat /\ (llm_calls rest <= 1)%nat /\
               (llm_calls rest = 1%nat -> launches rest = 1%nat /\ llm_service = true) /\
               (launches rest = 0%nat -> rest = [] /\ items' <> [])).
    { destruct (llm_fallback_calls (Site.url info) s2)
        as (llm_data & s3 & n3 & Hf & Hc3 & Hoff & Hon).
      destruct llm_service eqn:Hservice; [|apply Hstop].
      rewrite Hf.
      assert (Hshape : (llm_calls n3 <= 1)%nat /\ launches n3 = 0%nat).
      { destruct (Hon eq_refl) as [-> | [text ->]]; split; cbn; lia. }
      destruct Hshape as [Hl3 Hn3].
      destruct llm_data as [|d ds]; apply (Hrest _ s3 n3); auto. }
    destruct r as [final|e]; [|exact Hllm].
    destruct (parse_items final (Site.selector info) (Site.url_selector info))
      as [|d ds]; [exact Hllm|apply Hstop].
  - exists (d :: ds), s1, []. split; [reflexivity|]. split; [exact Hc1|].
    repeat split; try discriminate; cbn; lia.
Qed.

(** X23 (src/src/scrapers/company_lists_scraper.py, _scrape_one_site): for a
    configured site the cascade never raises; it starts with the GET of the
    static attempt; when nothing follows that GET the static items are what
    it returns and they are not empty; otherwise it launched exactly one
    browser, and it asked the LLM at most once, only after the browser and
    only when an LLM service is configured. *)
Theorem _scrape_one_site_cascade (key : string) (info : Site.t) (s : CState W) :
  sites !! key = Some info ->
  exists items s' rest,
    _scrape_one_site proxy_url llm_service key s = (Ok items, s') /\
    calls s' = calls s ++ Get (Site.url info) (Site.use_custom_ua info) proxy_url :: rest /\
    (rest = [] /\ items <> [] \/ launches rest = 1%nat) /\
    (llm_calls rest <= 1)%nat /\
    (llm_calls rest = 1%nat -> launches rest = 1%nat /\ llm_service = true).
Proof.
  intros Hkey.
  destruct (scrape_one_site_counts key info s Hkey)
    as (items & s' & rest & Hrun & Hc & Hn & Hl & Hllm & Hnaive).
  exists items, s', rest. split; [exact Hrun|]. split; [exact Hc|].
  split; [|split; assumption].
  destruct (launches rest) as [|[|k]] eqn:Hk; [left; auto | right; reflexivity | lia].
Qed.

End SiteCascade.

Section ListingRun.
Import Listing.

(** The cascade on the APM list when the static page already lists a
    company: one GET, no browser. *)
Lemma _scrape_one_site_cascade_witness :
  exists items s' rest,
    CompanyListsScraper._scrape_one_site None true "apmlist" Listing.start
      = (Ok items, s') /\
    CompanyListsScraper.calls s'
      = CompanyListsScraper.calls Listing.start ++
        CompanyListsScraper.Get
          (CompanyListsScraper.Site.url CompanyListsScraper.apmlist)
          (CompanyListsScraper.Site.use_custom_ua CompanyListsScraper.apmlist) None
        :: rest /\
    (rest = [] /\ items <> [] \/ CompanyListsScraper.launches rest = 1%nat) /\
    (CompanyListsScraper.llm_calls rest <= 1)%nat /\
    (CompanyListsScraper.llm_calls rest = 1%nat ->
     CompanyListsScraper.launches rest = 1%nat /\ true = true).
Proof.
  apply (_scrape_one_site_cascade None true "apmlist" CompanyListsScraper.apmlist
           Listing.start).
  reflexivity.
Defined.

End ListingRun.

Section AllSites.
Import CompanyListsScraper.
Context {W : Type} `{Collaborators W}.
Variables (proxy_url : option string) (llm_service : bool).

Ltac count_calls :=
  unfold wheels, reloads, closes, llm_calls, launches in *;
  rewrite ?List.filter_app, ?length_app in *; cbn in *; try lia.

(** One turn of the loop over the toggles, for a configured key. *)
Lemma toggles_loop_step (key : string) (info : Site.t) (do_scrape : bool)
      (rest : list (string * bool)) (final_list : list (string * pyval * pyval))
      (s : CState W) :
  sites !! key = Some info ->
  exists data s1 new,
    (if do_scrape then _scrape_one_site proxy_url llm_service key s else (Ok [], s))
    = (Ok data, s1) /\
    toggles_loop proxy_url llm_service ((key, do_scrape) :: rest) final_list s
      = toggles_loop proxy_url llm_service rest (final_list ++ tagged key data) s1 /\
    calls s1 = calls s ++ new /\
    (launches new <= Nat.b2n do_scrape)%nat /\
    (llm_calls new <= Nat.b2n do_scrape)%nat /\
    (llm_service = false -> llm_calls new = 0%nat).
Proof.
  intros Hkey. cbn [toggles_loop]. destruct do_scrape; cbn [andb].
  - rewrite bool_decide_eq_true_2 by (rewrite Hkey; eauto).
    unfold cbind at 1.
    destruct (scrape_one_site_counts proxy_url llm_service key info s Hkey)
      as (items & s' & calls_after & -> & Hc & Hn & Hl & Hllm & _).
    exists items, s', (Get (Site.url info) (Site.use_custom_ua info) proxy_url :: calls_after).
    split; [reflexivity|]. split; [reflexivity|]. split; [exact Hc|].
    split; [count_calls|]. split; [count_calls|].
    intros Hoff.
    assert (Hnot : llm_calls calls_after <> 1%nat).
    { intros Hone. destruct (Hllm Hone) as [_ Hon]. congruence. }
    revert Hnot. count_calls.
  - exists [], s, []. unfold tagged. cbn [map]. rewrite !app_nil_r.
    repeat split; cbn; lia.
Qed.

(** X24 (src/src/scrapers/company_lists_scraper.py, scrape_all_sites): the
    run over the three sites never raises. It visits latka, then the APM
    list, then the growth list, each in the state the one before left: a
    site that is switched on contributes what [_scrape_one_site] returns for
    it there, a site that is switched off contributes nothing and leaves the
    state as it is; the result is these items in that order, each tagged
    with the key of its site. The run launches at most one browser and asks
    the LLM at most once per site switched on, never without an LLM
    service. *)
Theorem scrape_all_sites_in_order (latka apmlist growthlist : bool) (s : CState W) :
  exists d1 s1 d2 s2 d3 s3 new,
    (if latka then _scrape_one_site proxy_url llm_service "latka" s
     else (Ok [], s)) = (Ok d1, s1) /\
    (if apmlist then _scrape_one_site proxy_url llm_service "apmlist" s1
     else (Ok [], s1)) = (Ok d2, s2) /\
    (if growthlist then _scrape_one_site proxy_url llm_service "growthlist" s2
     else (Ok [], s2)) = (Ok d3, s3) /\
    scrape_all_sites proxy_url llm_service latka apmlist growthlist s
      = (Ok (tagged "latka" d1 ++ tagged "apmlist" d2 ++ tagged "growthlist" d3), s3) /\
    calls s3 = calls s ++ new /\
    (launches new <= Nat.b2n latka + Nat.b2n apmlist + Nat.b2n growthlist)%nat /\
    (llm_calls new <= Nat.b2n latka + Nat.b2n apmlist + Nat.b2n growthlist)%nat /\
    (llm_service = false -> llm_calls new = 0%nat).
Proof.
  unfold scrape_all_sites.
  destruct (toggles_loop_step "latka" CompanyListsScraper.latka latka
              [("apmlist", apmlist); ("growthlist", growthlist)] [] s eq_refl)
    as (d1 & s1 & n1 & Hsite1 & -> & Hc1 & Hn1 & Hl1 & Hs1).
  destruct (toggles_loop_step "apmlist" CompanyListsScraper.apmlist apmlist
              [("growthlist", growthlist)] ([] ++ tagged "latka" d1) s1 eq_refl)
    as (d2 & s2 & n2 & Hsite2 & -> & Hc2 & Hn2 & Hl2 & Hs2).
  destruct (toggles_loop_step "growthlist" CompanyListsScraper.growthlist growthlist
              [] (([] ++ tagged "latka" d1) ++ tagged "apmlist" d2) s2 eq_refl)
    as (d3 & s3 & n3 & Hsite3 & -> & Hc3 & Hn3 & Hl3 & Hs3).
  exists d1, s1, d2, s2, d3, s3, (n1 ++ n2 ++ n3).
  split; [exact Hsite1|]. split; [exact Hsite2|]. split; [exact Hsite3|].
  split.
  { cbn [toggles_loop]. unfold cret. rewrite app_nil_l, <- app_assoc. reflexivity. }
  split; [rewrite Hc3, Hc2, Hc1, <- !app_assoc; reflexivity|].
  clear Hsite1 Hsite2 Hsite3.
  split; [clear Hs1 Hs2 Hs3; count_calls|].
  split; [clear Hs1 Hs2 Hs3; count_calls|].
  intros Hoff. specialize (Hs1 Hoff). specialize (Hs2 Hoff). specialize (Hs3 Hoff).
  count_calls.
Qed.

End AllSites.

(** * Properties of the stores *)

Section SheetsFacts.
Import GoogleSheetsService.
Context {W : Type} `{Worksheet W}.

(** The header step asks for the values and writes at most one row: the
    required header on an empty sheet, or the existing header followed by
    the required columns it lacks. *)
Lemma ensure_columns_exist_calls (required : list string) (s : Sheet W) :
  exists header,
    calls (ensure_columns_exist required s) = calls s ++ GetAllValues :: header /\
    (header = [] \/
     header = [AppendRow (map PStr required)] \/
     exists existing missing,
       header = [InsertRow (map PStr (existing ++ missing)) 1] /\
       missing <> [] /\
       (forall col, col ∈ missing <-> col ∈ required /\ col ∉ existing)).
Proof.
  unfold ensure_columns_exist.
  destruct (get_all_values (backend s)) as [[[|existing_columns others]|e] w].
  - destruct (append_row (map PStr required) w) as [r w'].
    exists [AppendRow (map PStr required)]. cbn [calls].
    split; [now rewrite <- app_assoc | right; left; reflexivity].
  - destruct (List.filter (fun col => negb (str_in col existing_columns)) required)
      as [|m ms] eqn:Hmissing.
    + exists []. split; [reflexivity | left; reflexivity].
    + destruct (insert_row (map PStr (existing_columns ++ m :: ms)) 1 w) as [r w'].
      exists [InsertRow (map PStr (existing_columns ++ m :: ms)) 1]. cbn [calls].
      split; [now rewrite <- app_assoc|].
      right; right. exists existing_columns, (m :: ms).
      split; [reflexivity|]. split; [discriminate|].
      intros col. rewrite <- Hmissing.
      rewrite list_elem_of_In, List.filter_In, <- list_elem_of_In.
      rewrite negb_true_iff.
      split; intros [Hin Hnot]; (split; [exact Hin|]).
      * intros Hex. apply str_in_elem_of in Hex. congruence.
      * destruct (str_in col existing_columns) eqn:Hsi; [|reflexivity].
        exfalso. apply Hnot. now apply str_in_elem_of.
  - exists []. split; [reflexivity | left; reflexivity].
Qed.

(** The loop writes the rows of the jobs in order, up to and including the
    first one that the worksheet refuses. *)
Lemma rows_loop_calls (jobs : list (gmap string pyval)) :
  forall s : Sheet W, exists r (s' : Sheet W) k,
    rows_loop jobs s = (r, s') /\
    calls s' = calls s ++ map AppendRow (take k (map row_of jobs)) /\
    (k <= length jobs)%nat /\
    (jobs <> [] -> 1 <= k)%nat /\
    ((forall row w, fst (append_row row w) = Ok tt) -> k = length jobs).
Proof.
  induction jobs as [|job rest IH]; intros s.
  - exists (Ok tt), s, 0%nat. cbn. rewrite app_nil_r.
    repeat split; try lia. congruence.
  - cbn [rows_loop].
    destruct (append_row (row_of job) (backend s)) as [[[]|e] w] eqn:Hrow.
    + match goal with |- context [rows_loop rest ?st] =>
        destruct (IH st) as (r & s' & k & -> & Hc & Hk & _ & Hall) end.
      exists r, s', (S k). split; [reflexivity|]. cbn [calls] in Hc.
      split; [rewrite Hc; cbn; now rewrite <- app_assoc|].
      split; [cbn; lia|]. split; [lia|].
      intros Hok. cbn. now rewrite (Hall Hok).
    + eexists _, _, 1%nat. split; [reflexivity|]. cbn [calls].
      split; [cbn; now rewrite take_0|].
      split; [cbn; lia|]. split; [lia|].
      intros Hok. specialize (Hok (row_of job) (backend s)).
      rewrite Hrow in Hok. discriminate.
Qed.

(** X25 (src/src/services/google_sheets_service.py, append_jobs and
    ensure_columns_exist): given some jobs, [append_jobs] first reads the
    sheet, then writes at most one header row (the required columns on an
    empty sheet, else the existing header followed by the required columns
    it lacks, inserted as row 1), then appends the rows of the jobs in
    order, up to and including the first one the worksheet refuses: all of
    them when no append fails. It never raises, and without jobs it asks
    nothing. *)
Theorem sheets_append_jobs_calls
        (job : gmap string pyval) (rest : list (gmap string pyval)) (s : Sheet W) :
  append_jobs [] s = s /\
  exists header k,
    calls (append_jobs (job :: rest) s)
      = calls s ++ GetAllValues :: header
                ++ map AppendRow (take k (map row_of (job :: rest))) /\
    (1 <= k <= length (job :: rest))%nat /\
    ((forall row w, fst (append_row row w) = Ok tt) -> k = length (job :: rest)) /\
    (header = [] \/
     header = [AppendRow (map PStr required_columns)] \/
     exists existing missing,
       header = [InsertRow (map PStr (existing ++ missing)) 1] /\
       missing <> [] /\
       (forall col, col ∈ missing <-> col ∈ required_columns /\ col ∉ existing)).
Proof.
  split; [reflexivity|].
  unfold append_jobs.
  destruct (ensure_columns_exist_calls required_columns s) as (header & Hh & Hshape).
  destruct (rows_loop_calls (job :: rest) (ensure_columns_exist required_columns s))
    as (r & s' & k & Hrun & Hc & Hk & Hpos & Hall).
  rewrite Hrun. cbn [snd].
  exists header, k. split.
  { rewrite Hc, Hh. rewrite <- app_assoc. reflexivity. }
  split; [split; [apply Hpos; discriminate | exact Hk]|].
  split; [exact Hall | exact Hshape].
Qed.

End SheetsFacts.

Section AirtableFacts.
Import AirtableService.
Context {W : Type} `{Table W}.

(** The loop creates the records of the jobs in order, up to and including
    the first one that the table refuses. *)
Lemma records_loop_calls (jobs : list (gmap string pyval)) :
  forall s : Base W, exists r (s' : Base W) k,
    records_loop jobs s = (r, s') /\
    calls s' = calls s ++ map Create (take k (map record_of jobs)) /\
    (k <= length jobs)%nat /\
    (jobs <> [] -> 1 <= k)%nat /\
    ((forall record w, fst (table_create record w) = Ok tt) -> k = length jobs).
Proof.
  induction jobs as [|job rest IH]; intros s.
  - exists (Ok tt), s, 0%nat. cbn. rewrite app_nil_r.
    repeat split; try lia. congruence.
  - cbn [records_loop].
    destruct (table_create (record_of job) (backend s)) as [[[]|e] w] eqn:Hrow.
    + match goal with |- context [records_loop rest ?st] =>
        destruct (IH st) as (r & s' & k & -> & Hc & Hk & _ & Hall) end.
      exists r, s', (S k). split; [reflexivity|]. cbn [calls] in Hc.
      split; [rewrite Hc; cbn; now rewrite <- app_assoc|].
      split; [cbn; lia|]. split; [lia|].
      intros Hok. cbn. now rewrite (Hall Hok).
    + eexists _, _, 1%nat. split; [reflexivity|]. cbn [calls].
      split; [cbn; now rewrite take_0|].
      split; [cbn; lia|]. split; [lia|].
      intros Hok. specialize (Hok (record_of job) (backend s)).
      rewrite Hrow in Hok. discriminate.
Qed.

(** Every record holds the seven fields, whatever the job holds. *)
Lemma record_of_dom (job : gmap string pyval) :
  dom (record_of job) = (list_to_set required_fields : gset string).
Proof.
  unfold record_of, required_fields.
  rewrite !dom_insert_L, dom_empty_L. cbn. set_solver.
Qed.

(** X26 (src/src/services/airtable_service.py, append_jobs with
    ensure_fields_exist and get_existing_fields): given some jobs,
    [append_jobs] asks the table for its records once, with
    [all(page_size=5)], whatever comes back and however many records that
    is, and then creates the records of the jobs in order, up to and
    including the first one the table refuses: all of them when no create
    fails. Each record holds exactly the seven fields. It never raises, and
    without jobs it asks nothing. *)
Theorem airtable_append_jobs_calls
        (job : gmap string pyval) (rest : list (gmap string pyval)) (s : Base W) :
  append_jobs [] s = s /\
  exists k,
    calls (append_jobs (job :: rest) s)
      = calls s ++ All 5 :: map Create (take k (map record_of (job :: rest))) /\
    (1 <= k <= length (job :: rest))%nat /\
    ((forall record w, fst (table_create record w) = Ok tt) ->
     k = length (job :: rest)) /\
    (forall record, Create record ∈ calls (append_jobs (job :: rest) s) ->
                    Create record ∈ calls s \/
                    dom record = (list_to_set required_fields : gset string)).
Proof.
  split; [reflexivity|].
  unfold append_jobs, ensure_fields_exist, get_existing_fields.
  destruct (table_all 5 (backend s)) as [records w].
  set (s1 := {| backend := w; calls := calls s ++ [All 5] |}).
  assert (Hs1 : snd (let (existing_fields, s2) :=
                       match records with
                       | Ok [] => (∅, s1)
                       | Ok (record :: rest0) => (field_names_of (record :: rest0) ∅, s1)
                       | Raise _ => (∅, s1)
                       end in
                     (List.filter (fun field => bool_decide (field ∉ existing_fields))
                                  required_fields, s2)) = s1).
  { destruct records as [[|record others]|e]; reflexivity. }
  rewrite Hs1.
  destruct (records_loop_calls (job :: rest) s1)
    as (r & s' & k & Hrun & Hc & Hk & Hpos & Hall).
  rewrite Hrun. cbn [snd].
  assert (Hcalls : calls s'
                   = calls s ++ All 5 :: map Create (take k (map record_of (job :: rest)))).
  { rewrite Hc. subst s1. cbn [calls]. now rewrite <- app_assoc. }
  exists k. split; [exact Hcalls|].
  split; [split; [apply Hpos; discriminate | exact Hk]|].
  split; [exact Hall|].
  intros record Hin. rewrite Hcalls in Hin.
  apply elem_of_app in Hin as [Hin | Hin]; [now left|].
  apply elem_of_cons in Hin as [Hin | Hin]; [discriminate|].
  right. apply list_elem_of_fmap in Hin as (made & [= ->] & Hmade).
  apply elem_of_take in Hmade as (i & Hi & _).
  apply list_lookup_fmap_Some in Hi as (j & -> & _).
  apply record_of_dom.
Qed.

End AirtableFacts.

(** X27 (src/src/services/google_sheets_service.py and airtable_service.py,
    append_jobs, on the jobs of src/src/scrapers/site_scraper.py,
    _extract_job_data): the stores read the capitalised keys [Company] and
    [Title], the scrapers write the lower-case keys [company], [title] and
    [url]. So the sheet row of a scraped job is seven empty cells, and its
    Airtable record holds the job's URL and six empty fields: the title and
    the company of a scraped job reach neither store. *)
Theorem stores_lose_scraped_fields
        (elem : option Tag) (company_url source_url : string)
        (job : gmap string pyval) :
  SiteScraper._extract_job_data elem company_url source_url = Some job ->
  GoogleSheetsService.row_of job = repeat (PStr "") 7 /\
  AirtableService.record_of job
    = <["url" := PStr source_url]>
        (list_to_map (map (fun field => (field, PStr ""))
                          AirtableService.required_fields)).
Proof.
  intros Hjob. apply _extract_job_data_shape in Hjob as [title ->].
  split.
  - unfold GoogleSheetsService.row_of, GoogleSheetsService.required_columns.
    cbn [map repeat]. repeat f_equal; by simplify_map_eq.
  - unfold AirtableService.record_of, AirtableService.required_fields.
    cbn [map list_to_map foldr fst snd uncurry].
    apply map_eq. intros key.
    destruct (decide (key = "Company")) as [->|?]; [by simplify_map_eq|].
    destruct (decide (key = "Title")) as [->|?]; [by simplify_map_eq|].
    destruct (decide (key = "Location")) as [->|?]; [by simplify_map_eq|].
    destruct (decide (key = "job_type")) as [->|?]; [by simplify_map_eq|].
    destruct (decide (key = "experience")) as [->|?]; [by simplify_map_eq|].
    destruct (decide (key = "url")) as [->|?]; [by simplify_map_eq|].
    destruct (decide (key = "description")) as [->|?]; [by simplify_map_eq|].
    by simplify_map_eq.
Qed.

Lemma stores_lose_scraped_fields_witness :
  GoogleSheetsService.row_of Fixtures.scraped_job = repeat (PStr "") 7 /\
  AirtableService.record_of Fixtures.scraped_job
    = <["url" := PStr "u"]>
        (list_to_map (map (fun field => (field, PStr ""))
                          AirtableService.required_fields)).
Proof.
  apply (stores_lose_scraped_fields (Some {| get_text := "Engineer" |}) "acme" "u"
           Fixtures.scraped_job).
  reflexivity.
Defined.

(** * Properties of the feedback agent and of the entry point *)

Section AgentFacts.
Import AutonomousAgent.

(** No ratio of the stored history divides by zero. *)
Lemma ratios_loop_stub :
  ratios_loop (map_to_list HistoryService.retrieve_history) = Ok tt.
Proof. vm_compute. reflexivity. Qed.

(** X28 (src/src/agentic.py, update_config with _adjust_keywords and
    _prioritize_sources): on a configuration without a [filters] entry
    [update_config] raises [KeyError] on [filters] and leaves the
    configuration as it was: the titles are read with defaults, but written
    with a subscript. With a [filters] entry the configuration afterwards
    differs in the job titles only, which are the configured titles, once
    each, with [Project Manager] added exactly when the history counts more
    than 5 relevant jobs for somecompany.com; the call returns that
    configuration unless a ratio divides by zero. With the history that
    [HistoryService.retrieve_history] returns it always returns, with
    [Project Manager] among the titles. *)
Theorem update_config_keywords
        (history : gmap string (gmap string Z)) (config : Config) :
  match config !! "filters" with
  | None => update_config history config = (Raise (KeyError "filters"), config)
  | Some filters =>
      exists titles,
        snd (update_config history config)
          = <["filters" := <["job_titles" := titles]> filters]> config /\
        NoDup titles /\
        (forall t, t ∈ titles <->
                   t ∈ default [] (filters !! "job_titles") \/
                   t = "Project Manager" /\
                   5 < default 0 (default ∅ (history !! "https://somecompany.com")
                                    !! "relevant")) /\
        (fst (update_config history config) = Ok (snd (update_config history config)) \/
         fst (update_config history config) = Raise (OtherError "ZeroDivisionError")) /\
        (history = HistoryService.retrieve_history ->
         fst (update_config history config) = Ok (snd (update_config history config)) /\
         "Project Manager" ∈ titles)
  end.
Proof.
  unfold update_config, _adjust_keywords, _prioritize_sources.
  destruct (config !! "filters") as [filters|] eqn:Hf; [|reflexivity].
  cbn [default].
  set (old := default [] (filters !! "job_titles")).
  set (relevant := default 0 (default ∅ (history !! "https://somecompany.com") !! "relevant")).
  set (titles := if bool_decide ("Project Manager" ∉ (list_to_set old : gset string))
                 then if 5 <? relevant
                      then (list_to_set old : gset string) ∪ {["Project Manager"]}
                      else list_to_set old
                 else list_to_set old).
  exists (elements titles).
  assert (Hmem : forall t, t ∈ elements titles <->
                           t ∈ old \/ t = "Project Manager" /\ 5 < relevant).
  { intros t. rewrite elem_of_elements. subst titles.
    destruct (bool_decide_reflect ("Project Manager" ∉ (list_to_set old : gset string)))
      as [Hnot|Hin].
    - destruct (Z.ltb_spec 5 relevant) as [Hlt|Hge].
      + rewrite elem_of_union, elem_of_list_to_set, elem_of_singleton. tauto.
      + rewrite elem_of_list_to_set. split; [tauto|]. intros [?|[_ ?]]; [assumption|lia].
    - apply dec_stable in Hin. rewrite elem_of_list_to_set in Hin.
      rewrite elem_of_list_to_set. split; [tauto|].
      intros [?|[-> _]]; assumption. }
  destruct (ratios_loop (map_to_list history)) as [[]|e] eqn:Hratios; cbn [fst snd].
  - split; [reflexivity|]. split; [apply NoDup_elements|]. split; [exact Hmem|].
    split; [left; reflexivity|]. intros ->. split; [reflexivity|].
    apply Hmem. right. split; [reflexivity|]. subst relevant. vm_compute. reflexivity.
  - split; [reflexivity|]. split; [apply NoDup_elements|]. split; [exact Hmem|].
    assert (He : e = OtherError "ZeroDivisionError").
    { clear -Hratios. induction (map_to_list history) as [|[source metrics] rest IH];
        cbn in Hratios; [discriminate|].
      destruct (_ =? 0); [congruence | auto]. }
    subst e. split; [right; reflexivity|].
    intros ->. rewrite ratios_loop_stub in Hratios. discriminate.
Qed.

End AgentFacts.

Section LoadFacts.
Import JobMain.




(** The assigned entry is in the dictionary. *)
Lemma dict_set_lookup (d : list (string * string)) (key value : string) :
  (key, value) ∈ dict_set d key value.
Proof.
  induction d as [|[k v] rest IH]; cbn.
  - apply list_elem_of_here.
  - destruct (String.eqb k key); [apply list_elem_of_here|].
    now apply list_elem_of_further.
Qed.




End LoadFacts.

Section MainFacts.
Import JobMain.
Context {W : Type} `{Runtime W}.

(** The loop asks about every company and only adds jobs of answers. *)
Lemma main_loop_asks_all (company_websites : list (string * string)) :
  forall (scraped_jobs : list (gmap string pyval)) (s : Run W),
  exists found (s' : Run W),
    main_loop company_websites scraped_jobs s = (scraped_jobs ++ found, s') /\
    calls s' = calls s ++ map Invoke (map snd company_websites) /\
    forall job, job ∈ found ->
      exists url jobs w,
        url ∈ map snd company_websites /\
        fst (agent_invoke_messages url w) = Ok (Dict (Some jobs)) /\
        job ∈ jobs.
Proof.
  induction company_websites as [|[company url] rest IH]; intros scraped_jobs s.
  - exists [], s. cbn. rewrite !app_nil_r. split; [reflexivity|]. split; [reflexivity|].
    intros job Hin. apply elem_of_nil in Hin. contradiction.
  - cbn [main_loop].
    destruct (agent_invoke_messages url (backend s)) as [r w] eqn:Hask.
    set (s1 := {| backend := w; calls := calls s ++ [Invoke url] |}).
    assert (Hskip : exists found (s' : Run W),
               main_loop rest scraped_jobs s1 = (scraped_jobs ++ found, s') /\
               calls s' = calls s ++ map Invoke (map snd ((company, url) :: rest)) /\
               forall job, job ∈ found ->
                 exists url0 jobs w0,
                   url0 ∈ map snd ((company, url) :: rest) /\
                   fst (agent_invoke_messages url0 w0) = Ok (Dict (Some jobs)) /\
                   job ∈ jobs).
    { destruct (IH scraped_jobs s1) as (found & s' & Hrun & Hc & Hfrom).
      exists found, s'. split; [exact Hrun|].
      split; [rewrite Hc; subst s1; cbn; now rewrite <- app_assoc|].
      intros job Hin. destruct (Hfrom job Hin) as (url0 & jobs & w0 & Hu & Ha & Hj).
      exists url0, jobs, w0. split; [cbn; now apply list_elem_of_further | now split]. }
    destruct r as [[[[|job jobs]|]|]|e]; try exact Hskip.
    destruct (IH (scraped_jobs ++ job :: jobs) s1) as (found & s' & Hrun & Hc & Hfrom).
    exists ((job :: jobs) ++ found), s'.
    split; [rewrite Hrun; now rewrite <- app_assoc|].
    split; [rewrite Hc; subst s1; cbn; now rewrite <- app_assoc|].
    intros j Hin. apply elem_of_app in Hin as [Hin|Hin].
    + exists url, (job :: jobs), (backend s).
      split; [cbn; apply list_elem_of_here|]. split; [now rewrite Hask | exact Hin].
    + destruct (Hfrom j Hin) as (url0 & jobs0 & w0 & Hu & Ha & Hj).
      exists url0, jobs0, w0. split; [cbn; now apply list_elem_of_further | now split].
Qed.

(** X30 (job_main.py, main): without companies [main] returns at once;
    otherwise it creates the agent and, when that succeeds, asks it about
    every company in the order of the list, whatever the earlier answers
    were; every scraped job comes from an answer that held jobs; the file is
    written once, as the last call, with what [filter_jobs] returned for the
    scraped jobs under the [job_filters] entry, and it is not written when
    the filter raises. *)
Theorem main_asks_every_company
        (company_websites : list (string * string))
        (config : gmap string (option Filters.FilterConfig)) (s : Run W) :
  exists r (s' : Run W) new,
    main company_websites config s = (r, s') /\
    calls s' = calls s ++ new /\
    match company_websites with
    | [] => r = Ok tt /\ new = []
    | _ :: _ =>
        (new = [CreateAgent] /\ exists e, r = Raise e) \/
        exists scraped tail,
          new = CreateAgent :: map Invoke (map snd company_websites) ++ tail /\
          (forall job, job ∈ scraped ->
             exists url jobs w,
               url ∈ map snd company_websites /\
               fst (agent_invoke_messages url w) = Ok (Dict (Some jobs)) /\
               job ∈ jobs) /\
          match Filters.filter_jobs scraped
                  (default (Some empty_dict) (config !! "job_filters")) with
          | Raise e => r = Raise e /\ tail = []
          | Ok filtered_jobs => tail = [Dump filtered_jobs]
          end
    end.
Proof.
  destruct company_websites as [|first others].
  - exists (Ok tt), s, []. cbn. rewrite app_nil_r. repeat split.
  - unfold main.
    destruct (create_scraper_agent (backend s)) as [[[]|e] w].
    + set (s1 := {| backend := w; calls := calls s ++ [CreateAgent] |}).
      destruct (main_loop_asks_all (first :: others) [] s1)
        as (found & s2 & Hrun & Hc & Hfrom).
      rewrite Hrun. cbn [app].
      destruct (Filters.filter_jobs found
                  (default (Some empty_dict) (config !! "job_filters")))
        as [filtered_jobs|e] eqn:Hfilter.
      * destruct (json_dump filtered_jobs (backend s2)) as [r w'].
        eexists r, _, _. split; [reflexivity|]. cbn [calls].
        split; [rewrite Hc; subst s1; cbn [calls]; rewrite <- !app_assoc; reflexivity|].
        right. exists found, [Dump filtered_jobs].
        split; [reflexivity|]. split; [exact Hfrom|]. now rewrite Hfilter.
      * eexists (Raise e), s2, _. split; [reflexivity|].
        split; [rewrite Hc; subst s1; cbn [calls]; rewrite <- !app_assoc; reflexivity|].
        right. exists found, []. split; [now rewrite app_nil_r|].
        split; [exact Hfrom|]. now rewrite Hfilter.
    + eexists (Raise e), _, [CreateAgent]. split; [reflexivity|].
      split; [reflexivity|]. left. split; [reflexivity | now exists e].
Qed.

End MainFacts.
